(** * Population pyramid generator: a shallow embedding and its properties

    The program (src/population-pyramid-generator.py) is a Streamlit script:
    three helpers, [load_population_data], [create_population_pyramid] and
    [create_data_table], and the blocks of the script that process an upload
    and a click on "Generate Pyramids".

    Modelling choices, all visible in the definitions below:
    - A Python text is its UTF-8 byte string ([string]). On a text made of
      ASCII characters [str.isdigit] and [str.strip] are defined here; on a
      text with a character outside ASCII they are left to the runtime (the
      class [Unicode]).
    - A cell of a sheet is a finite number, a missing value (NaN) or a text.
      Numbers are idealised as exact rationals in canonical form ([Qc]):
      neither the rounding of float64 nor the wrap-around of int64 is
      modelled, and the statements about sums keep the counts below 2^62.
    - The dtype of a row read from a table is kept where numpy depends on it:
      a row cut from columns that hold a text somewhere is an object array,
      whose minimum and maximum treat NaN as Python's comparisons do.
    - A raised exception is a value ([Raised]); the script-level code runs in
      a state monad over the Streamlit session whose state survives a raise,
      as [st.session_state] does.
    - Library calls (pandas, numpy, matplotlib) are modelled by what they
      return or raise on the arguments the script passes; the chart is the
      record of the numeric and textual content handed to matplotlib. *)

From stdpp Require Import gmap strings list sorting pretty.
From Stdlib Require Import QArith Qcanon Qround Lqa.
From Stdlib.Strings Require Import Ascii.

Close Scope Qc_scope.
Close Scope Q_scope.


(** ** Exceptions and results *)

Inductive exn :=
  (** [KeyError(key)]: the label [key] is not a column. *)
  | KeyError (key : string)
  (** pandas' [KeyError] for a list of labels [asked] of which the labels
      [missing] are not columns; its argument is a sentence that names
      them. *)
  | KeyErrorLabels (asked missing : list string)
  | TypeError (msg : string)
  | ValueError (msg : string)
  | IndexError (msg : string)
  | ReadError (msg : string).

Inductive outcome (A : Type) :=
  | Returned (a : A)
  | Raised (e : exn).
Arguments Returned {A} a.
Arguments Raised {A} e.

Global Instance outcome_ret : MRet outcome := fun A a => Returned a.
Global Instance outcome_bind : MBind outcome := fun A B k m =>
  match m with
  | Returned a => k a
  | Raised e => Raised e
  end.

Global Instance outcome_fmap : FMap outcome := fun A B f m =>
  match m with
  | Returned a => Returned (f a)
  | Raised e => Raised e
  end.

Definition double_quote : string := String (ascii_of_nat 34) "".

Fixpoint join (sep : string) (l : list string) : string :=
  match l with
  | [] => ""
  | [s] => s
  | s :: l' => s +:+ sep +:+ join sep l'
  end.

(** [repr] of a list of texts, each shown between single quotes, as Python
    shows a text that holds no quote and nothing to escape. *)
Definition py_repr_list (l : list string) : string :=
  "[" +:+ join ", " ((fun s => "'" +:+ s +:+ "'") <$> l) +:+ "]".

(** The sentence of pandas for labels that are not columns: it lists the
    missing ones, or says that none of the labels asked for is a column. *)
Definition labels_message (asked missing : list string) : string :=
  if forallb (fun a => bool_decide (a ∈ missing)) asked
  then "None of [Index(" +:+ py_repr_list asked
       +:+ ", dtype='object')] are in the [columns]"
  else py_repr_list missing +:+ " not in index".

(** [str(e)] of the exceptions above; a [KeyError] prints the repr of its
    argument. *)
Definition str_exn (e : exn) : string :=
  match e with
  | KeyError k => "'" +:+ k +:+ "'"
  | KeyErrorLabels asked missing =>
      double_quote +:+ labels_message asked missing +:+ double_quote
  | TypeError m | ValueError m | IndexError m | ReadError m => m
  end.

(** ** Python string operations used by the loader *)

(** What Python's [str.isdigit] and [str.strip] make of a text that has a
    character outside ASCII: Unicode has more digits and more white space
    than ASCII, and which characters they are is left to the runtime. *)
Class Unicode := {
  unicode_isdigit : string → bool;
  unicode_strip : string → string
}.

Module PyStr.

(** A byte below 128 is an ASCII character; the other bytes are the pieces
    of the UTF-8 form of the characters outside ASCII. *)
Definition is_ascii_char (c : ascii) : bool := (nat_of_ascii c <? 128)%nat.

Fixpoint is_ascii (s : string) : bool :=
  match s with
  | EmptyString => true
  | String c s' => is_ascii_char c && is_ascii s'
  end.

Definition is_digit (c : ascii) : bool :=
  let n := nat_of_ascii c in (48 <=? n)%nat && (n <=? 57)%nat.

(** [str.isspace] on one ASCII character: tab to carriage return, the four
    separators 28 to 31, and the space. *)
Definition is_space (c : ascii) : bool :=
  let n := nat_of_ascii c in
  ((9 <=? n)%nat && (n <=? 13)%nat) || ((28 <=? n)%nat && (n <=? 32)%nat).

Fixpoint all_digits (s : string) : bool :=
  match s with
  | EmptyString => true
  | String c s' => is_digit c && all_digits s'
  end.

(** [s.isdigit()] for an ASCII text: at least one character, and all of
    them among 0 to 9. *)
Definition ascii_isdigit (s : string) : bool :=
  match s with
  | EmptyString => false
  | _ => all_digits s
  end.

(** [s.isdigit()]. *)
Definition isdigit `{Unicode} (s : string) : bool :=
  if is_ascii s then ascii_isdigit s else unicode_isdigit s.

(** [s.startswith(p)]. A text starts with the ASCII text [p] exactly when
    its bytes start with the bytes of [p]. *)
Fixpoint startswith (p s : string) : bool :=
  match p, s with
  | EmptyString, _ => true
  | String a p', String b s' => bool_decide (a = b) && startswith p' s'
  | String _ _, EmptyString => false
  end.

(** [s.split(sep)] for a one-character ASCII separator: the pieces between
    the occurrences of [sep], always at least one piece. (In UTF-8 the byte
    of an ASCII character occurs only as that character.) *)
Fixpoint split (sep : ascii) (s : string) : list string :=
  match s with
  | EmptyString => [""]
  | String c s' =>
      if bool_decide (c = sep) then "" :: split sep s'
      else match split sep s' with
           | [] => [String c ""]
           | piece :: pieces => String c piece :: pieces
           end
  end.

Fixpoint lstrip (s : string) : string :=
  match s with
  | EmptyString => ""
  | String c s' => if is_space c then lstrip s' else s
  end.

Definition rstrip (s : string) : string :=
  String.rev (lstrip (String.rev s)).

(** [s.strip()] for an ASCII text. *)
Definition ascii_strip (s : string) : string := rstrip (lstrip s).

(** [s.strip()]. *)
Definition strip `{Unicode} (s : string) : string :=
  if is_ascii s then ascii_strip s else unicode_strip s.

End PyStr.

(** ** Data frames *)

(** A cell of a sheet: a number, a missing value (NaN), or text. *)
Inductive cell :=
  | Num (x : Qc)
  | NaN
  | Str (s : string).

Definition is_text (c : cell) : bool :=
  match c with Str _ => true | _ => false end.

(** A data frame: the column labels and the rows, each row holding one cell
    per column in column order. pandas keeps labels unique when it reads a
    sheet; a label is resolved to its first position. The frames read from
    sheets hold cells; the table the formatter computes holds cells of its
    own (see [table_cell]). *)
Record Frame (C : Type) := mkDataFrame {
  columns : list string;
  rows : list (list C)
}.
Arguments mkDataFrame {C} columns rows.
Arguments columns {C} f.
Arguments rows {C} f.

Definition DataFrame := Frame cell.

(** An uploaded workbook: either it cannot be read, or it parses to a frame
    whose header is the row after the skipped preamble, with the labels
    already made texts ([astype(str)], line 33). *)
Inductive xlsx :=
  | Unreadable (msg : string)
  | Sheet (raw : DataFrame).

(** [pd.read_excel(file, skiprows=header_row)]. The preamble is already
    accounted for in [Sheet]; the argument is kept for the call shape. *)
Definition read_excel (file : xlsx) (skiprows : nat) : outcome DataFrame :=
  match file with
  | Unreadable msg => Raised (ReadError msg)
  | Sheet raw => Returned raw
  end.

(** The test of the comprehension in [load_population_data]:
    [c.split('-')[0].isdigit() or c.startswith('100')]. A split always has
    a first piece. *)
Definition is_age_col `{Unicode} (c : string) : bool :=
  match PyStr.split "-" c with
  | first :: _ => PyStr.isdigit first
  | [] => false
  end || PyStr.startswith "100" c.

(** [load_population_data(file_path, header_row=16)]. *)
Definition load_population_data `{Unicode} (file_path : xlsx) (header_row : nat)
    : outcome (DataFrame * list string) :=
  df ← read_excel file_path header_row;
  let df : DataFrame := mkDataFrame (fmap PyStr.strip (columns df)) (rows df) in
  let age_cols := filter (fun c => is_age_col c = true) (columns df) in
  Returned (df, age_cols).

(** *** The detection rule in the words of the specification *)

Module AgeBandSpec.

Fixpoint has_hyphen (s : string) : bool :=
  match s with
  | EmptyString => false
  | String c s' => bool_decide (c = "-"%char) || has_hyphen s'
  end.

(** [pre] is the substring of [c] before its first hyphen (all of [c] when
    it has none). *)
Definition before_first_hyphen (c pre : string) : Prop :=
  has_hyphen pre = false ∧ (c = pre ∨ ∃ rest, c = pre +:+ "-" +:+ rest).

(** The ten decimal digits, and the characters of a text. *)
Definition decimal_digits : list ascii :=
  ["0"; "1"; "2"; "3"; "4"; "5"; "6"; "7"; "8"; "9"]%char.

Fixpoint characters (s : string) : list ascii :=
  match s with
  | EmptyString => []
  | String c s' => c :: characters s'
  end.

Definition ascii_text (s : string) : Prop :=
  Forall (fun c => (nat_of_ascii c < 128)%nat) (characters s).

(** Entirely numeric: an ASCII text is so when it is not empty and each of
    its characters is one of the ten decimal digits; for a text with
    characters outside ASCII it is what the runtime takes for digits. *)
Definition entirely_numeric `{Unicode} (s : string) : Prop :=
  (ascii_text s ∧ s ≠ "" ∧ Forall (fun c => c ∈ decimal_digits) (characters s))
  ∨ (¬ ascii_text s ∧ unicode_isdigit s = true).

Definition starts_with_100 (c : string) : Prop :=
  ∃ rest, c = "100" +:+ rest.

Definition age_band `{Unicode} (c : string) : Prop :=
  (∃ pre, before_first_hyphen c pre ∧ entirely_numeric pre)
  ∨ starts_with_100 c.

End AgeBandSpec.

(** ** Numbers as numpy holds them *)

(** An element of an array made from the cells of a sheet: a (rational)
    number or NaN ([None]). *)
Definition float64 := option Qc.
Definition nan : float64 := None.
Definition fin (x : Qc) : float64 := Some x.

(** A float that can also be an infinity: an element of the arrays of the
    formatter, where [pd.to_numeric] makes an infinity of a text such as
    "inf". *)
Inductive float64x :=
  | xfin (x : Qc)
  | xinf (negative : bool)
  | xnan.

(** The dtype of an array as far as the script depends on it: the numeric
    dtypes (int64 and float64, whose numbers are idealised alike) and
    object. *)
Inductive dtype := numeric_dtype | object_dtype.

Definition of_decimal (q : Q) : Qc := Q2Qc q.

Definition Qc_min (x y : Qc) : Qc := if decide (x ≤ y)%Qc then x else y.
Definition Qc_max (x y : Qc) : Qc := if decide (x ≤ y)%Qc then y else x.
Definition Qc_abs (x : Qc) : Qc := if decide (0 ≤ x)%Qc then x else (- x)%Qc.

Module Float.

Definition neg (a : float64) : float64 := (fun x => (- x)%Qc) <$> a.
Definition abs (a : float64) : float64 := Qc_abs <$> a.

Definition lift2 (f : Qc → Qc → Qc) (a b : float64) : float64 :=
  match a, b with
  | Some x, Some y => Some (f x y)
  | _, _ => None
  end.

Definition add := lift2 Qcplus.
Definition mul := lift2 Qcmult.
Definition div := lift2 Qcdiv.
(** numpy's [minimum] and [maximum] on a float array: NaN wins. *)
Definition min := lift2 Qc_min.
Definition max := lift2 Qc_max.

(** [a > b] and [a <= b]; every comparison with NaN is false. *)
Definition gt (a b : float64) : bool :=
  match a, b with
  | Some x, Some y => bool_decide (y < x)%Qc
  | _, _ => false
  end.

Definition le (a b : float64) : bool :=
  match a, b with
  | Some x, Some y => bool_decide (x ≤ y)%Qc
  | _, _ => false
  end.

(** numpy's [minimum] and [maximum] on an object array compare the two
    elements as Python does, [a if a <= b else b] and [a if a >= b else b]:
    the second element is the result whenever one of them is NaN. *)
Definition obj_min (a b : float64) : float64 := if le a b then a else b.
Definition obj_max (a b : float64) : float64 := if le b a then a else b.

(** [a + b] on floats with infinities. *)
Definition addx (a b : float64x) : float64x :=
  match a, b with
  | xnan, _ | _, xnan => xnan
  | xfin x, xfin y => xfin (x + y)%Qc
  | xinf s, xfin _ | xfin _, xinf s => xinf s
  | xinf s, xinf t => if bool_decide (s = t) then xinf s else xnan
  end.

(** Python's builtin [max(a, b)]: the first argument unless the second is
    greater. *)
Definition py_max (a b : float64) : float64 := if gt b a then b else a.

End Float.

Module Np.

(** [arr.min()]: the reduction of the array, from its first element on, by
    the minimum of its dtype. In a float array a NaN is the result wherever
    it stands; in an object array a NaN is the result only when it stands
    last. *)
Definition min (d : dtype) (arr : list float64) : outcome float64 :=
  match arr with
  | [] => Raised (ValueError
      "zero-size array to reduction operation minimum which has no identity")
  | x :: xs =>
      Returned (foldl (match d with
                       | numeric_dtype => Float.min
                       | object_dtype => Float.obj_min
                       end) x xs)
  end.

(** [arr.max()]. *)
Definition max (d : dtype) (arr : list float64) : outcome float64 :=
  match arr with
  | [] => Raised (ValueError
      "zero-size array to reduction operation maximum which has no identity")
  | x :: xs =>
      Returned (foldl (match d with
                       | numeric_dtype => Float.max
                       | object_dtype => Float.obj_max
                       end) x xs)
  end.

(** [arr.sum()]. *)
Definition sum (arr : list float64) : float64 :=
  foldl Float.add (fin 0%Qc) arr.

(** [np.arange(n)]. *)
Definition arange (n : nat) : list nat := seq 0 n.

(** Broadcasting of two one-dimensional arrays to a common shape. *)
Definition broadcast {A B} (xs : list A) (ys : list B) : outcome (list (A * B)) :=
  if decide (length xs = length ys) then Returned (zip xs ys)
  else match xs, ys with
       | [x], _ => Returned (fmap (fun y => (x, y)) ys)
       | _, [y] => Returned (fmap (fun x => (x, y)) xs)
       | _, _ => Raised (ValueError
           "shape mismatch: objects cannot be broadcast to a single shape")
       end.

(** [a + b] on the arrays of the formatter. The numbers are added as
    rationals: an array of int64 wraps around where a sum leaves the range
    of int64, which the statements exclude by a bound on the counts. *)
Definition add (a b : list float64x) : outcome (list float64x) :=
  match broadcast a b with
  | Returned ps => Returned (fmap (fun p => Float.addx p.1 p.2) ps)
  | Raised _ => Raised (ValueError "operands could not be broadcast together")
  end.

End Np.

(** A row of a table, as pandas hands it to the two helpers: its cells and
    the dtype of its array. *)
Record Series := mkSeries {
  dtype_of : dtype;
  cells : list cell
}.

(** [-series.values]: numbers are negated, text has no unary minus. *)
Definition values_neg (s : list cell) : outcome (list float64) :=
  mapM (fun c => match c with
                 | Num x => Returned (fin (- x)%Qc)
                 | NaN => Returned nan
                 | Str _ => Raised (TypeError "bad operand type for unary -: 'str'")
                 end) s.

(** [series.values / k] for an integer literal [k]. *)
Definition values_div (s : list cell) (k : Qc) : outcome (list float64) :=
  mapM (fun c => match c with
                 | Num x => Returned (fin (x / k)%Qc)
                 | NaN => Returned nan
                 | Str _ => Raised (TypeError
                     "unsupported operand type(s) for /: 'str' and 'int'")
                 end) s.

Definition array_div (arr : list float64) (k : Qc) : list float64 :=
  fmap (fun a => Float.div a (fin k)) arr.

(** ** The chart handed to matplotlib *)

(** One horizontal bar: its position on the y axis and its signed width. *)
Record bar := mkBar { bar_y : nat; bar_width : float64 }.

(** A text drawn in data coordinates. *)
Record label := mkLabel { label_x : float64; label_y : nat; label_text : string }.

Record chart := mkChart {
  bars_male : list bar;
  bars_female : list bar;
  value_labels : list label;
  yticks : list nat;
  yticklabels : list string;
  xlabel : string;
  ylabel : string;
  title : string;
  (** the limits of the x axis, as [ax.set_xlim] sets and returns them *)
  xlim : Qc * Qc;
  (** the text of the annotation box *)
  summary : string
}.

(** [ax.barh(y, width)]: the arguments are broadcast against each other. *)
Definition barh (y : list nat) (width : list float64) : outcome (list bar) :=
  ps ← Np.broadcast y width;
  Returned (fmap (M:=list) (fun p => mkBar p.1 p.2) ps).

(** The magnitude below which matplotlib takes both limits for zero:
    [(1e6 / tiny) * np.finfo(float).tiny] with [tiny = 1e-15], that is
    10^21 times 2^-1022. *)
Definition tiny_limit : Qc :=
  Q2Qc (inject_Z (10 ^ 21) / inject_Z (2 ^ 1022)).

(** [matplotlib.transforms.nonsingular(vmin, vmax, expander=0.05,
    tiny=1e-15)], which the locator of a linear axis applies to the limits
    it is given: an interval too small to be told from a point is widened. *)
Definition nonsingular (vmin vmax : Qc) : Qc * Qc :=
  let '(vmin, vmax) :=
    if decide (vmax < vmin)%Qc then (vmax, vmin) else (vmin, vmax) in
  let maxabsvalue := Qc_max (Qc_abs vmin) (Qc_abs vmax) in
  let expander := of_decimal 0.05 in
  if decide (maxabsvalue < tiny_limit)%Qc
  then ((- expander)%Qc, expander)
  else if decide (vmax - vmin ≤ maxabsvalue * Q2Qc (1 / inject_Z (10 ^ 15)))%Qc
  then (if decide (vmax = 0%Qc ∧ vmin = 0%Qc)
        then ((- expander)%Qc, expander)
        else ((vmin - expander * Qc_abs vmin)%Qc,
              (vmax + expander * Qc_abs vmax)%Qc))
  else (vmin, vmax).

(** [ax.set_xlim(left, right)]: limits that are not finite are refused; the
    others are made non-singular and kept in the order given. The result is
    what the call returns and what the axis then shows. *)
Definition set_xlim (left right : float64) : outcome (Qc * Qc) :=
  match left, right with
  | Some l, Some r =>
      let '(v0, v1) := nonsingular l r in
      Returned (if decide (r < l)%Qc then (v1, v0) else (v0, v1))
  | _, _ => Raised (ValueError "Axis limits cannot be NaN or Inf")
  end.

(** [arr[i]]. *)
Definition item (arr : list float64) (i : nat) : outcome float64 :=
  match arr !! i with
  | Some a => Returned a
  | None => Raised (IndexError "index out of bounds")
  end.

(** ** pandas operations used by the script *)

(** Position of a column label. *)
Definition column_index (df : DataFrame) (name : string) : option nat :=
  fst <$> list_find (fun c => c = name) (columns df).

(** [df[name]]: the column as a list of cells, or [KeyError]. *)
Definition getitem (df : DataFrame) (name : string) : outcome (list cell) :=
  match column_index df name with
  | Some i => Returned (fmap (fun r => default NaN (r !! i)) (rows df))
  | None => Raised (KeyError name)
  end.

(** The elements of a list, each at its first occurrence
    ([Index.unique]). *)
Fixpoint unique (l : list string) : list string :=
  match l with
  | [] => []
  | x :: l' => x :: filter (fun y => y ≠ x) (unique l')
  end.

(** The labels among [names] that are not columns of [df]. *)
Definition missing_labels (df : DataFrame) (names : list string) : list string :=
  unique (filter (fun name => column_index df name = None) names).

(** [df[names]]: the frame restricted to the listed columns, in the listed
    order, or pandas' [KeyError] that names the labels that are not
    columns. *)
Definition getitems (df : DataFrame) (names : list string) : outcome DataFrame :=
  match mapM (M:=option) (column_index df) names with
  | Some idx =>
      Returned (mkDataFrame names
        (fmap (fun r => fmap (fun i => default NaN (r !! i)) idx) (rows df)))
  | None => Raised (KeyErrorLabels names (missing_labels df names))
  end.

(** The dtype of a column of a frame read from a sheet: object when the
    column holds a text, numeric otherwise. *)
Definition column_dtype (df : DataFrame) (name : string) : dtype :=
  match getitem df name with
  | Returned col => if existsb is_text col then object_dtype else numeric_dtype
  | Raised _ => numeric_dtype
  end.

(** The dtype of a row taken across the columns [names]: the common dtype
    of these columns, object as soon as one of them is. *)
Definition row_dtype (df : DataFrame) (names : list string) : dtype :=
  if existsb (fun name => match column_dtype df name with
                         | object_dtype => true
                         | numeric_dtype => false
                         end) names
  then object_dtype else numeric_dtype.

(** Python's [==] on two cell values: NaN equals nothing, and a number never
    equals a text. *)
Definition cell_eqb (a b : cell) : bool :=
  match a, b with
  | Num x, Num y => bool_decide (x = y)
  | Str s, Str t => bool_decide (s = t)
  | _, _ => false
  end.

(** [series == value]. *)
Definition series_eq (s : list cell) (v : cell) : list bool :=
  fmap (fun c => cell_eqb c v) s.

(** [mask1 & mask2] on two masks over the same frame. *)
Definition mask_and (m1 m2 : list bool) : list bool :=
  zip_with andb m1 m2.

(** [df[mask]]: the rows whose mask entry is true. *)
Definition select_rows (df : DataFrame) (mask : list bool) : DataFrame :=
  mkDataFrame (columns df)
    (omap (fun p : list cell * bool => if p.2 then Some p.1 else None)
          (zip (rows df) mask)).

(** [df.empty]: some axis has length zero. *)
Definition empty (df : DataFrame) : bool :=
  bool_decide (rows df = []) || bool_decide (columns df = []).

(** [df.iloc[0]]: the first row as a series. *)
Definition iloc0 (df : DataFrame) : outcome (list cell) :=
  match rows df with
  | r :: _ => Returned r
  | [] => Raised (IndexError "single positional indexer is out-of-bounds")
  end.

(** [series.fillna(v).values]: a NaN becomes [v]; an infinity stays. *)
Definition fillna (v : Qc) (s : list float64x) : list float64x :=
  fmap (fun a => match a with xnan => xfin v | _ => a end) s.

(** A cell of the table the formatter computes: a text, or a float as
    [pd.to_numeric] and the sum make it. *)
Inductive table_cell :=
  | TText (s : string)
  | TNum (x : float64x).

Definition Table := Frame table_cell.

(** [pd.DataFrame({label: array, ...})]: the arrays become the columns and
    must all have the same length. *)
Definition pd_DataFrame (data : list (string * list table_cell)) : outcome Table :=
  match data with
  | [] => Returned (mkDataFrame [] [])
  | (_, col0) :: _ =>
      let n := length col0 in
      if forallb (fun d : string * list table_cell => bool_decide (length d.2 = n)) data
      then Returned (mkDataFrame (fmap fst data)
             (fmap (fun i =>
                      fmap (fun d : string * list table_cell =>
                              default (TNum xnan) (d.2 !! i)) data)
                   (seq 0 n)))
      else Raised (ValueError "All arrays must be of the same length")
  end.

(** *** Sets of cells and [sorted] *)

Global Instance cell_eq_dec : EqDecision cell.
Proof. solve_decision. Defined.

Definition cell_encode (c : cell) : Qc + (unit + string) :=
  match c with
  | Num x => inl x
  | NaN => inr (inl ())
  | Str s => inr (inr s)
  end.

Definition cell_decode (e : Qc + (unit + string)) : cell :=
  match e with
  | inl x => Num x
  | inr (inl _) => NaN
  | inr (inr s) => Str s
  end.

Global Instance cell_countable : Countable cell.
Proof.
  apply (inj_countable' cell_encode cell_decode). by intros [].
Defined.

(** [set(series)]: the values of a column. Whether a NaN of one set is
    found in another depends on where the sets come from: an object column
    (one that holds a text) keeps for every missing cell the one object
    [np.nan], which is found by identity; a numeric column gives a new
    float at each read, and a NaN equals no other float. *)
Record pyset := mkPyset {
  from_object_column : bool;
  members : gset cell
}.

Definition py_set (s : list cell) : pyset :=
  mkPyset (existsb is_text s) (list_to_set s).

(** [a & b]: the values of [a] found in [b]; a NaN is found only when both
    sets are those of object columns. *)
Definition py_and (a b : pyset) : gset cell :=
  if from_object_column a && from_object_column b
  then members a ∩ members b
  else (members a ∩ members b) ∖ {[NaN]}.

(** The order [sorted] uses between two values that Python can compare:
    numbers by value, texts lexicographically by character code. The other
    cases only make the relation total; NaN is placed first, whereas Python
    leaves the position of a NaN to the order of the comparisons. *)
Definition cell_le (a b : cell) : Prop :=
  match a, b with
  | NaN, _ => True
  | Num _, NaN => False
  | Num x, Num y => (x ≤ y)%Qc
  | Num _, Str _ => True
  | Str _, (NaN | Num _) => False
  | Str s, Str t => String.le s t
  end.

Global Instance cell_le_dec : RelDecision cell_le.
Proof. intros [x| |s] [y| |t]; simpl; apply _. Defined.

(** [sorted(list(s))]: comparing a text with a number raises. *)
Definition py_sorted (s : gset cell) : outcome (list cell) :=
  let l := elements s in
  if forallb is_text l || forallb (fun c => negb (is_text c)) l
  then Returned (merge_sort cell_le l)
  else Raised (TypeError "'<' not supported between instances of 'str' and 'float'").

(** ** The Streamlit side: session state and what is shown *)

(** One entry of [st.session_state.pyramid_selections]. *)
Record selection := mkSelection { sel_country : cell; sel_year : cell }.

(** One entry of [st.session_state.generated_pyramids]. *)
Record pyramid := mkPyramid {
  fig : chart;
  country : cell;
  year : cell;
  table : Table
}.

Record session_state := mkSession {
  male_df : option DataFrame;
  female_df : option DataFrame;
  age_cols : option (list string);
  countries : list cell;
  years : list cell;
  generated_pyramids : list pyramid;
  pyramid_selections : list selection
}.

(** The state at the first run of the script (lines 14-27). *)
Definition initial_session : session_state :=
  mkSession None None None [] [] [] [].

(** What the page shows: [st.success], [st.error], [st.warning]. *)
Inductive ui_event :=
  | Success (msg : string)
  | Error (msg : string)
  | Warning (msg : string).

Record app := mkApp { session : session_state; shown : list ui_event }.

(** A piece of the script: it reads and writes the session, shows messages,
    and returns or raises. The state reached when it raises is kept. *)
Definition script (A : Type) := app → outcome A * app.

Global Instance script_ret : MRet script := fun A a s => (Returned a, s).
Global Instance script_bind : MBind script := fun A B k m s =>
  match m s with
  | (Returned a, s') => k a s'
  | (Raised e, s') => (Raised e, s')
  end.

Definition lift {A} (o : outcome A) : script A := fun s => (o, s).
Definition get_session : script session_state := fun s => (Returned (session s), s).
Definition modify_session (f : session_state → session_state) : script unit :=
  fun s => (Returned (), mkApp (f (session s)) (shown s)).
Definition show (e : ui_event) : script unit :=
  fun s => (Returned (), mkApp (session s) (shown s ++ [e])).

(** [try: body except Exception as e: handler(e)]. *)
Definition try_except (body : script unit) (handler : exn → script unit) : script unit :=
  fun s =>
    match body s with
    | (Returned _, s') => (Returned (), s')
    | (Raised e, s') => handler e s'
    end.

(** [for x in xs: body(x)]. *)
Fixpoint for_each {A} (xs : list A) (body : A → script unit) : script unit :=
  match xs with
  | [] => mret ()
  | x :: xs' => body x ≫= fun _ => for_each xs' body
  end.

Definition set_male_df (d : DataFrame) (s : session_state) : session_state :=
  mkSession (Some d) (female_df s) (age_cols s) (countries s) (years s)
            (generated_pyramids s) (pyramid_selections s).
Definition set_female_df (d : DataFrame) (s : session_state) : session_state :=
  mkSession (male_df s) (Some d) (age_cols s) (countries s) (years s)
            (generated_pyramids s) (pyramid_selections s).
Definition set_age_cols (l : list string) (s : session_state) : session_state :=
  mkSession (male_df s) (female_df s) (Some l) (countries s) (years s)
            (generated_pyramids s) (pyramid_selections s).
Definition set_countries (l : list cell) (s : session_state) : session_state :=
  mkSession (male_df s) (female_df s) (age_cols s) l (years s)
            (generated_pyramids s) (pyramid_selections s).
Definition set_years (l : list cell) (s : session_state) : session_state :=
  mkSession (male_df s) (female_df s) (age_cols s) (countries s) l
            (generated_pyramids s) (pyramid_selections s).
Definition set_generated_pyramids (l : list pyramid) (s : session_state) : session_state :=
  mkSession (male_df s) (female_df s) (age_cols s) (countries s) (years s)
            l (pyramid_selections s).
Definition set_pyramid_selections (l : list selection) (s : session_state) : session_state :=
  mkSession (male_df s) (female_df s) (age_cols s) (countries s) (years s)
            (generated_pyramids s) l.

Definition nl : string := String (ascii_of_nat 10) "".

Definition region_column : string := "Region, subregion, country or area *".
Definition year_column : string := "Year".

(** ** The program *)

Section Program.

(** Three functions of the Python runtime and of pandas stay parameters:
    [str(v)] of a cell value, the format specification [.Nf] of a float,
    and the reading of a text cell as a number by [pd.to_numeric] with
    [errors='coerce'] (NaN for a text that is not a number). So do
    [str.isdigit] and [str.strip] outside ASCII. *)
Context `{Unicode}.
Variable py_str : cell → string.
Variable format_f : nat → float64 → string.
Variable parse_number : string → float64x.

(** The body of the loop of lines 58-69 for bar [i]. *)
Definition annotate_bar (male_values female_values : list float64) (i : nat)
    : outcome (list label) :=
  mv ← item male_values i;
  let male_val := Float.abs mv in
  let male_label :=
    if Float.gt male_val (fin 0%Qc)
    then [mkLabel (Float.mul mv (fin (of_decimal 0.5))) i (format_f 1 male_val +:+ "k")]
    else [] in
  female_val ← item female_values i;
  let female_label :=
    if Float.gt female_val (fin 0%Qc)
    then [mkLabel (Float.mul female_val (fin (of_decimal 0.5))) i
                  (format_f 1 female_val +:+ "k")]
    else [] in
  Returned (male_label ++ female_label).

(** [create_population_pyramid(male_data, female_data, age_groups, country,
    year, interactive)]. *)
Definition create_population_pyramid
    (male_data female_data : Series) (age_groups : list string)
    (country year : cell) (interactive : bool) : outcome chart :=
  let y_pos := Np.arange (length age_groups) in
  negated ← values_neg (cells male_data);
  let male_values := array_div negated (of_decimal 1000) in
  female_values ← values_div (cells female_data) (of_decimal 1000);
  bars_male ← barh y_pos male_values;
  bars_female ← barh y_pos female_values;
  labels ←
    (if interactive
     then per_bar ← mapM (annotate_bar male_values female_values)
                         (seq 0 (length (zip bars_male bars_female)));
          Returned (List.concat per_bar)
     else Returned []);
  male_min ← Np.min (dtype_of male_data) male_values;
  female_max ← Np.max (dtype_of female_data) female_values;
  let max_val := Float.py_max (Float.abs male_min) female_max in
  lim ← set_xlim (Float.mul (Float.neg max_val) (fin (of_decimal 1.15)))
                 (Float.mul max_val (fin (of_decimal 1.15)));
  let total_male := Float.abs (Np.sum male_values) in
  let total_female := Np.sum female_values in
  let total_pop := Float.add total_male total_female in
  Returned
    {| bars_male := bars_male;
       bars_female := bars_female;
       value_labels := labels;
       yticks := y_pos;
       yticklabels := age_groups;
       xlabel := "Population (thousands)";
       ylabel := "Age Group";
       title := "Population Pyramid: " +:+ py_str country
                +:+ " (" +:+ py_str year +:+ ")";
       xlim := lim;
       summary := "Total: " +:+ format_f 1 total_pop +:+ "k" +:+ nl
                  +:+ "Male: " +:+ format_f 1 total_male +:+ "k" +:+ nl
                  +:+ "Female: " +:+ format_f 1 total_female +:+ "million" |}.

(** [pd.to_numeric(series, errors='coerce')]. *)
Definition to_numeric_coerce (s : Series) : list float64x :=
  fmap (fun c => match c with
                | Num x => xfin x
                | NaN => xnan
                | Str t => parse_number t
                end) (cells s).

(** [create_data_table(male_data, female_data, age_groups, country, year)]. *)
Definition create_data_table
    (male_data female_data : Series) (age_groups : list string)
    (country year : cell) : outcome Table :=
  let male_vals := fillna 0%Qc (to_numeric_coerce male_data) in
  let female_vals := fillna 0%Qc (to_numeric_coerce female_data) in
  total ← Np.add male_vals female_vals;
  pd_DataFrame
    [ ("Age Group", fmap TText age_groups);
      ("Male", fmap TNum male_vals);
      ("Female", fmap TNum female_vals);
      ("Total", fmap TNum total) ].

(** *** Processing of the two uploaded files (lines 140-168) *)

(** The statements inside [try:]. *)
Definition load_both (male_file female_file : xlsx) : script unit :=
  '(male_df, male_age_cols) ← lift (load_population_data male_file 16);
  '(female_df, female_age_cols) ← lift (load_population_data female_file 16);
  modify_session (set_male_df male_df);;
  modify_session (set_female_df female_df);;
  modify_session (set_age_cols male_age_cols);;
  male_countries ← lift (py_set <$> getitem male_df region_column);
  female_countries ← lift (py_set <$> getitem female_df region_column);
  common_countries ← lift (py_sorted (py_and male_countries female_countries));
  years_male ← lift (py_set <$> getitem male_df year_column);
  years_female ← lift (py_set <$> getitem female_df year_column);
  common_years ← lift (py_sorted (py_and years_male years_female));
  modify_session (set_countries common_countries);;
  modify_session (set_years common_years);;
  show (Success ("✅ Data loaded successfully! Found "
                 +:+ pretty (length common_countries) +:+ " countries and "
                 +:+ pretty (length common_years) +:+ " years.")).

Definition process_upload (male_file female_file : option xlsx) : script unit :=
  match male_file, female_file with
  | Some mf, Some ff =>
      s ← get_session;
      if bool_decide (male_df s = None) || bool_decide (female_df s = None)
      then try_except (load_both mf ff)
             (fun e => show (Error ("❌ Error loading files: " +:+ str_exn e)))
      else mret ()
  | _, _ => mret ()
  end.

(** *** Generation of the pyramids (lines 215-273) *)

(** [df[(df[region] == country) & (df["Year"] == year)]]. *)
Definition matching_rows (df : DataFrame) (country year : cell) : outcome DataFrame :=
  by_country ← getitem df region_column;
  by_year ← getitem df year_column;
  Returned (select_rows df (mask_and (series_eq by_country country)
                                     (series_eq by_year year))).

(** Subscripting a table of the session that may still be [None]. *)
Definition loaded (df : option DataFrame) : outcome DataFrame :=
  match df with
  | Some d => Returned d
  | None => Raised (TypeError "'NoneType' object is not subscriptable")
  end.

(** [row[st.session_state.age_cols].iloc[0]]. *)
Definition age_counts (row : DataFrame) (cols : option (list string))
    : outcome (list cell) :=
  match cols with
  | Some labels => sub ← getitems row labels; iloc0 sub
  | None => Raised (KeyError "None")
  end.

(** [row[st.session_state.age_cols].iloc[0]] as the Series it is: its cells
    are read from [row], and its dtype is that of the columns of the table
    [row] was cut from, which a selection of rows keeps. *)
Definition age_series (table : option DataFrame) (row : DataFrame)
    (cols : option (list string)) : outcome Series :=
  data ← age_counts row cols;
  Returned (mkSeries (match table, cols with
                      | Some t, Some labels => row_dtype t labels
                      | _, _ => numeric_dtype
                      end) data).

(** The body of the loop over the selections. *)
Definition generate_one (show_values : bool) (sel : selection) : script unit :=
  let country := sel_country sel in
  let year := sel_year sel in
  s ← get_session;
  male_row ← lift (m ← loaded (male_df s); matching_rows m country year);
  female_row ← lift (f ← loaded (female_df s); matching_rows f country year);
  if negb (empty male_row) && negb (empty female_row)
  then
    male_data ← lift (age_series (male_df s) male_row (age_cols s));
    female_data ← lift (age_series (female_df s) female_row (age_cols s));
    fig ← lift (create_population_pyramid male_data female_data
                  (default [] (age_cols s)) country year show_values);
    data_table ← lift (create_data_table male_data female_data
                         (default [] (age_cols s)) country year);
    modify_session (fun s' =>
      set_generated_pyramids
        (generated_pyramids s' ++ [mkPyramid fig country year data_table]) s')
  else
    show (Warning ("⚠️ No data found for " +:+ py_str country
                   +:+ ", " +:+ py_str year)).

(** What a click on "Generate Pyramids" runs. *)
Definition generate_pyramids (show_values : bool) : script unit :=
  modify_session (set_generated_pyramids []);;
  s ← get_session;
  for_each (pyramid_selections s) (generate_one show_values);;
  s' ← get_session;
  show (Success ("✅ Generated " +:+ pretty (length (generated_pyramids s'))
                 +:+ " pyramids!")).

(** The configuration section (lines 171-273): it is reached only when both
    tables are in the session; the selections come from the widgets. *)
Definition configuration_section
    (choices : list selection) (show_values clicked : bool) : script unit :=
  s ← get_session;
  if bool_decide (male_df s ≠ None) && bool_decide (female_df s ≠ None)
  then
    modify_session (set_pyramid_selections choices);;
    if clicked then generate_pyramids show_values else mret ()
  else mret ().

End Program.

(** ** An instance of the runtime functions, for evaluation

    Enough of Python's behaviour to run the program on examples; the
    statements below hold for every runtime, and only witnesses and examples
    use this one. Fixed-point formatting rounds the exact rational
    half-to-even (Python formats the nearest binary float, which can fall on
    the other side of a decimal tie such as 0.05); [str] prints a number
    without fraction as Python prints an int (a number of a float column
    would end in ".0"); a text is read as a number when it is a plain
    decimal literal with an optional sign, and as an infinity when it is
    "inf" with an optional sign; outside ASCII no text is a digit and
    nothing is trimmed (the examples are ASCII). *)

Module Reference.

Definition round_half_even (q : Q) : Z :=
  let lo := Qfloor q in
  match (q - inject_Z lo ?= 1 # 2)%Q with
  | Lt => lo
  | Gt => (lo + 1)%Z
  | Eq => if Z.even lo then lo else (lo + 1)%Z
  end.

Fixpoint zeros (n : nat) : string :=
  match n with
  | O => ""
  | S n' => "0" +:+ zeros n'
  end.

Definition format_f (n : nat) (a : float64) : string :=
  match a with
  | None => "nan"
  | Some x =>
      let scale := (10 ^ Z.of_nat n)%Z in
      let r := round_half_even (this x * inject_Z scale)%Q in
      let m := Z.abs r in
      let frac := pretty (m mod scale)%Z in
      (if bool_decide (x < 0)%Qc then "-" else "")
      +:+ pretty (m / scale)%Z
      +:+ (if bool_decide (n = O) then ""
           else "." +:+ zeros (n - String.length frac) +:+ frac)
  end.

Definition py_str (c : cell) : string :=
  match c with
  | Str s => s
  | NaN => "nan"
  | Num x =>
      if bool_decide (Qden (this x) = 1%positive)
      then pretty (Qnum (this x))
      else format_f 1 (fin x)
  end.

Fixpoint digits_value (s : string) (acc : Z) : Z :=
  match s with
  | EmptyString => acc
  | String c s' => digits_value s' (10 * acc + (Z.of_nat (nat_of_ascii c) - 48))%Z
  end.

Definition parse_unsigned (s : string) : option Qc :=
  match PyStr.split "." s with
  | [whole] =>
      if PyStr.ascii_isdigit whole
      then Some (Q2Qc (inject_Z (digits_value whole 0))) else None
  | [whole; frac] =>
      if PyStr.ascii_isdigit whole && PyStr.ascii_isdigit frac
      then Some (Q2Qc (inject_Z (digits_value whole 0)
                       + inject_Z (digits_value frac 0)
                         / inject_Z (10 ^ Z.of_nat (String.length frac)))%Q)
      else None
  | _ => None
  end.

Definition parse_finite (s : string) : option Qc :=
  match s with
  | String "-" rest => (fun x => (- x)%Qc) <$> parse_unsigned rest
  | t => parse_unsigned t
  end.

Definition parse_number (s : string) : float64x :=
  let t := PyStr.ascii_strip s in
  if bool_decide (t ∈ ["inf"; "+inf"]) then xinf false
  else if bool_decide (t = "-inf") then xinf true
  else match parse_finite t with
       | Some x => xfin x
       | None => xnan
       end.

Definition unicode : Unicode :=
  {| unicode_isdigit := fun _ => false; unicode_strip := fun s => s |}.

End Reference.

(** The program run with the reference runtime. *)
Definition render := create_population_pyramid Reference.py_str Reference.format_f.
Definition tabulate := create_data_table Reference.parse_number.

(** ** The rest of the page: tick labels, layout, downloads *)

(** [a >= b] on floats; false when one of them is NaN. *)
Definition float_ge (a b : float64) : bool :=
  match a, b with
  | Some x, Some y => bool_decide (y ≤ x)%Qc
  | _, _ => false
  end.

(** [range(start, stop, step)] for a positive step. *)
Definition py_range (start stop step : nat) : list nat :=
  (fun k => start + k * step) <$> seq 0 ((stop - start + (step - 1)) / step).

(** [l[i:j]]: a slice is cut to the list. *)
Definition py_slice {A} (l : list A) (i j : nat) : list A :=
  take (j - i) (drop i l).

(** The rows of the display grid (lines 282-283): the pyramids taken three
    at a time. *)
Definition display_rows {A} (generated : list A) : list (list A) :=
  (fun row_start => py_slice generated row_start (row_start + 3))
    <$> py_range 0 (length generated) 3.

(** [st.columns(n)]: [n] columns, named here by their positions. *)
Definition st_columns (n : nat) : list nat := seq 0 n.

(** [cols[i % 3]] with [cols = st.columns(min(3, n))] (lines 181-183 and
    308-311). *)
Definition column_for (n idx : nat) : outcome nat :=
  match st_columns (min 3 n) !! (idx mod 3) with
  | Some col => Returned col
  | None => Raised (IndexError "list index out of range")
  end.

(** [s.replace(old, new)] for one-character [old] and [new]. *)
Fixpoint replace_char (old new : ascii) (s : string) : string :=
  match s with
  | EmptyString => ""
  | String c s' =>
      String (if bool_decide (c = old) then new else c) (replace_char old new s')
  end.

(** The argument of [progress_bar.progress] at position [idx] of a batch of
    [n] selections (line 226). *)
Definition progress_value (idx n : nat) : Qc :=
  (Qc_of_Z (Z.of_nat (idx + 1)) / Qc_of_Z (Z.of_nat n))%Qc.

(** The keys of the selection widgets (lines 190 and 197). *)
Definition country_key (i : nat) : string := "country_" +:+ pretty i.
Definition year_key (i : nat) : string := "year_" +:+ pretty i.

Section Page.

Variable py_str : cell → string.
Variable format_f : nat → float64 → string.

(** One label of the x axis (line 84): the magnitude of the tick, in
    thousands with a "k" from 1 on, times 1000 without suffix below. *)
Definition tick_label (x : float64) : string :=
  if float_ge (Float.abs x) (fin (of_decimal 1))
  then format_f 0 (Float.abs x) +:+ "k"
  else format_f 0 (Float.mul (Float.abs x) (fin (of_decimal 1000))).

(** The list given to [ax.set_xticklabels] for the ticks [xticks]. *)
Definition xticklabels (xticks : list float64) : list string :=
  tick_label <$> xticks.

(** The file name of a download (line 313). Only a text has [replace];
    [None] stands for the AttributeError on any other country value. *)
Definition download_filename (p : pyramid) : option string :=
  match country p with
  | Str s => Some ("pyramid_" +:+ replace_char " " "_" s +:+ "_"
                   +:+ py_str (year p) +:+ ".png")
  | _ => None
  end.

(** The key of a download button (line 321). *)
Definition download_key (idx : nat) (p : pyramid) : string :=
  "download_" +:+ pretty idx +:+ "_" +:+ py_str (country p)
  +:+ "_" +:+ py_str (year p).

End Page.

(** ** Vocabulary of the statements *)

(** [lo] is the least (resp. [hi] the greatest) of the numbers in [ws]. *)
Definition is_minimum (lo : Qc) (ws : list float64) : Prop :=
  fin lo ∈ ws ∧ ∀ w, fin w ∈ ws → (lo ≤ w)%Qc.
Definition is_maximum (hi : Qc) (ws : list float64) : Prop :=
  fin hi ∈ ws ∧ ∀ w, fin w ∈ ws → (w ≤ hi)%Qc.

Definition thousand : Qc := of_decimal 1000.

(** The sum of some numbers. *)
Definition Qc_sum (xs : list Qc) : Qc := foldr Qcplus 0%Qc xs.

(** The limits matplotlib gives the x axis when it is asked for -L and L
    with L ≥ 0: these two, unless L is below [tiny_limit] (as it is when
    every count is zero), where the axis runs from -0.05 to 0.05. *)
Definition symmetric_limits (L : Qc) : Qc * Qc :=
  if decide (L < tiny_limit)%Qc
  then ((- of_decimal 0.05)%Qc, of_decimal 0.05)
  else ((- L)%Qc, L).

(** What numpy makes of a cell that is not a text. *)
Definition cell_to_float (c : cell) : float64 :=
  match c with
  | Num x => fin x
  | _ => nan
  end.

(** The widths the renderer draws for the cells of a row: each count
    divided by 1000, negated on the male side; a missing value has no
    width. *)
Definition male_widths (s : Series) : list float64 :=
  (fun c => Float.div (Float.neg (cell_to_float c)) (fin thousand)) <$> cells s.
Definition female_widths (s : Series) : list float64 :=
  (fun c => Float.div (cell_to_float c) (fin thousand)) <$> cells s.

(** The bar widths of a chart, in bar order. *)
Definition male_extents (c : chart) : list float64 := bar_width <$> bars_male c.
Definition female_extents (c : chart) : list float64 := bar_width <$> bars_female c.

(** The number a cell counts for in the summary table: a number counts
    for itself, a missing value for zero, and a text for the number it
    reads as, or for zero when it does not read as a number. *)
Definition coerced (parse_number : string → float64x) (c : cell) : float64x :=
  match c with
  | Num x => xfin x
  | NaN => xfin 0%Qc
  | Str t => match parse_number t with
             | xnan => xfin 0%Qc
             | v => v
             end
  end.

(** The row of the summary table for one age band. *)
Definition table_row (parse_number : string → float64x)
    (label : string) (m f : cell) : list table_cell :=
  [ TText label;
    TNum (coerced parse_number m);
    TNum (coerced parse_number f);
    TNum (Float.addx (coerced parse_number m) (coerced parse_number f)) ].


(** The session before anything was uploaded, and nothing shown yet. *)
Definition fresh : app := mkApp initial_session [].

(** The table the loader makes of a sheet, and the age bands it detects. *)
Definition normalised `{Unicode} (raw : DataFrame) : DataFrame :=
  mkDataFrame (PyStr.strip <$> columns raw) (rows raw).
Definition detected_age_cols `{Unicode} (raw : DataFrame) : list string :=
  filter (fun c => is_age_col c = true) (columns (normalised raw)).

(** The texts and the numbers among some cells. *)
Definition texts (l : list cell) : list string :=
  omap (fun c => match c with Str s => Some s | _ => None end) l.
Definition numbers (l : list cell) : list Qc :=
  omap (fun c => match c with Num x => Some x | _ => None end) l.

(** The warning of the generation loop for a selection, and the message
    that closes a batch. *)
Definition not_found_warning (py_str : cell → string) (sel : selection) : ui_event :=
  Warning ("⚠️ No data found for " +:+ py_str (sel_country sel)
           +:+ ", " +:+ py_str (sel_year sel)).

Definition closing_message : script unit :=
  s' ← get_session;
  show (Success ("✅ Generated " +:+ pretty (length (generated_pyramids s'))
                 +:+ " pyramids!")).

(** Pyramid [p] was made from the tables [m] and [f] with the age bands
    [labels]: its rows were looked up by its country and year, the counts of
    both sexes were read under [labels], and its chart and its table were
    made from these counts and [labels]. *)
Definition built_with (py_str : cell → string) (format_f : nat → float64 → string)
    (parse_number : string → float64x) (show_values : bool)
    (labels : list string) (m f : DataFrame) (p : pyramid) : Prop :=
  ∃ mr fr male_data female_data,
    matching_rows m (country p) (year p) = Returned mr
    ∧ matching_rows f (country p) (year p) = Returned fr
    ∧ age_series (Some m) mr (Some labels) = Returned male_data
    ∧ age_series (Some f) fr (Some labels) = Returned female_data
    ∧ create_population_pyramid py_str format_f male_data female_data labels
        (country p) (year p) show_values = Returned (fig p)
    ∧ create_data_table parse_number male_data female_data labels
        (country p) (year p) = Returned (table p).

(** The state of the session in which every pyramid generated so far was
    made from the tables [m], [f] with the age bands [labels]. *)
Definition consistent (py_str : cell → string) (format_f : nat → float64 → string)
    (parse_number : string → float64x) (show_values : bool)
    (labels : list string) (m f : DataFrame) (a : app) : Prop :=
  male_df (session a) = Some m
  ∧ female_df (session a) = Some f
  ∧ age_cols (session a) = Some labels
  ∧ Forall (built_with py_str format_f parse_number show_values labels m f)
      (generated_pyramids (session a)).

(** The message shown after a successful load. *)
Definition loaded_message (cs ys : list cell) : ui_event :=
  Success ("✅ Data loaded successfully! Found "
           +:+ pretty (length cs) +:+ " countries and "
           +:+ pretty (length ys) +:+ " years.").

(** *** Example inputs *)

Definition num (q : Q) : cell := Num (of_decimal q).

(** A row of a table whose columns are all numeric. *)
Definition numeric (l : list cell) : Series := mkSeries numeric_dtype l.

(** Two small tables in the layout of the expected sheets. The female one
    lists its age bands in another order and has one more. *)
Definition male_example : DataFrame :=
  mkDataFrame [region_column; year_column; "0-4"; "5-9"]
    [ [Str "A"; num 2020; num 1; num 2];
      [Str "B"; num 2021; num 10; num 20];
      [Str "B"; num 2020; num 3; num 4] ].
Definition female_example : DataFrame :=
  mkDataFrame [region_column; year_column; "5-9"; "0-4"; "10-14"]
    [ [Str "B"; num 2021; num 25; num 5; num 7];
      [Str "C"; num 2021; num 1; num 2; num 3] ].

(** A sheet with the region column and an age band but no "Year" column. *)
Definition sheet_without_year : DataFrame :=
  mkDataFrame [region_column; "0-4"] [ [Str "B"; num 10] ].

(** A pair of sheets with the two key columns and no age-band column. *)
Definition sheet_without_age_bands : DataFrame :=
  mkDataFrame [region_column; year_column] [ [Str "B"; num 2021] ].

(** A session with both example tables loaded and a batch of three
    selections; the year of the second one is in neither table. *)
Definition batch_example : app :=
  mkApp (mkSession (Some male_example) (Some female_example)
           (Some ["0-4"; "5-9"]) [Str "B"] [num 2021] []
           [ mkSelection (Str "B") (num 2021);
             mkSelection (Str "B") (num 1999);
             mkSelection (Str "B") (num 2021) ])
        [].

(** *** Vocabulary of the further properties *)

(** [c in s] for a one-character [c]. *)
Fixpoint contains_char (c : ascii) (s : string) : bool :=
  match s with
  | EmptyString => false
  | String a s' => bool_decide (a = c) || contains_char c s'
  end.

(** No cell of the series is a text. *)
Definition text_free (s : list cell) : Prop := Forall (fun c => is_text c = false) s.

(** The value labels of bar [i] for the widths [wm] and [wf] of its male and
    female bar: one at the middle of each bar that has an extent. *)
Definition bar_labels (format_f : nat → float64 → string) (i : nat) (wm wf : Qc)
    : list label :=
  (if decide (wm ≠ 0%Qc)
   then [mkLabel (fin (wm * of_decimal 0.5)%Qc) i (format_f 1 (fin (Qc_abs wm)) +:+ "k")]
   else [])
  ++ (if decide (0 < wf)%Qc
      then [mkLabel (fin (wf * of_decimal 0.5)%Qc) i (format_f 1 (fin wf) +:+ "k")]
      else []).

(** An entry of the generated pyramids for New Zealand in 2021; the texts of
    the page use only its country and its year. *)
Definition pyramid_example : pyramid :=
  mkPyramid (mkChart [] [] [] [] [] "" "" "" (0%Qc, 0%Qc) "")
            (Str "New Zealand") (num 2021) (mkDataFrame [] []).

(** The cell of row [r] of the frame [df] under the column label [name]. *)
Definition cell_at (df : DataFrame) (r : list cell) (name : string) : cell :=
  default NaN (i ← column_index df name; r !! i).

(** The selection a generated pyramid answers. *)
Definition selection_of (p : pyramid) : selection :=
  mkSelection (country p) (year p).

(** A female table in which one count is the placeholder text of a sheet,
    and a session with it and a batch of three selections, the second of
    which meets the text. *)
Definition female_with_text : DataFrame :=
  mkDataFrame [region_column; year_column; "0-4"; "5-9"]
    [ [Str "B"; num 2021; num 5; num 25];
      [Str "A"; num 2020; Str "..."; num 2] ].

Definition text_batch_example : app :=
  mkApp (mkSession (Some male_example) (Some female_with_text)
           (Some ["0-4"; "5-9"]) [Str "A"; Str "B"] [num 2020; num 2021] []
           [ mkSelection (Str "B") (num 2021);
             mkSelection (Str "A") (num 2020);
             mkSelection (Str "B") (num 2021) ])
        [].

(** The selection finds a row in both tables, and the counts read from both
    rows under [labels] are numbers. *)
Definition resolves_numerically (m f : DataFrame) (labels : list string)
    (sel : selection) : Prop :=
  ∃ mr fr ms fs,
    matching_rows m (sel_country sel) (sel_year sel) = Returned mr ∧ rows mr ≠ []
    ∧ matching_rows f (sel_country sel) (sel_year sel) = Returned fr ∧ rows fr ≠ []
    ∧ age_counts mr (Some labels) = Returned (Num <$> ms)
    ∧ age_counts fr (Some labels) = Returned (Num <$> fs).

(** * Properties *)

Lemma string_app_nil (t : string) : "" +:+ t = t.
Proof. reflexivity. Qed.

Lemma string_app_cons (a : ascii) (s t : string) :
  String a s +:+ t = String a (s +:+ t).
Proof. reflexivity. Qed.

Ltac string_norm :=
  repeat (rewrite ?string_app_nil, ?string_app_cons in * ); simplify_eq/=.

(** Comparisons of rationals in canonical form are decided on the
    underlying fractions. *)
Lemma this_plus (x y : Qc) : (this (x + y)%Qc == this x + this y)%Q.
Proof. apply Qred_correct. Qed.

Lemma this_mult (x y : Qc) : (this (x * y)%Qc == this x * this y)%Q.
Proof. apply Qred_correct. Qed.

Lemma this_opp (x : Qc) : (this (- x)%Qc == - this x)%Q.
Proof. apply Qred_correct. Qed.

Lemma this_minus (x y : Qc) : (this (x - y)%Qc == this x - this y)%Q.
Proof. unfold Qcminus. by rewrite this_plus, this_opp. Qed.

Lemma this_Q2Qc (q : Q) : (this (Q2Qc q) == q)%Q.
Proof. apply Qred_correct. Qed.

Ltac qc_arith :=
  unfold Qclt, Qcle, of_decimal in *;
  rewrite ?this_plus, ?this_minus, ?this_mult, ?this_opp, ?this_Q2Qc in *;
  lra.

(** ** Detection of the age-band columns *)

Section AgeBandDetection.
Import AgeBandSpec.
Context {U : Unicode}.

Lemma split_first_piece (c : string) :
  ∃ first rest, PyStr.split "-" c = first :: rest
    ∧ has_hyphen first = false
    ∧ (c = first ∨ ∃ r, c = first +:+ "-" +:+ r).
Proof.
  induction c as [|ch c IH]; simpl.
  - exists "", []. auto.
  - destruct IH as (first & rest & Hs & Hh & Hc).
    case_bool_decide as Hch.
    + subst ch. exists "", (PyStr.split "-" c). split_and!; [done..|].
      right. by exists c.
    + rewrite Hs. exists (String ch first), rest. split_and!; [done| |].
      * simpl. by rewrite bool_decide_false.
      * destruct Hc as [->|[r ->]]; [by left|].
        right. by exists r.
Qed.

Lemma before_first_hyphen_cons (ch : ascii) (c p : string) :
  before_first_hyphen (String ch c) p →
  (ch = "-"%char ∧ p = "")
  ∨ (ch ≠ "-"%char ∧ ∃ p', p = String ch p' ∧ before_first_hyphen c p').
Proof.
  intros [Hp Hc]. destruct p as [|a p].
  - left. destruct Hc as [?|[r Hr]]; [done|]. by string_norm.
  - right. simpl in Hp. apply orb_false_elim in Hp as [Ha Hp].
    apply bool_decide_eq_false in Ha.
    assert (a = ch ∧ (c = p ∨ ∃ r, c = p +:+ "-" +:+ r)) as [-> ?].
    { destruct Hc as [?|[r Hr]]; string_norm; eauto. }
    split; [done|]. exists p. by repeat split.
Qed.

(** A name has one substring before its first hyphen. *)
Lemma before_first_hyphen_unique (c p q : string) :
  before_first_hyphen c p → before_first_hyphen c q → p = q.
Proof.
  revert p q. induction c as [|ch c IH]; intros p q Hp Hq.
  - destruct Hp as [_ [?|[r Hr]]], Hq as [_ [?|[r' Hr']]];
      destruct p, q; by string_norm.
  - apply before_first_hyphen_cons in Hp, Hq.
    destruct Hp as [[? ->]|[? (p' & -> & Hp)]],
             Hq as [[? ->]|[? (q' & -> & Hq)]]; try done.
    f_equal. by apply IH.
Qed.

Lemma startswith_spec (p s : string) :
  PyStr.startswith p s = true ↔ ∃ rest, s = p +:+ rest.
Proof.
  revert s. induction p as [|a p IH]; intros s; simpl.
  - split; [eauto|done].
  - destruct s as [|b s].
    + split; [done|]. intros [? ?]. by string_norm.
    + rewrite andb_true_iff, bool_decide_eq_true, IH. split.
      * intros [-> [r ->]]. by exists r.
      * intros [r Hr]. string_norm. eauto.
Qed.

Lemma is_digit_spec (c : ascii) :
  PyStr.is_digit c = true ↔ c ∈ decimal_digits.
Proof.
  assert (PyStr.is_digit c = bool_decide (c ∈ decimal_digits)) as ->
    by (by destruct c as [[] [] [] [] [] [] [] []]; vm_compute).
  apply bool_decide_eq_true.
Qed.

Lemma all_digits_spec (s : string) :
  PyStr.all_digits s = true ↔ Forall (fun c => c ∈ decimal_digits) (characters s).
Proof.
  induction s as [|a s IH]; simpl.
  - split; [by constructor|done].
  - rewrite andb_true_iff, Forall_cons, is_digit_spec, IH. done.
Qed.

Lemma is_ascii_spec (s : string) : PyStr.is_ascii s = true ↔ ascii_text s.
Proof.
  unfold ascii_text. induction s as [|a s IH]; simpl.
  - split; [by constructor|done].
  - rewrite andb_true_iff, Forall_cons, IH. unfold PyStr.is_ascii_char.
    by rewrite Nat.ltb_lt.
Qed.

Lemma isdigit_spec (s : string) :
  PyStr.isdigit s = true ↔ entirely_numeric s.
Proof.
  unfold entirely_numeric, PyStr.isdigit.
  destruct (PyStr.is_ascii s) eqn:Ha.
  - apply is_ascii_spec in Ha. rewrite <-all_digits_spec.
    destruct s as [|a s]; simpl.
    + split; [done|]. intros [(_ & ? & _)|[? _]]; done.
    + split; [intros Hd; left; by split_and!|].
      intros [(_ & _ & ?)|[? _]]; done.
  - assert (¬ ascii_text s) as Hn.
    { intros Hs%is_ascii_spec. congruence. }
    split; [by right|]. intros [[? _]|[_ ?]]; done.
Qed.

Lemma is_age_col_spec (c : string) : is_age_col c = true ↔ age_band c.
Proof.
  unfold is_age_col, age_band, starts_with_100.
  rewrite orb_true_iff, startswith_spec.
  destruct (split_first_piece c) as (first & rest & -> & Hh & Hc).
  rewrite isdigit_spec.
  assert (before_first_hyphen c first) as Hb by done.
  split.
  - intros [?|?]; [left|by right]. by exists first.
  - intros [(pre & Hpre & Hnum)|?]; [left|by right].
    by rewrite (before_first_hyphen_unique c first pre).
Qed.

Lemma is_ascii_app (s t : string) :
  PyStr.is_ascii (s +:+ t) = PyStr.is_ascii s && PyStr.is_ascii t.
Proof.
  induction s as [|a s IH]; [done|].
  rewrite string_app_cons. simpl. by rewrite IH, andb_assoc.
Qed.

Lemma before_first_hyphen_ascii (c pre : string) :
  before_first_hyphen c pre → PyStr.is_ascii c = true → ascii_text pre.
Proof.
  intros [_ [->|[r ->]]] Hc; apply is_ascii_spec; [done|].
  rewrite is_ascii_app in Hc. by apply andb_true_iff in Hc as [? _].
Qed.

(** C6. A column is taken for an age band exactly when the substring before
    its first hyphen is entirely numeric or its name starts with "100". For
    a name of ASCII characters, entirely numeric means: not empty, and made
    of the digits 0 to 9; for a name with other characters it is what the
    runtime's [str.isdigit] says. The loader returns, in column order,
    exactly the (trimmed) column names that are age bands; on the columns
    "0-4", "5-9", "100+", "Region...", "Year" these are "0-4", "5-9",
    "100+". *)
Theorem age_band_detection :
  (∀ c, is_age_col c = true ↔ age_band c)
  ∧ (∀ c, PyStr.is_ascii c = true →
        is_age_col c = true
        ↔ (∃ pre, before_first_hyphen c pre ∧ pre ≠ ""
                  ∧ Forall (fun d => d ∈ decimal_digits) (characters pre))
          ∨ starts_with_100 c)
  ∧ (∀ raw, ∃ df cols,
        load_population_data (Sheet raw) 16 = Returned (df, cols)
        ∧ columns df = fmap PyStr.strip (columns raw)
        ∧ rows df = rows raw
        ∧ sublist cols (columns df)
        ∧ ∀ c, c ∈ cols ↔ c ∈ columns df ∧ age_band c)
  ∧ (∀ data, ∃ df,
        load_population_data
          (Sheet (mkDataFrame ["0-4"; "5-9"; "100+"; "Region..."; "Year"] data)) 16
        = Returned (df, ["0-4"; "5-9"; "100+"])).
Proof.
  split_and!.
  - apply is_age_col_spec.
  - intros c Hc. rewrite is_age_col_spec. unfold age_band. split.
    + intros [(pre & Hb & Hnum)|?]; [left|by right]. exists pre. split; [done|].
      destruct Hnum as [(_ & ? & ?)|[Hna _]]; [done|].
      destruct Hna. by eapply before_first_hyphen_ascii.
    + intros [(pre & Hb & Hne & Hd)|?]; [left|by right]. exists pre. split; [done|].
      left. split_and!; [|done..]. by eapply before_first_hyphen_ascii.
  - intros raw. eexists _, _. split; [reflexivity|]. simpl.
    split_and!; [done..| |].
    + apply sublist_filter.
    + intros c. by rewrite list_elem_of_filter, is_age_col_spec, (comm and).
  - intros data. by eexists.
Qed.

End AgeBandDetection.

(** ** Results and lists *)

Section OutcomeLemmas.
Context {A B : Type}.

Lemma mapM_Returned (f : A → outcome B) (g : A → B) (l : list A) :
  (∀ a, a ∈ l → f a = Returned (g a)) → mapM f l = Returned (g <$> l).
Proof.
  induction l as [|a l IH]; intros Hf; simpl; [done|].
  rewrite Hf by left. simpl. rewrite IH; [done|].
  intros b Hb. apply Hf. by right.
Qed.

Lemma mapM_Returned_ex (f : A → outcome B) (l : list A) :
  (∀ a, a ∈ l → ∃ b, f a = Returned b) → ∃ bs, mapM f l = Returned bs.
Proof.
  induction l as [|a l IH]; intros Hf; simpl; [by eexists|].
  destruct (Hf a) as [b ->]; [left|]. simpl.
  destruct IH as [bs ->]; [|by eexists].
  intros a' Ha'. apply Hf. by right.
Qed.

Lemma mapM_Returned_length (f : A → outcome B) (l : list A) (bs : list B) :
  mapM f l = Returned bs → length bs = length l.
Proof.
  revert bs. induction l as [|a l IH]; intros bs; simpl.
  - by intros [= <-].
  - destruct (f a); simpl; [|done].
    destruct (mapM f l) as [bs'|]; simpl; [|done].
    intros [= <-]. simpl. f_equal. by apply IH.
Qed.
End OutcomeLemmas.

(** ** Arrays of numbers *)

Section Numeric.

Lemma values_neg_numeric (xs : list Qc) :
  values_neg (Num <$> xs) = Returned (fin <$> (Qcopp <$> xs)).
Proof.
  unfold values_neg.
  rewrite (mapM_Returned _ (fun c => match c with Num x => fin (- x)%Qc | _ => nan end)).
  - by rewrite <-!list_fmap_compose.
  - by intros c (x & -> & _)%list_elem_of_fmap.
Qed.

Lemma values_div_numeric (xs : list Qc) (k : Qc) :
  values_div (Num <$> xs) k = Returned ((fun x => fin (x / k)%Qc) <$> xs).
Proof.
  unfold values_div.
  rewrite (mapM_Returned _ (fun c => match c with Num x => fin (x / k)%Qc | _ => nan end)).
  - by rewrite <-list_fmap_compose.
  - by intros c (x & -> & _)%list_elem_of_fmap.
Qed.

Lemma array_div_fin (xs : list Qc) (k : Qc) :
  array_div (fin <$> xs) k = (fun x => fin (x / k)%Qc) <$> xs.
Proof. unfold array_div. by rewrite <-list_fmap_compose. Qed.

Lemma broadcast_same_length {A B} (xs : list A) (ys : list B) :
  length xs = length ys → Np.broadcast xs ys = Returned (zip xs ys).
Proof. intros H. unfold Np.broadcast. by rewrite decide_True. Qed.

(** With one width per position, the bars are the widths at the positions
    0, 1, ... *)
Lemma barh_same_length (n : nat) (ws : list float64) :
  length ws = n →
  ∃ bars, barh (Np.arange n) ws = Returned bars
    ∧ bar_width <$> bars = ws ∧ bar_y <$> bars = seq 0 n.
Proof.
  intros Hn. unfold barh, Np.arange.
  rewrite broadcast_same_length by (by rewrite length_seq).
  eexists. split; [reflexivity|].
  rewrite <-!list_fmap_compose. split.
  - apply snd_zip. rewrite length_seq. lia.
  - apply fst_zip. rewrite length_seq. lia.
Qed.

Lemma obj_min_fin (a b : Qc) : Float.obj_min (fin a) (fin b) = fin (Qc_min a b).
Proof.
  unfold Float.obj_min, Float.le, Qc_min, fin.
  by case_bool_decide; case_decide.
Qed.

Lemma obj_max_fin (a b : Qc) : Float.obj_max (fin a) (fin b) = fin (Qc_max a b).
Proof.
  unfold Float.obj_max, Float.le, Qc_max, fin.
  case_bool_decide as H1; case_decide as H2; try done.
  - f_equal. by apply (anti_symm Qcle).
  - exfalso. apply H1, Qclt_le_weak. by apply Qclt_nge.
Qed.

Lemma foldl_min_fin (d : dtype) (x : Qc) (xs : list Qc) :
  foldl (match d with
         | numeric_dtype => Float.min
         | object_dtype => Float.obj_min
         end) (fin x) (fin <$> xs) = fin (foldl Qc_min x xs).
Proof.
  revert x. induction xs as [|y xs IH]; intros x; simpl; [done|].
  rewrite <-IH. by destruct d; [|rewrite obj_min_fin].
Qed.

Lemma foldl_max_fin (d : dtype) (x : Qc) (xs : list Qc) :
  foldl (match d with
         | numeric_dtype => Float.max
         | object_dtype => Float.obj_max
         end) (fin x) (fin <$> xs) = fin (foldl Qc_max x xs).
Proof.
  revert x. induction xs as [|y xs IH]; intros x; simpl; [done|].
  rewrite <-IH. by destruct d; [|rewrite obj_max_fin].
Qed.

Lemma foldl_Qc_min_least (x : Qc) (xs : list Qc) :
  foldl Qc_min x xs ∈ x :: xs ∧ ∀ w, w ∈ x :: xs → (foldl Qc_min x xs ≤ w)%Qc.
Proof.
  revert x. induction xs as [|y xs IH]; intros x; simpl.
  - split; [left|]. by intros w ->%list_elem_of_singleton.
  - destruct (IH (Qc_min x y)) as [Hin Hle]. split.
    + apply elem_of_cons in Hin as [->|Hin]; [|by do 2 right].
      unfold Qc_min. case_decide; [left|right; left].
    + assert (foldl Qc_min (Qc_min x y) xs ≤ Qc_min x y)%Qc as Hm by (apply Hle; left).
      intros w [->|[->|Hw]%elem_of_cons]%elem_of_cons.
      * etrans; [exact Hm|]. unfold Qc_min. case_decide; [done|].
        by apply Qclt_le_weak, Qclt_nge.
      * etrans; [exact Hm|]. unfold Qc_min. by case_decide.
      * apply Hle. by right.
Qed.

Lemma foldl_Qc_max_greatest (x : Qc) (xs : list Qc) :
  foldl Qc_max x xs ∈ x :: xs ∧ ∀ w, w ∈ x :: xs → (w ≤ foldl Qc_max x xs)%Qc.
Proof.
  revert x. induction xs as [|y xs IH]; intros x; simpl.
  - split; [left|]. by intros w ->%list_elem_of_singleton.
  - destruct (IH (Qc_max x y)) as [Hin Hle]. split.
    + apply elem_of_cons in Hin as [->|Hin]; [|by do 2 right].
      unfold Qc_max. case_decide; [right; left|left].
    + assert (Qc_max x y ≤ foldl Qc_max (Qc_max x y) xs)%Qc as Hm by (apply Hle; left).
      intros w [->|[->|Hw]%elem_of_cons]%elem_of_cons.
      * etrans; [|exact Hm]. unfold Qc_max. by case_decide.
      * etrans; [|exact Hm]. unfold Qc_max. case_decide; [done|].
        by apply Qclt_le_weak, Qclt_nge.
      * apply Hle. by right.
Qed.

Lemma np_min_numeric (d : dtype) (xs : list Qc) :
  xs ≠ [] →
  ∃ lo, Np.min d (fin <$> xs) = Returned (fin lo) ∧ is_minimum lo (fin <$> xs).
Proof.
  destruct xs as [|x xs]; [done|]. intros _. simpl.
  exists (foldl Qc_min x xs). rewrite foldl_min_fin. split; [done|].
  destruct (foldl_Qc_min_least x xs) as [Hin Hle]. split.
  - by apply (list_elem_of_fmap_2 fin) in Hin.
  - intros w Hw. apply Hle. change (w ∈ x :: xs).
    change (fin w ∈ fin <$> x :: xs) in Hw.
    apply list_elem_of_fmap in Hw as (w' & [= ->] & Hw'). done.
Qed.

Lemma np_max_numeric (d : dtype) (xs : list Qc) :
  xs ≠ [] →
  ∃ hi, Np.max d (fin <$> xs) = Returned (fin hi) ∧ is_maximum hi (fin <$> xs).
Proof.
  destruct xs as [|x xs]; [done|]. intros _. simpl.
  exists (foldl Qc_max x xs). rewrite foldl_max_fin. split; [done|].
  destruct (foldl_Qc_max_greatest x xs) as [Hin Hle]. split.
  - by apply (list_elem_of_fmap_2 fin) in Hin.
  - intros w Hw. apply Hle. change (w ∈ x :: xs).
    change (fin w ∈ fin <$> x :: xs) in Hw.
    apply list_elem_of_fmap in Hw as (w' & [= ->] & Hw'). done.
Qed.

(** On two numbers Python's [max] is the greater one. *)
Lemma py_max_fin (a b : Qc) : Float.py_max (fin a) (fin b) = fin (Qc_max a b).
Proof.
  unfold Float.py_max, Float.gt, Qc_max, fin.
  case_bool_decide as H; case_decide as H'; try done.
  - exfalso. by apply H', Qclt_le_weak.
  - f_equal. apply (anti_symm Qcle); [done|by apply Qcle_ngt].
Qed.

End Numeric.

(** ** The renderer *)

Section Renderer.
Variable py_str : cell → string.
Variable format_f : nat → float64 → string.

Lemma annotate_bar_in_range (mv fv : list float64) (i : nat) :
  i < length mv → i < length fv →
  ∃ ls, annotate_bar format_f mv fv i = Returned ls.
Proof.
  intros [a Ha]%lookup_lt_is_Some_2 [b Hb]%lookup_lt_is_Some_2.
  unfold annotate_bar, item. rewrite Ha, Hb. simpl. by eexists.
Qed.

Lemma tiny_limit_pos : (0 < tiny_limit)%Qc.
Proof. unfold tiny_limit, Qclt. by rewrite this_Q2Qc. Qed.

Lemma Qc_abs_nonneg (x : Qc) : (0 ≤ Qc_abs x)%Qc.
Proof. unfold Qc_abs. case_decide; [done|]. qc_arith. Qed.

Lemma Qc_abs_of_nonneg (x : Qc) : (0 ≤ x)%Qc → Qc_abs x = x.
Proof. intros Hx. unfold Qc_abs. by rewrite decide_True. Qed.

Lemma Qc_abs_opp (x : Qc) : Qc_abs (- x) = Qc_abs x.
Proof.
  unfold Qc_abs. repeat case_decide; try done.
  - apply Qc_is_canon. qc_arith.
  - apply Qc_is_canon. qc_arith.
  - exfalso. qc_arith.
Qed.

Lemma Qc_max_idemp (x : Qc) : Qc_max x x = x.
Proof. unfold Qc_max. by case_decide. Qed.

(** Asked for the limits -L and L with L ≥ 0, matplotlib sets them, unless L
    is too small to tell the two apart. *)
Lemma set_xlim_symmetric (L : Qc) :
  (0 ≤ L)%Qc → set_xlim (fin (- L)%Qc) (fin L) = Returned (symmetric_limits L).
Proof.
  intros HL. unfold set_xlim, nonsingular, symmetric_limits, fin.
  destruct (decide (L < - L)%Qc) as [Hlt|_]; [exfalso; qc_arith|].
  rewrite Qc_abs_opp, (Qc_abs_of_nonneg L), Qc_max_idemp by done.
  case_decide as Htiny; [done|].
  rewrite decide_False; [done|].
  pose proof tiny_limit_pos as Hpos.
  assert (0 < L)%Qc as HL'.
  { eapply Qclt_le_trans; [exact Hpos|]. by apply Qcnot_lt_le. }
  clear Htiny Hpos HL. revert HL'.
  unfold Qclt, Qcle. rewrite this_minus, this_mult, this_opp, !this_Q2Qc.
  change (1 / inject_Z (10 ^ 15))%Q with (1 # 1000000000000000)%Q. lra.
Qed.

Lemma py_max_abs_nonneg (lo hi : float64) (v : Qc) :
  Float.py_max (Float.abs lo) hi = fin v → (0 ≤ v)%Qc.
Proof.
  destruct lo as [lo|]; [|by destruct hi].
  pose proof (Qc_abs_nonneg lo) as Habs.
  unfold Float.py_max, Float.gt. simpl.
  destruct hi as [hi|]; [|by intros [= <-]].
  case_bool_decide as Hgt; intros [= <-]; [|done].
  apply Qclt_le_weak. by eapply Qcle_lt_trans.
Qed.

(** The limits the renderer asks for are those of [symmetric_limits]. *)
Lemma set_xlim_of_fin (v : Qc) :
  (0 ≤ v)%Qc →
  set_xlim (Float.mul (Float.neg (fin v)) (fin (of_decimal 1.15)))
           (Float.mul (fin v) (fin (of_decimal 1.15)))
  = Returned (symmetric_limits (of_decimal 1.15 * v)%Qc).
Proof.
  intros Hv.
  assert (0 ≤ of_decimal 1.15 * v)%Qc as HL.
  { revert Hv. unfold Qcle. rewrite this_mult.
    change (this (of_decimal 1.15)) with (23 # 20)%Q. change (this 0%Qc) with 0%Q.
    lra. }
  apply set_xlim_symmetric in HL.
  change (set_xlim (fin (- v * of_decimal 1.15)) (fin (v * of_decimal 1.15))
          = Returned (symmetric_limits (of_decimal 1.15 * v)%Qc)).
  replace (- v * of_decimal 1.15)%Qc with (- (of_decimal 1.15 * v))%Qc by ring.
  by replace (v * of_decimal 1.15)%Qc with (of_decimal 1.15 * v)%Qc by ring.
Qed.

Lemma set_xlim_of_max (max_val : float64) (lim : Qc * Qc) :
  (∀ v, max_val = fin v → (0 ≤ v)%Qc) →
  set_xlim (Float.mul (Float.neg max_val) (fin (of_decimal 1.15)))
           (Float.mul max_val (fin (of_decimal 1.15))) = Returned lim →
  ∃ v, max_val = fin v ∧ lim = symmetric_limits (of_decimal 1.15 * v)%Qc.
Proof.
  intros Hv. destruct max_val as [v|]; [|done].
  specialize (Hv v eq_refl). intros Hlim. exists v. split; [done|].
  change (Some v) with (fin v) in Hlim. rewrite set_xlim_of_fin in Hlim by done.
  congruence.
Qed.

Lemma Qc_max_abs_nonneg (lo hi : Qc) : (0 ≤ Qc_max (Qc_abs lo) hi)%Qc.
Proof.
  unfold Qc_max. case_decide; [|apply Qc_abs_nonneg].
  etrans; [apply (Qc_abs_nonneg lo)|done].
Qed.

(** The arrays the renderer computes from the cells of its two rows, when
    it gets that far. *)
Lemma values_neg_returned (s : list cell) (negated : list float64) :
  values_neg s = Returned negated →
  negated = (fun c => Float.neg (cell_to_float c)) <$> s.
Proof.
  revert negated. unfold values_neg.
  induction s as [|c s IH]; intros negated; simpl; [by intros [= <-]|].
  destruct c as [x| |t]; simpl; [| |done].
  - destruct (mapM _ s) as [r|]; simpl; [|done].
    intros [= <-]. by rewrite (IH r).
  - destruct (mapM _ s) as [r|]; simpl; [|done].
    intros [= <-]. by rewrite (IH r).
Qed.

Lemma values_div_returned (s : list cell) (k : Qc) (fv : list float64) :
  values_div s k = Returned fv →
  fv = (fun c => Float.div (cell_to_float c) (fin k)) <$> s.
Proof.
  revert fv. unfold values_div.
  induction s as [|c s IH]; intros fv; simpl; [by intros [= <-]|].
  destruct c as [x| |t]; simpl; [| |done].
  - destruct (mapM _ s) as [r|]; simpl; [|done].
    intros [= <-]. by rewrite (IH r).
  - destruct (mapM _ s) as [r|]; simpl; [|done].
    intros [= <-]. by rewrite (IH r).
Qed.

Lemma male_widths_of_negated (s : Series) (negated : list float64) :
  values_neg (cells s) = Returned negated →
  array_div negated (of_decimal 1000) = male_widths s.
Proof.
  intros ->%values_neg_returned. unfold array_div, male_widths.
  by rewrite <-list_fmap_compose.
Qed.

Lemma female_widths_of_values (s : Series) (fv : list float64) :
  values_div (cells s) (of_decimal 1000) = Returned fv → fv = female_widths s.
Proof. by intros ->%values_div_returned. Qed.

(** What a returned chart says about the call that made it, whatever the
    cells were. *)
Lemma render_returned_inv (male_data female_data : Series)
    (labels : list string) (country year : cell) (interactive : bool) (c : chart) :
  create_population_pyramid py_str format_f male_data female_data labels
    country year interactive = Returned c →
  let mv := male_widths male_data in
  let fv := female_widths female_data in
  barh (Np.arange (length labels)) mv = Returned (bars_male c)
  ∧ barh (Np.arange (length labels)) fv = Returned (bars_female c)
  ∧ yticks c = Np.arange (length labels)
  ∧ yticklabels c = labels
  ∧ (∃ lo hi v,
       Np.min (dtype_of male_data) mv = Returned lo
       ∧ Np.max (dtype_of female_data) fv = Returned hi
       ∧ Float.py_max (Float.abs lo) hi = fin v
       ∧ xlim c = symmetric_limits (of_decimal 1.15 * v)%Qc)
  ∧ summary c =
      "Total: " +:+ format_f 1 (Float.add (Float.abs (Np.sum mv)) (Np.sum fv))
      +:+ "k" +:+ nl
      +:+ "Male: " +:+ format_f 1 (Float.abs (Np.sum mv)) +:+ "k" +:+ nl
      +:+ "Female: " +:+ format_f 1 (Np.sum fv) +:+ "million".
Proof.
  unfold create_population_pyramid. intros H.
  destruct (values_neg (cells male_data)) as [negated|] eqn:Hneg; [|done].
  destruct (values_div (cells female_data) _) as [fv|] eqn:Hfv; [|done].
  cbn [mbind outcome_bind] in H.
  apply male_widths_of_negated in Hneg. apply female_widths_of_values in Hfv.
  rewrite Hneg in H. subst fv.
  destruct (barh _ (male_widths male_data)) as [bm|] eqn:Hbm; [|done].
  destruct (barh _ (female_widths female_data)) as [bf|] eqn:Hbf; [|done].
  cbn [mbind outcome_bind] in H.
  destruct (if interactive then _ else _) as [ls|]; [|done].
  cbn [mbind outcome_bind] in H.
  destruct (Np.min _ _) as [lo|] eqn:Hlo; [|done].
  destruct (Np.max _ _) as [hi|] eqn:Hhi; [|done].
  cbn [mbind outcome_bind] in H.
  destruct (set_xlim _ _) as [lim|] eqn:Hlim; [|done].
  cbn [mbind outcome_bind] in H. injection H as <-.
  apply set_xlim_of_max in Hlim as (v & Hv & ->);
    [|by intros v; apply py_max_abs_nonneg].
  cbn zeta. split_and!; [done..| |done].
  by exists lo, hi, v.
Qed.

(** With one cell per age band, the widths of the bars of a returned chart
    are the widths computed from the cells. *)
Lemma extents_of_returned_chart (male_data female_data : Series)
    (labels : list string) (country year : cell) (interactive : bool) (c : chart) :
  length (cells male_data) = length labels →
  length (cells female_data) = length labels →
  create_population_pyramid py_str format_f male_data female_data labels
    country year interactive = Returned c →
  male_extents c = male_widths male_data
  ∧ female_extents c = female_widths female_data.
Proof.
  intros Hm Hf Hc.
  apply render_returned_inv in Hc as (Hbm & Hbf & _).
  destruct (barh_same_length (length labels) (male_widths male_data))
    as (bm & Hbm' & Hwm & _).
  { unfold male_widths. by rewrite length_fmap. }
  destruct (barh_same_length (length labels) (female_widths female_data))
    as (bf & Hbf' & Hwf & _).
  { unfold female_widths. by rewrite length_fmap. }
  rewrite Hbm in Hbm'. rewrite Hbf in Hbf'.
  injection Hbm' as <-. injection Hbf' as <-. done.
Qed.

Lemma male_widths_numeric (d : dtype) (ms : list Qc) :
  male_widths (mkSeries d (Num <$> ms)) = (fun x => fin (- x / thousand)%Qc) <$> ms.
Proof. unfold male_widths. simpl. by rewrite <-list_fmap_compose. Qed.

Lemma female_widths_numeric (d : dtype) (fs : list Qc) :
  female_widths (mkSeries d (Num <$> fs)) = (fun x => fin (x / thousand)%Qc) <$> fs.
Proof. unfold female_widths. simpl. by rewrite <-list_fmap_compose. Qed.

(** Numeric counts, one per age band and at least one band: the call
    returns a chart, described field by field. *)
Lemma render_numeric (dm df : dtype) (ms fs : list Qc) (labels : list string)
    (country year : cell) (interactive : bool) :
  labels ≠ [] → length ms = length labels → length fs = length labels →
  ∃ c lo hi,
    create_population_pyramid py_str format_f
      (mkSeries dm (Num <$> ms)) (mkSeries df (Num <$> fs))
      labels country year interactive = Returned c
    ∧ male_extents c = (fun x => fin (- x / thousand)%Qc) <$> ms
    ∧ female_extents c = (fun x => fin (x / thousand)%Qc) <$> fs
    ∧ bar_y <$> bars_male c = seq 0 (length labels)
    ∧ bar_y <$> bars_female c = seq 0 (length labels)
    ∧ yticklabels c = labels
    ∧ is_minimum lo (male_extents c)
    ∧ is_maximum hi (female_extents c)
    ∧ xlim c = symmetric_limits (of_decimal 1.15 * Qc_max (Qc_abs lo) hi)%Qc.
Proof.
  intros Hne Hm Hf. unfold create_population_pyramid, male_extents, female_extents.
  cbn [cells dtype_of].
  rewrite values_neg_numeric, values_div_numeric. cbn [mbind outcome_bind].
  rewrite (array_div_fin (Qcopp <$> ms)), <-(list_fmap_compose Qcopp).
  change (of_decimal 1000) with thousand.
  change ((fun x => fin (x / thousand)%Qc) ∘ Qcopp)
    with (fun x => fin (- x / thousand)%Qc).
  set (mv := (fun x => fin (- x / thousand)%Qc) <$> ms).
  set (fv := (fun x => fin (x / thousand)%Qc) <$> fs).
  assert (length mv = length labels) as Hmv by (unfold mv; by rewrite length_fmap).
  assert (length fv = length labels) as Hfv by (unfold fv; by rewrite length_fmap).
  destruct (barh_same_length (length labels) mv Hmv) as (bm & -> & Hbm & Hym).
  destruct (barh_same_length (length labels) fv Hfv) as (bf & -> & Hbf & Hyf).
  cbn [mbind outcome_bind].
  assert (∃ ls, (if interactive
            then mapM (annotate_bar format_f mv fv) (seq 0 (length (zip bm bf)))
                 ≫= (fun per_bar => Returned (List.concat per_bar))
            else Returned []) = Returned ls) as [ls ->].
  { destruct interactive; [|by eexists].
    destruct (mapM_Returned_ex (annotate_bar format_f mv fv)
                (seq 0 (length (zip bm bf)))) as [per ->]; [|by eexists].
    intros i [_ Hi]%elem_of_seq.
    rewrite length_zip in Hi.
    rewrite <-(length_fmap bar_width bm), <-(length_fmap bar_width bf), Hbm, Hbf in Hi.
    apply annotate_bar_in_range; lia. }
  cbn [mbind outcome_bind].
  destruct (np_min_numeric dm ((fun x => (- x / thousand)%Qc) <$> ms))
    as (lo & Hlo & Hlomin).
  { destruct ms; [by destruct labels|done]. }
  destruct (np_max_numeric df ((fun x => (x / thousand)%Qc) <$> fs))
    as (hi & Hhi & Hhimax).
  { destruct fs; [by destruct labels|done]. }
  rewrite <-!list_fmap_compose in Hlo, Hhi, Hlomin, Hhimax.
  change (Np.min dm mv = Returned (fin lo)) in Hlo.
  change (Np.max df fv = Returned (fin hi)) in Hhi.
  change (is_minimum lo mv) in Hlomin. change (is_maximum hi fv) in Hhimax.
  rewrite Hlo, Hhi. cbn [mbind outcome_bind].
  change (Float.abs (fin lo)) with (fin (Qc_abs lo)).
  rewrite py_max_fin.
  rewrite set_xlim_of_fin by apply Qc_max_abs_nonneg.
  cbn [mbind outcome_bind].
  eexists _, lo, hi. split; [reflexivity|].
  cbn [bars_male bars_female yticklabels xlim].
  rewrite Hbm, Hbf. split_and!; done.
Qed.

(** C1 (the code at the input of the claim). For male counts 10, 20 and
    female counts 5, 25 the bars drawn have the widths -0.01, -0.02 and
    0.005, 0.025: each count divided by 1000, not the counts themselves.
    This holds whatever the dtype of the two rows is. *)
Theorem bar_extents_are_counts_over_1000 (dm df : dtype) (country year : cell)
    (interactive : bool) :
  ∃ c,
    create_population_pyramid py_str format_f
      (mkSeries dm [Num (of_decimal 10); Num (of_decimal 20)])
      (mkSeries df [Num (of_decimal 5); Num (of_decimal 25)])
      ["0-4"; "5-9"] country year interactive = Returned c
    ∧ male_extents c = [fin (of_decimal (-0.01)); fin (of_decimal (-0.02))]
    ∧ female_extents c = [fin (of_decimal 0.005); fin (of_decimal 0.025)]
    ∧ male_extents c ≠ [fin (of_decimal (-10)); fin (of_decimal (-20))]
    ∧ female_extents c ≠ [fin (of_decimal 5); fin (of_decimal 25)].
Proof.
  destruct (render_numeric dm df [of_decimal 10; of_decimal 20]
              [of_decimal 5; of_decimal 25] ["0-4"; "5-9"]
              country year interactive)
    as (c & lo & hi & Hc & Hm & Hf & _); [done..|].
  exists c. split; [exact Hc|]. rewrite Hm, Hf.
  assert (∀ x y : Qc, this x = this y → fin x = fin y) as Heq.
  { intros x y H. f_equal. by apply Qc_is_canon; rewrite H. }
  split_and!.
  - cbn [fmap list_fmap]. by repeat (apply (f_equal2 cons); [by apply Heq|]).
  - cbn [fmap list_fmap]. by repeat (apply (f_equal2 cons); [by apply Heq|]).
  - cbn [fmap list_fmap]. by intros [=].
  - cbn [fmap list_fmap]. by intros [=].
Qed.

Lemma np_sum_fin_acc (a : Qc) (xs : list Qc) :
  foldl Float.add (fin a) (fin <$> xs) = fin (a + Qc_sum xs).
Proof.
  unfold Qc_sum. revert a. induction xs as [|x xs IH]; intros a.
  - simpl. f_equal. ring.
  - rewrite fmap_cons. cbn [foldl foldr].
    change (Float.add (fin a) (fin x)) with (fin (a + x)%Qc).
    rewrite IH. f_equal. ring.
Qed.

Lemma np_sum_fin (xs : list Qc) : Np.sum (fin <$> xs) = fin (Qc_sum xs).
Proof. unfold Np.sum. rewrite np_sum_fin_acc. f_equal. ring. Qed.

Lemma Qc_sum_scaled (k : Qc) (xs : list Qc) :
  Qc_sum ((fun x => (x * k)%Qc) <$> xs) = (Qc_sum xs * k)%Qc.
Proof.
  unfold Qc_sum. induction xs as [|x xs IH]; [simpl; ring|].
  rewrite fmap_cons. cbn [foldr]. rewrite IH. ring.
Qed.

(** The two sums of the annotation box for numeric counts. *)
Lemma total_male_numeric (d : dtype) (ms : list Qc) :
  Float.abs (Np.sum (male_widths (mkSeries d (Num <$> ms))))
  = fin (Qc_abs (Qc_sum ms) / thousand).
Proof.
  rewrite male_widths_numeric.
  rewrite (list_fmap_ext _ (fin ∘ (fun x => (x * (- / thousand))%Qc)) ms)
    by (intros i x _; simpl; f_equal; unfold Qcdiv; ring).
  rewrite list_fmap_compose, np_sum_fin, Qc_sum_scaled. simpl. f_equal.
  replace (Qc_sum ms * - / thousand)%Qc with (- (Qc_sum ms / thousand))%Qc
    by (unfold Qcdiv; ring).
  rewrite Qc_abs_opp. unfold Qc_abs.
  assert (∀ x : Qc, (0 ≤ x / thousand)%Qc ↔ (0 ≤ x)%Qc) as Hk.
  { intros x. unfold Qcdiv, Qcle. rewrite this_mult.
    change (this (/ thousand)) with (1 # 1000)%Q. change (this 0%Qc) with 0%Q.
    split; lra. }
  destruct (decide (0 ≤ Qc_sum ms / thousand)%Qc) as [H1|H1],
           (decide (0 ≤ Qc_sum ms)%Qc) as [H2|H2]; try done.
  - destruct H2. by apply Hk.
  - destruct H1. by apply Hk.
  - unfold Qcdiv. ring.
Qed.

Lemma total_female_numeric (d : dtype) (fs : list Qc) :
  Np.sum (female_widths (mkSeries d (Num <$> fs))) = fin (Qc_sum fs / thousand).
Proof.
  rewrite female_widths_numeric.
  rewrite (list_fmap_ext _ (fin ∘ (fun x => (x * / thousand)%Qc)) fs) by done.
  by rewrite list_fmap_compose, np_sum_fin, Qc_sum_scaled.
Qed.

(** C2. The annotation box of every returned chart reads
    Total T k / Male M k / Female F million, where M is the absolute value
    of the sum of the male counts, each negated and divided by 1000, F is
    the sum of the female counts, each divided by 1000, and T = M + F: the
    three figures are computed from the counts given to the call on one
    scale, and F carries the "million" suffix without any conversion. For
    numeric counts, one per age band and at least one band, a chart is
    returned, and M = |sum of the male counts| / 1000 and
    F = (sum of the female counts) / 1000. *)
Theorem summary_annotation_units :
  (∀ (male_data female_data : Series) (labels : list string)
     (country year : cell) (interactive : bool) (c : chart),
     create_population_pyramid py_str format_f male_data female_data labels
       country year interactive = Returned c →
     let total_male := Float.abs (Np.sum (male_widths male_data)) in
     let total_female := Np.sum (female_widths female_data) in
     let total_pop := Float.add total_male total_female in
     summary c =
       "Total: " +:+ format_f 1 total_pop +:+ "k" +:+ nl
       +:+ "Male: " +:+ format_f 1 total_male +:+ "k" +:+ nl
       +:+ "Female: " +:+ format_f 1 total_female +:+ "million")
  ∧ (∀ (dm df : dtype) (ms fs : list Qc) (labels : list string)
       (country year : cell) (interactive : bool),
       labels ≠ [] → length ms = length labels → length fs = length labels →
       let M := (Qc_abs (Qc_sum ms) / thousand)%Qc in
       let F := (Qc_sum fs / thousand)%Qc in
       ∃ c,
         create_population_pyramid py_str format_f
           (mkSeries dm (Num <$> ms)) (mkSeries df (Num <$> fs))
           labels country year interactive = Returned c
         ∧ summary c =
             "Total: " +:+ format_f 1 (fin (M + F)) +:+ "k" +:+ nl
             +:+ "Male: " +:+ format_f 1 (fin M) +:+ "k" +:+ nl
             +:+ "Female: " +:+ format_f 1 (fin F) +:+ "million").
Proof.
  split.
  - intros male_data female_data labels country year interactive c Hc.
    by apply render_returned_inv in Hc as (_ & _ & _ & _ & _ & Hsum).
  - intros dm df ms fs labels country year interactive Hne Hm Hf M F.
    destruct (render_numeric dm df ms fs labels country year interactive Hne Hm Hf)
      as (c & lo & hi & Hc & _).
    exists c. split; [done|].
    apply render_returned_inv in Hc as (_ & _ & _ & _ & _ & ->).
    by rewrite total_male_numeric, total_female_numeric.
Qed.

(** Whatever the cells are, numbers or missing values: when the call returns
    a chart, its axis has the limits matplotlib makes of -L and L, with
    L = 1.15 times Python's [max] of |numpy's minimum of the male bar
    widths| and numpy's maximum of the female ones. *)
Lemma axis_limits_of_returned_chart (male_data female_data : Series)
    (labels : list string) (country year : cell) (interactive : bool) (c : chart) :
  length (cells male_data) = length labels →
  length (cells female_data) = length labels →
  create_population_pyramid py_str format_f male_data female_data labels
    country year interactive = Returned c →
  ∃ lo hi v,
    Np.min (dtype_of male_data) (male_extents c) = Returned lo
    ∧ Np.max (dtype_of female_data) (female_extents c) = Returned hi
    ∧ Float.py_max (Float.abs lo) hi = fin v
    ∧ xlim c = symmetric_limits (of_decimal 1.15 * v)%Qc.
Proof.
  intros Hm Hf Hc.
  destruct (extents_of_returned_chart _ _ _ _ _ _ _ Hm Hf Hc) as [-> ->].
  by apply render_returned_inv in Hc as (_ & _ & _ & _ & Hlim & _).
Qed.

(** C3. When a call with one cell per age band returns a chart, the x axis
    has the limits matplotlib makes of -L and L, where L is 1.15 times the
    larger of |least male bar width| and the greatest female bar width:
    -L and L themselves, unless L is below 10^21 * 2^-1022 (as when every
    count is zero), where the axis runs from -0.05 to 0.05. For numeric
    counts and at least one band a chart is returned. *)
Theorem axis_limits_symmetric :
  (∀ (male_data female_data : Series) (labels : list string)
     (country year : cell) (interactive : bool) (c : chart),
     length (cells male_data) = length labels →
     length (cells female_data) = length labels →
     create_population_pyramid py_str format_f male_data female_data labels
       country year interactive = Returned c →
     ∃ lo hi v,
       Np.min (dtype_of male_data) (male_extents c) = Returned lo
       ∧ Np.max (dtype_of female_data) (female_extents c) = Returned hi
       ∧ Float.py_max (Float.abs lo) hi = fin v
       ∧ xlim c = symmetric_limits (of_decimal 1.15 * v)%Qc)
  ∧ (∀ (dm df : dtype) (ms fs : list Qc) (labels : list string)
       (country year : cell) (interactive : bool),
       labels ≠ [] → length ms = length labels → length fs = length labels →
       ∃ c lo hi,
         create_population_pyramid py_str format_f
           (mkSeries dm (Num <$> ms)) (mkSeries df (Num <$> fs))
           labels country year interactive = Returned c
         ∧ is_minimum lo (male_extents c)
         ∧ is_maximum hi (female_extents c)
         ∧ xlim c = symmetric_limits (of_decimal 1.15 * Qc_max (Qc_abs lo) hi)%Qc)
  ∧ (∀ L : Qc, (tiny_limit ≤ L)%Qc → symmetric_limits L = ((- L)%Qc, L))
  ∧ (∀ L : Qc, (L < tiny_limit)%Qc →
       symmetric_limits L = ((- of_decimal 0.05)%Qc, of_decimal 0.05)).
Proof.
  split_and!.
  - intros. by eapply axis_limits_of_returned_chart.
  - intros dm df ms fs labels country year interactive Hne Hm Hf.
    destruct (render_numeric dm df ms fs labels country year interactive Hne Hm Hf)
      as (c & lo & hi & Hc & _ & _ & _ & _ & _ & Hlo & Hhi & Hlim).
    by exists c, lo, hi.
  - intros L HL. unfold symmetric_limits. rewrite decide_False; [done|].
    by apply Qcle_not_lt.
  - intros L HL. unfold symmetric_limits. by rewrite decide_True.
Qed.

End Renderer.

(** ** The table formatter *)

Section Formatter.
Variable parse_number : string → float64x.

Lemma fillna_to_numeric (s : Series) :
  fillna 0%Qc (to_numeric_coerce parse_number s)
  = coerced parse_number <$> cells s.
Proof.
  unfold fillna, to_numeric_coerce. rewrite <-list_fmap_compose.
  apply list_fmap_ext. intros i [x| |t] _; simpl; try done.
  by destruct (parse_number t).
Qed.

Lemma create_data_table_rows (male female : Series) (labels : list string)
    (country year : cell) :
  length (cells male) = length labels → length (cells female) = length labels →
  create_data_table parse_number male female labels country year
  = Returned (mkDataFrame ["Age Group"; "Male"; "Female"; "Total"]
      ((fun p : string * (cell * cell) => table_row parse_number p.1 p.2.1 p.2.2)
         <$> zip labels (zip (cells male) (cells female)))).
Proof.
  intros Hm Hf. unfold create_data_table.
  rewrite !fillna_to_numeric. unfold Np.add.
  rewrite broadcast_same_length by (rewrite !length_fmap; congruence).
  cbn [mbind outcome_bind]. unfold pd_DataFrame.
  cbn [forallb snd]. rewrite !length_fmap, length_zip, !length_fmap.
  rewrite !bool_decide_true by lia. cbn [andb fmap list_fmap fst].
  do 2 f_equal. apply list_eq. intros i.
  rewrite !list_lookup_fmap.
  destruct (decide (i < length labels)) as [Hi|Hi].
  - rewrite lookup_seq_lt by done.
    destruct (lookup_lt_is_Some_2 labels i Hi) as [l Hl].
    destruct (lookup_lt_is_Some_2 (cells male) i) as [m Hmi]; [lia|].
    destruct (lookup_lt_is_Some_2 (cells female) i) as [f Hfi]; [lia|].
    assert (zip labels (zip (cells male) (cells female)) !! i
            = Some (l, (m, f))) as ->.
    { apply lookup_zip_Some. split; [done|]. by apply lookup_zip_Some. }
    cbn [fmap option_fmap option_map snd fst plus].
    rewrite !list_lookup_fmap, Hl, Hmi, Hfi.
    assert (zip (coerced parse_number <$> cells male)
                (coerced parse_number <$> cells female) !! i
            = Some (coerced parse_number m, coerced parse_number f)) as ->.
    { apply lookup_zip_Some. by rewrite !list_lookup_fmap, Hmi, Hfi. }
    done.
  - rewrite lookup_seq_ge by lia.
    rewrite (lookup_ge_None_2 (zip _ _)); [done|].
    rewrite length_zip. lia.
Qed.

(** With another number of cells than age bands, pandas raises and there is
    no table. *)
Lemma create_data_table_length_mismatch (male female : Series)
    (labels : list string) (country year : cell) :
  length (cells male) ≠ length labels ∨ length (cells female) ≠ length labels →
  ∃ e, create_data_table parse_number male female labels country year = Raised e.
Proof.
  intros Hlen. unfold create_data_table. rewrite !fillna_to_numeric.
  destruct (Np.add _ _) as [total|e]; [|by eexists].
  cbn [mbind outcome_bind]. unfold pd_DataFrame.
  cbn [forallb snd]. rewrite !length_fmap.
  rewrite (bool_decide_true (length labels = length labels)) by done.
  cbn [andb].
  destruct (decide (length (cells male) = length labels)) as [Hm|Hm].
  - rewrite (bool_decide_true _ Hm). cbn [andb].
    destruct Hlen as [?|Hf]; [done|].
    rewrite (bool_decide_false _ Hf). by eexists.
  - rewrite (bool_decide_false _ Hm). by eexists.
Qed.


End Formatter.

(** ** No age band at all *)

(** C9 (as amended). With no age band and no counts, the formatter returns
    the table with its four columns and no row, and the renderer raises the
    error of taking the minimum of an empty array; it returns no chart. This
    holds whatever the dtype of the two empty rows is. *)
Theorem empty_age_bands (py_str : cell → string) (format_f : nat → float64 → string)
    (parse_number : string → float64x) (dm df : dtype) (country year : cell)
    (interactive : bool) :
  create_data_table parse_number (mkSeries dm []) (mkSeries df []) [] country year
  = Returned (mkDataFrame ["Age Group"; "Male"; "Female"; "Total"] [])
  ∧ create_population_pyramid py_str format_f (mkSeries dm []) (mkSeries df []) []
      country year interactive
    = Raised (ValueError
        "zero-size array to reduction operation minimum which has no identity").
Proof. split; [done|]. by destruct interactive. Qed.

(** ** Sets of keys and their sorted lists *)

Section Keys.

Global Instance cell_le_total : Total cell_le.
Proof.
  intros [x| |s] [y| |t]; simpl; auto.
  - apply (total Qcle).
  - apply (total String.le).
Qed.

Global Instance Str_inj : Inj (=) (=) Str.
Proof. by intros ?? [=]. Qed.
Global Instance Num_inj : Inj (=) (=) Num.
Proof. by intros ?? [=]. Qed.

Lemma Sorted_fmap_inv {A B} (R1 : relation A) (R2 : relation B) (f : A → B) (l : list A) :
  (∀ x y, R2 (f x) (f y) → R1 x y) → Sorted R2 (f <$> l) → Sorted R1 l.
Proof.
  intros Hf. induction l as [|x l IH]; [constructor|].
  rewrite fmap_cons. inversion_clear 1 as [|?? Hs Hh].
  constructor; [by apply IH|].
  destruct l as [|y l]; [constructor|].
  rewrite fmap_cons in Hh. inversion_clear Hh. constructor. by apply Hf.
Qed.

Lemma texts_fmap (l : list cell) :
  Forall (fun c => is_text c = true) l → Str <$> texts l = l.
Proof.
  induction 1 as [|[x| |s] l Hx Hl IH]; [done..|].
  change (Str s :: (Str <$> texts l) = Str s :: l). by rewrite IH.
Qed.

Lemma numbers_fmap (l : list cell) :
  Forall (fun c => ∃ x, c = Num x) l → Num <$> numbers l = l.
Proof.
  induction 1 as [|c l [x ->] Hl IH]; [done|].
  change (Num x :: (Num <$> numbers l) = Num x :: l). by rewrite IH.
Qed.

Lemma py_sorted_homogeneous (S : gset cell) :
  (∀ c, c ∈ S → is_text c = true) ∨ (∀ c, c ∈ S → is_text c = false) →
  py_sorted S = Returned (merge_sort cell_le (elements S)).
Proof.
  intros H. unfold py_sorted.
  assert (forallb is_text (elements S)
          || forallb (fun c => negb (is_text c)) (elements S) = true) as ->; [|done].
  apply orb_true_iff. destruct H as [H|H]; [left|right];
    apply forallb_forall; intros c Hc%list_elem_of_In%elem_of_elements.
  - by apply H.
  - by rewrite H.
Qed.

(** A value is common to two sets when it is in both, a NaN only when both
    are sets of object columns. *)
Lemma elem_of_py_and (a b : pyset) (c : cell) :
  c ∈ py_and a b
  ↔ c ∈ members a ∧ c ∈ members b
    ∧ (c = NaN → from_object_column a && from_object_column b = true).
Proof.
  unfold py_and. destruct (from_object_column a && from_object_column b).
  - rewrite elem_of_intersection. tauto.
  - rewrite elem_of_difference, elem_of_intersection, elem_of_singleton.
    split; [intros [[? ?] ?]; by split_and!|].
    intros (? & ? & Hn). split; [done|]. intros ->. by specialize (Hn eq_refl).
Qed.

Lemma elem_of_py_and_lists (la lb : list cell) (c : cell) :
  c ≠ NaN → c ∈ py_and (py_set la) (py_set lb) ↔ c ∈ la ∧ c ∈ lb.
Proof.
  intros Hc. rewrite elem_of_py_and. unfold py_set. cbn [members].
  rewrite !elem_of_list_to_set. tauto.
Qed.

(** The sorted intersection of two columns of texts. *)
Lemma common_texts (ca cb : list string) :
  ∃ cs, merge_sort cell_le
          (elements (py_and (py_set (Str <$> ca)) (py_set (Str <$> cb))))
        = Str <$> cs
    ∧ py_sorted (py_and (py_set (Str <$> ca)) (py_set (Str <$> cb)))
      = Returned (Str <$> cs)
    ∧ Sorted String.le cs ∧ NoDup cs ∧ ∀ c, c ∈ cs ↔ c ∈ ca ∧ c ∈ cb.
Proof.
  set (S := py_and (py_set (Str <$> ca)) (py_set (Str <$> cb))).
  set (l := merge_sort cell_le (elements S)).
  assert (∀ c, c ∈ l ↔ c ∈ Str <$> ca ∧ c ∈ Str <$> cb) as Hin.
  { intros c. unfold l. rewrite merge_sort_Permutation, elem_of_elements.
    unfold S. rewrite elem_of_py_and. unfold py_set. cbn [members].
    rewrite !elem_of_list_to_set. split; [tauto|].
    intros [Ha Hb]. split_and!; [done..|].
    intros ->. by apply list_elem_of_fmap in Ha as (? & ? & _). }
  assert (Forall (fun c => is_text c = true) l) as Htext.
  { apply Forall_forall. intros c [(s & -> & _)%list_elem_of_fmap _]%Hin. done. }
  exists (texts l). rewrite texts_fmap by done. split; [done|].
  assert (Str <$> texts l = l) as Hl by by apply texts_fmap.
  split_and!.
  - apply py_sorted_homogeneous. left. intros c Hc.
    eapply Forall_forall in Htext; [done|].
    unfold l. by rewrite merge_sort_Permutation, elem_of_elements.
  - apply (Sorted_fmap_inv _ cell_le Str); [done|].
    rewrite Hl. apply Sorted_merge_sort, _.
  - apply (NoDup_fmap_1 Str). rewrite Hl. unfold l.
    rewrite merge_sort_Permutation. apply NoDup_elements.
  - intros c. rewrite <-(list_elem_of_fmap_inj Str), Hl, Hin.
    by rewrite !(list_elem_of_fmap_inj Str).
Qed.

Lemma common_numbers (ya yb : list Qc) :
  ∃ ys, merge_sort cell_le
          (elements (py_and (py_set (Num <$> ya)) (py_set (Num <$> yb))))
        = Num <$> ys
    ∧ py_sorted (py_and (py_set (Num <$> ya)) (py_set (Num <$> yb)))
      = Returned (Num <$> ys)
    ∧ Sorted Qcle ys ∧ NoDup ys ∧ ∀ y, y ∈ ys ↔ y ∈ ya ∧ y ∈ yb.
Proof.
  set (S := py_and (py_set (Num <$> ya)) (py_set (Num <$> yb))).
  set (l := merge_sort cell_le (elements S)).
  assert (∀ c, c ∈ l ↔ c ∈ Num <$> ya ∧ c ∈ Num <$> yb) as Hin.
  { intros c. unfold l. rewrite merge_sort_Permutation, elem_of_elements.
    unfold S. rewrite elem_of_py_and. unfold py_set. cbn [members].
    rewrite !elem_of_list_to_set. split; [tauto|].
    intros [Ha Hb]. split_and!; [done..|].
    intros ->. by apply list_elem_of_fmap in Ha as (? & ? & _). }
  assert (Forall (fun c => ∃ x, c = Num x) l) as Hnum.
  { apply Forall_forall. intros c [(s & -> & _)%list_elem_of_fmap _]%Hin. by eexists. }
  exists (numbers l). rewrite numbers_fmap by done. split; [done|].
  assert (Num <$> numbers l = l) as Hl by by apply numbers_fmap.
  split_and!.
  - apply py_sorted_homogeneous. right. intros c Hc.
    eapply Forall_forall in Hnum as [x ->]; [done|].
    unfold l. by rewrite merge_sort_Permutation, elem_of_elements.
  - apply (Sorted_fmap_inv _ cell_le Num); [done|].
    rewrite Hl. apply Sorted_merge_sort, _.
  - apply (NoDup_fmap_1 Num). rewrite Hl. unfold l.
    rewrite merge_sort_Permutation. apply NoDup_elements.
  - intros c. rewrite <-(list_elem_of_fmap_inj Num), Hl, Hin.
    by rewrite !(list_elem_of_fmap_inj Num).
Qed.
End Keys.

(** ** The generation loop *)

Lemma for_each_app {A} (xs ys : list A) (body : A → script unit) (a : app) :
  for_each (xs ++ ys) body a
  = match for_each xs body a with
    | (Returned _, a') => for_each ys body a'
    | (Raised e, a') => (Raised e, a')
    end.
Proof.
  revert a. induction xs as [|x xs IH]; intros a; simpl; [done|].
  unfold mbind, script_bind in *. destruct (body x a) as [[[]|e] a']; [|done].
  apply IH.
Qed.

Section Generation.
Variable py_str : cell → string.
Variable format_f : nat → float64 → string.
Variable parse_number : string → float64x.

Local Abbreviation generate_one := (generate_one py_str format_f parse_number).
Local Abbreviation generate_pyramids := (generate_pyramids py_str format_f parse_number).

Local Abbreviation not_found_warning := (not_found_warning py_str).
Local Abbreviation built_with := (built_with py_str format_f parse_number).
Local Abbreviation consistent := (consistent py_str format_f parse_number).

Lemma generate_one_not_found (sv : bool) (sel : selection) (m f mr fr : DataFrame)
    (a : app) :
  male_df (session a) = Some m → female_df (session a) = Some f →
  matching_rows m (sel_country sel) (sel_year sel) = Returned mr →
  matching_rows f (sel_country sel) (sel_year sel) = Returned fr →
  rows mr = [] ∨ rows fr = [] →
  generate_one sv sel a = show (not_found_warning sel) a.
Proof.
  intros Hm Hf Hmr Hfr He. unfold generate_one.
  unfold mbind at 1, script_bind at 1. cbn [get_session].
  unfold mbind at 1, script_bind at 1, lift at 1.
  rewrite Hm. cbn [loaded mbind outcome_bind]. rewrite Hmr.
  unfold mbind at 1, script_bind at 1, lift at 1.
  rewrite Hf. cbn [loaded mbind outcome_bind]. rewrite Hfr.
  assert (negb (empty mr) && negb (empty fr) = false) as ->.
  { unfold empty. destruct He as [-> | ->]; [done|]. by rewrite andb_false_r. }
  done.
Qed.

(** The tables and the labels of the session are not touched by the loop
    body. *)
Lemma generate_one_tables (sv : bool) (sel : selection) (a : app) :
  let a' := (generate_one sv sel a).2 in
  male_df (session a') = male_df (session a)
  ∧ female_df (session a') = female_df (session a)
  ∧ age_cols (session a') = age_cols (session a)
  ∧ pyramid_selections (session a') = pyramid_selections (session a).
Proof.
  unfold generate_one, mbind, script_bind, lift, get_session, modify_session, show.
  repeat case_match; simplify_eq/=; done.
Qed.

Lemma for_each_generate_tables (sv : bool) (sels : list selection) (a : app) :
  let a' := (for_each sels (generate_one sv) a).2 in
  male_df (session a') = male_df (session a)
  ∧ female_df (session a') = female_df (session a)
  ∧ age_cols (session a') = age_cols (session a)
  ∧ pyramid_selections (session a') = pyramid_selections (session a).
Proof.
  revert a. induction sels as [|sel sels IH]; intros a; [done|].
  cbn [for_each]. unfold mbind, script_bind.
  pose proof (generate_one_tables sv sel a) as Hone.
  destruct (generate_one sv sel a) as [[[]|e] a1]; [|exact Hone].
  cbn zeta in Hone. cbn [snd] in Hone.
  destruct (IH a1) as (-> & -> & -> & ->). exact Hone.
Qed.

(** C4. A selection that finds no row in the male table or none in the
    female table makes the loop body show the warning and return, with
    the session as it was; and a batch that contains it runs the selections
    before it, shows the warning, runs the selections after it and closes
    with the success message, each of them as in a batch without it. *)
Theorem missing_selection_is_skipped (sv : bool) (sel : selection)
    (m f mr fr : DataFrame) (before after : list selection) (a : app) :
  male_df (session a) = Some m → female_df (session a) = Some f →
  pyramid_selections (session a) = before ++ sel :: after →
  matching_rows m (sel_country sel) (sel_year sel) = Returned mr →
  matching_rows f (sel_country sel) (sel_year sel) = Returned fr →
  rows mr = [] ∨ rows fr = [] →
  generate_one sv sel a
    = (Returned (), mkApp (session a) (shown a ++ [not_found_warning sel]))
  ∧ generate_pyramids sv a
    = (modify_session (set_generated_pyramids []) ;;
       for_each before (generate_one sv) ;;
       show (not_found_warning sel) ;;
       for_each after (generate_one sv) ;;
       closing_message) a.
Proof.
  intros Hm Hf Hsel Hmr Hfr He. split.
  { by rewrite (generate_one_not_found sv sel m f mr fr). }
  unfold generate_pyramids, closing_message, mbind, script_bind.
  cbn [modify_session get_session session].
  set (a1 := mkApp (set_generated_pyramids [] (session a)) (shown a)).
  assert (pyramid_selections (set_generated_pyramids [] (session a))
          = before ++ sel :: after) as -> by done.
  rewrite for_each_app.
  pose proof (for_each_generate_tables sv before a1) as Htab.
  destruct (for_each before (generate_one sv) a1) as [[[]|e] a2]; [|done].
  cbn zeta in Htab. cbn [snd] in Htab. destruct Htab as (Hm2 & Hf2 & _).
  cbn [for_each]. unfold mbind, script_bind.
  rewrite (generate_one_not_found sv sel m f mr fr a2); try done.
  - by rewrite Hm2.
  - by rewrite Hf2.
Qed.
Lemma generate_one_consistent (sv : bool) (labels : list string) (m f : DataFrame)
    (sel : selection) (a : app) :
  consistent sv labels m f a →
  consistent sv labels m f (generate_one sv sel a).2.
Proof.
  intros (Hm & Hf & Hl & Hall).
  unfold generate_one, mbind at 1, script_bind at 1. cbn [get_session].
  rewrite Hm, Hf, Hl. cbn [loaded default].
  unfold mbind, script_bind, lift, modify_session, show.
  cbn [mbind outcome_bind].
  destruct (matching_rows m _ _) as [mr|] eqn:Hmr; [|done].
  destruct (matching_rows f _ _) as [fr|] eqn:Hfr; [|done].
  destruct (negb (empty mr) && negb (empty fr)); [|done].
  destruct (age_series _ mr _) as [md|] eqn:Hmd; [|done].
  destruct (age_series _ fr _) as [fd|] eqn:Hfd; [|done].
  destruct (create_population_pyramid _ _ _ _ _ _ _ _) as [c|] eqn:Hc; [|done].
  destruct (create_data_table _ _ _ _ _ _) as [t|] eqn:Ht; [|done].
  cbn [snd session]. split_and!; [done..|].
  cbn [generated_pyramids set_generated_pyramids].
  apply Forall_app. split; [done|]. apply Forall_singleton.
  by exists mr, fr, md, fd.
Qed.

Lemma for_each_consistent (sv : bool) (labels : list string) (m f : DataFrame)
    (sels : list selection) (a : app) :
  consistent sv labels m f a →
  consistent sv labels m f (for_each sels (generate_one sv) a).2.
Proof.
  revert a. induction sels as [|sel sels IH]; intros a Ha; [done|].
  cbn [for_each]. unfold mbind, script_bind.
  pose proof (generate_one_consistent sv labels m f sel a Ha) as H1.
  destruct (generate_one sv sel a) as [[[]|e] a1]; [|done].
  by apply IH.
Qed.

Lemma configuration_section_consistent (sv : bool) (labels : list string)
    (m f : DataFrame) (choices : list selection) (a : app) :
  male_df (session a) = Some m → female_df (session a) = Some f →
  age_cols (session a) = Some labels →
  Forall (built_with sv labels m f)
    (generated_pyramids
       (session (configuration_section py_str format_f parse_number
                   choices sv true a).2)).
Proof.
  intros Hm Hf Hl.
  unfold configuration_section, mbind at 1, script_bind at 1. cbn [get_session].
  rewrite Hm, Hf. cbn [bool_decide andb].
  rewrite !bool_decide_true by done. cbn [andb].
  unfold mbind at 1, script_bind at 1. cbn [modify_session].
  unfold generate_pyramids.
  unfold mbind at 1, script_bind at 1. cbn [modify_session session].
  unfold mbind at 1, script_bind at 1. cbn [get_session session].
  unfold mbind at 1, script_bind at 1.
  set (a1 := mkApp _ _).
  assert (consistent sv labels m f a1) as Ha1 by (by split_and!).
  pose proof (for_each_consistent sv labels m f
                (pyramid_selections (session a1)) a1 Ha1) as H2.
  change (pyramid_selections
            (set_generated_pyramids [] (set_pyramid_selections choices (session a))))
    with (pyramid_selections (session a1)).
  destruct (for_each _ _ a1) as [[[]|e] a2]; [|apply H2].
  unfold mbind, script_bind. cbn. apply H2.
Qed.
End Generation.

(** ** Processing of the upload *)

Section Upload.
Context {U : Unicode}.

Lemma py_and_comm (a b : pyset) : py_and a b = py_and b a.
Proof.
  unfold py_and. rewrite (andb_comm (from_object_column a)).
  by rewrite (comm_L (∩) (members a)).
Qed.

Lemma load_sheet (raw : DataFrame) :
  load_population_data (Sheet raw) 16 = Returned (normalised raw, detected_age_cols raw).
Proof. done. Qed.

Lemma tables_missing (a : app) :
  male_df (session a) = None ∨ female_df (session a) = None →
  bool_decide (male_df (session a) = None) || bool_decide (female_df (session a) = None)
  = true.
Proof.
  intros [H|H]; rewrite (bool_decide_true _ H); [done|apply orb_true_r].
Qed.

(** Two readable sheets: whatever happens next, the two tables and the age
    bands of the male sheet are in the session, and nothing is raised. *)
Lemma upload_stores_tables (mraw fraw : DataFrame) (a : app) :
  male_df (session a) = None ∨ female_df (session a) = None →
  let r := process_upload (Some (Sheet mraw)) (Some (Sheet fraw)) a in
  r.1 = Returned ()
  ∧ male_df (session r.2) = Some (normalised mraw)
  ∧ female_df (session r.2) = Some (normalised fraw)
  ∧ age_cols (session r.2) = Some (detected_age_cols mraw)
  ∧ generated_pyramids (session r.2) = generated_pyramids (session a).
Proof.
  intros Hnone. cbn zeta.
  assert (∃ a', process_upload (Some (Sheet mraw)) (Some (Sheet fraw)) a
                = (Returned (), a')
            ∧ male_df (session a') = Some (normalised mraw)
            ∧ female_df (session a') = Some (normalised fraw)
            ∧ age_cols (session a') = Some (detected_age_cols mraw)
            ∧ generated_pyramids (session a') = generated_pyramids (session a))
    as (a' & -> & ?); [|done].
  unfold process_upload, mbind at 1, script_bind at 1.
  cbn [get_session]. rewrite (tables_missing a Hnone).
  unfold try_except, load_both. rewrite !load_sheet.
  unfold mbind, script_bind, lift, modify_session, show, fmap, outcome_fmap.
  cbn [mbind outcome_bind session].
  repeat (match goal with
          | |- context [getitem ?d ?c] => destruct (getitem d c)
          | |- context [py_sorted ?s] => destruct (py_sorted s)
          end; cbn [fst snd session]; try by eexists).
Qed.

Lemma upload_success (mraw fraw : DataFrame) (ra rb ya yb cs ys : list cell) (a : app) :
  male_df (session a) = None ∨ female_df (session a) = None →
  getitem (normalised mraw) region_column = Returned ra →
  getitem (normalised fraw) region_column = Returned rb →
  py_sorted (py_and (py_set ra) (py_set rb)) = Returned cs →
  getitem (normalised mraw) year_column = Returned ya →
  getitem (normalised fraw) year_column = Returned yb →
  py_sorted (py_and (py_set ya) (py_set yb)) = Returned ys →
  process_upload (Some (Sheet mraw)) (Some (Sheet fraw)) a
  = (Returned (),
     mkApp (mkSession (Some (normalised mraw)) (Some (normalised fraw))
              (Some (detected_age_cols mraw)) cs ys
              (generated_pyramids (session a)) (pyramid_selections (session a)))
           (shown a ++ [loaded_message cs ys])).
Proof.
  intros Hnone Hra Hrb Hcs Hya Hyb Hys.
  unfold process_upload, mbind at 1, script_bind at 1.
  cbn [get_session]. rewrite (tables_missing a Hnone).
  unfold try_except, load_both. rewrite !load_sheet.
  unfold mbind, script_bind, lift, modify_session, show, fmap, outcome_fmap.
  cbn [mbind outcome_bind session].
  rewrite Hra, Hrb, Hcs, Hya, Hyb, Hys. done.
Qed.

(** A file that cannot be read: the error is shown and the session is as
    it was. *)
Lemma upload_unreadable_male (msg : string) (female_file : xlsx) (a : app) :
  male_df (session a) = None ∨ female_df (session a) = None →
  process_upload (Some (Unreadable msg)) (Some female_file) a
  = (Returned (), mkApp (session a)
                    (shown a ++ [Error ("❌ Error loading files: " +:+ msg)])).
Proof.
  intros Hnone. unfold process_upload, mbind at 1, script_bind at 1.
  cbn [get_session]. by rewrite (tables_missing a Hnone).
Qed.

Lemma upload_unreadable_female (raw : DataFrame) (msg : string) (a : app) :
  male_df (session a) = None ∨ female_df (session a) = None →
  process_upload (Some (Sheet raw)) (Some (Unreadable msg)) a
  = (Returned (), mkApp (session a)
                    (shown a ++ [Error ("❌ Error loading files: " +:+ msg)])).
Proof.
  intros Hnone. unfold process_upload, mbind at 1, script_bind at 1.
  cbn [get_session]. by rewrite (tables_missing a Hnone).
Qed.


(** C7. For two sheets whose region columns hold texts and whose year
    columns hold numbers, the common countries and the common years put in
    the session are the same whichever sheet is given as the male one;
    they are exactly the values present in both sheets; the countries are
    in lexicographic order and the years in numeric order. *)
Theorem common_keys_symmetric_sorted (A B : DataFrame)
    (ca cb : list string) (ya yb : list Qc) :
  getitem (normalised A) region_column = Returned (Str <$> ca) →
  getitem (normalised A) year_column = Returned (Num <$> ya) →
  getitem (normalised B) region_column = Returned (Str <$> cb) →
  getitem (normalised B) year_column = Returned (Num <$> yb) →
  ∃ cs ys,
    let ab := session (process_upload (Some (Sheet A)) (Some (Sheet B)) fresh).2 in
    let ba := session (process_upload (Some (Sheet B)) (Some (Sheet A)) fresh).2 in
    countries ab = Str <$> cs ∧ countries ba = Str <$> cs
    ∧ years ab = Num <$> ys ∧ years ba = Num <$> ys
    ∧ (∀ c, c ∈ cs ↔ c ∈ ca ∧ c ∈ cb)
    ∧ (∀ y, y ∈ ys ↔ y ∈ ya ∧ y ∈ yb)
    ∧ Sorted String.le cs
    ∧ Sorted Qcle ys.
Proof.
  intros HcA HyA HcB HyB.
  destruct (common_texts ca cb) as (cs & _ & Hcs & Hcsort & _ & Hcin).
  destruct (common_numbers ya yb) as (ys & _ & Hys & Hysort & _ & Hyin).
  exists cs, ys. cbn zeta.
  rewrite (upload_success A B _ _ _ _ _ _ fresh (or_introl eq_refl)
             HcA HcB Hcs HyA HyB Hys).
  rewrite (py_and_comm (py_set (Str <$> ca))) in Hcs.
  rewrite (py_and_comm (py_set (Num <$> ya))) in Hys.
  rewrite (upload_success B A _ _ _ _ _ _ fresh (or_introl eq_refl)
             HcB HcA Hcs HyB HyA Hys).
  by split_and!.
Qed.

(** C8 (the code at a failing input). The male sheet has no "Year"
    column. The load shows the error, yet both tables and the age bands
    are in the session while the lists of countries and years stay empty;
    the configuration section is reached and a click on Generate raises
    KeyError; and a later upload of complete sheets is not processed. *)
Theorem failed_load_leaves_tables_in_session :
  let a := (process_upload (Some (Sheet sheet_without_year))
              (Some (Sheet female_example)) fresh).2 in
  shown a = [Error "❌ Error loading files: 'Year'"]
  ∧ male_df (session a) = Some sheet_without_year
  ∧ female_df (session a) = Some female_example
  ∧ age_cols (session a) = Some ["0-4"]
  ∧ countries (session a) = [] ∧ years (session a) = []
  ∧ (configuration_section Reference.py_str Reference.format_f
       Reference.parse_number [mkSelection (Str "B") (num 2021)] true true a).1
    = Raised (KeyError "Year")
  ∧ process_upload (Some (Sheet male_example)) (Some (Sheet female_example)) a
    = (Returned (), a).
Proof. vm_compute. by split_and!. Qed.

End Upload.

(** ** The age bands of the session *)

(** C10. Two readable sheets whose key columns can be read and sorted are
    loaded with the success message, whatever age bands either of them
    lists: the session then holds the two tables, the common keys and, as
    its age bands, those detected in the male sheet; the bands of the female
    sheet are compared with nothing and kept nowhere. Every pyramid a click
    on Generate then makes has its rows of both tables read under the male
    bands and its chart and table made with them. So two sheets that list
    different bands load with the success message and give a pyramid
    labelled with the male bands. *)
Theorem age_bands_come_from_male_sheet {U : Unicode}
    (py_str : cell → string) (format_f : nat → float64 → string)
    (parse_number : string → float64x)
    (mraw fraw : DataFrame) (choices : list selection) (show_values : bool) :
  let a := (process_upload (Some (Sheet mraw)) (Some (Sheet fraw)) fresh).2 in
  let generated (a' : app) :=
    generated_pyramids
      (session (configuration_section py_str format_f parse_number
                  choices show_values true a').2) in
  (∀ ra rb ya yb cs ys : list cell,
     getitem (normalised mraw) region_column = Returned ra →
     getitem (normalised fraw) region_column = Returned rb →
     py_sorted (py_and (py_set ra) (py_set rb)) = Returned cs →
     getitem (normalised mraw) year_column = Returned ya →
     getitem (normalised fraw) year_column = Returned yb →
     py_sorted (py_and (py_set ya) (py_set yb)) = Returned ys →
     process_upload (Some (Sheet mraw)) (Some (Sheet fraw)) fresh
     = (Returned (),
        mkApp (mkSession (Some (normalised mraw)) (Some (normalised fraw))
                 (Some (detected_age_cols mraw)) cs ys [] [])
              [loaded_message cs ys]))
  ∧ age_cols (session a) = Some (detected_age_cols mraw)
  ∧ Forall (built_with py_str format_f parse_number show_values
              (detected_age_cols mraw) (normalised mraw) (normalised fraw))
           (generated a)
  ∧ detected_age_cols male_example ≠ detected_age_cols female_example
  ∧ (let b := (process_upload (Some (Sheet male_example))
                 (Some (Sheet female_example)) fresh).2 in
     shown b = [loaded_message [Str "B"] [num 2021]]
     ∧ (yticklabels ∘ fig) <$>
         generated_pyramids
           (session (configuration_section py_str format_f parse_number
                       [mkSelection (Str "B") (num 2021)] show_values true b).2)
       = [["0-4"; "5-9"]]).
Proof.
  cbn zeta.
  destruct (upload_stores_tables mraw fraw fresh (or_introl eq_refl))
    as (_ & Hm & Hf & Hl & _).
  split_and!.
  - intros ra rb ya yb cs ys Hra Hrb Hcs Hya Hyb Hys.
    by rewrite (upload_success mraw fraw ra rb ya yb cs ys fresh (or_introl eq_refl)).
  - done.
  - by apply configuration_section_consistent.
  - by vm_compute.
  - by vm_compute.
  - by destruct show_values; vm_compute.
Qed.

(** ** Evaluations on the example inputs *)

Section Evaluations.
Local Existing Instance Reference.unicode.

(** C9, the claim at its own input: with sheets that have no age-band
    column, the call of the renderer on the empty vectors raises, and so
    does the click on Generate that makes this call; nothing catches it and
    no pyramid is produced. *)
Lemma empty_age_bands_abort_generation :
  let a := (process_upload (Some (Sheet sheet_without_age_bands))
              (Some (Sheet sheet_without_age_bands)) fresh).2 in
  let run := configuration_section Reference.py_str Reference.format_f
               Reference.parse_number [mkSelection (Str "B") (num 2021)]
               true true a in
  age_cols (session a) = Some []
  ∧ render (numeric []) (numeric []) [] (Str "B") (num 2021) true
    = Raised (ValueError
        "zero-size array to reduction operation minimum which has no identity")
  ∧ ¬ (∃ c, render (numeric []) (numeric []) [] (Str "B") (num 2021) true
            = Returned c)
  ∧ run.1 = Raised (ValueError
        "zero-size array to reduction operation minimum which has no identity")
  ∧ generated_pyramids (session run.2) = [].
Proof.
  vm_compute. split_and!; try done. by intros [c Hc].
Qed.

(** C3, the claim at counts that are all zero: the chart is returned, its
    bars have the width 0, and the x axis runs from -0.05 to 0.05, not from
    -0 to 0 as 1.15 times the larger extent would have it. *)
Lemma zero_counts_widen_axis :
  ∃ c,
    render (numeric [num 0; num 0]) (numeric [num 0; num 0]) ["0-4"; "5-9"]
           (Str "B") (num 2021) false = Returned c
    ∧ male_extents c = [fin 0%Qc; fin 0%Qc]
    ∧ female_extents c = [fin 0%Qc; fin 0%Qc]
    ∧ xlim c = ((- of_decimal 0.05)%Qc, of_decimal 0.05)
    ∧ xlim c ≠ ((- (of_decimal 1.15 * Qc_max (Qc_abs 0) 0))%Qc,
                (of_decimal 1.15 * Qc_max (Qc_abs 0) 0)%Qc).
Proof.
  destruct (render_numeric Reference.py_str Reference.format_f
              numeric_dtype numeric_dtype [of_decimal 0; of_decimal 0]
              [of_decimal 0; of_decimal 0] ["0-4"; "5-9"] (Str "B") (num 2021) false)
    as (c & lo & hi & Hc & Hm & Hf & _ & _ & _ & [Hlo _] & [Hhi _] & Hlim);
    [done..|].
  assert (∀ x y : Qc, this x = this y → fin x = fin y) as Heq.
  { intros x y H. f_equal. by apply Qc_is_canon; rewrite H. }
  assert (male_extents c = [fin 0%Qc; fin 0%Qc]) as Hm'.
  { rewrite Hm. cbn [fmap list_fmap].
    by repeat (apply (f_equal2 cons); [by apply Heq|]). }
  assert (female_extents c = [fin 0%Qc; fin 0%Qc]) as Hf'.
  { rewrite Hf. cbn [fmap list_fmap].
    by repeat (apply (f_equal2 cons); [by apply Heq|]). }
  assert (lo = 0%Qc) as ->.
  { rewrite Hm' in Hlo.
    by apply elem_of_cons in Hlo as [[= ->]|[[= ->]|[]%elem_of_nil]%elem_of_cons]. }
  assert (hi = 0%Qc) as ->.
  { rewrite Hf' in Hhi.
    by apply elem_of_cons in Hhi as [[= ->]|[[= ->]|[]%elem_of_nil]%elem_of_cons]. }
  assert (xlim c = ((- of_decimal 0.05)%Qc, of_decimal 0.05)) as Hx.
  { rewrite Hlim. unfold symmetric_limits. by rewrite decide_True. }
  exists c. split_and!; [exact Hc|done..|].
  rewrite Hx. intros Hne%(f_equal snd)%(f_equal this). by vm_compute in Hne.
Qed.

(** [age_band_detection] at the column "15-19", whose part before the
    hyphen is "15". *)
Lemma age_band_detection_witness :
  PyStr.is_ascii "15-19" = true
  ∧ (is_age_col "15-19" = true
     ↔ (∃ pre, AgeBandSpec.before_first_hyphen "15-19" pre ∧ pre ≠ ""
               ∧ Forall (fun d => d ∈ AgeBandSpec.decimal_digits)
                        (AgeBandSpec.characters pre))
       ∨ AgeBandSpec.starts_with_100 "15-19").
Proof.
  split; [reflexivity|].
  apply (proj1 (proj2 age_band_detection) "15-19"). reflexivity.
Defined.

(** [summary_annotation_units] at the counts 10000, 20000 and 5000,
    25000. *)
Lemma summary_annotation_units_witness :
  ∃ c,
    render (numeric (Num <$> [of_decimal 10000; of_decimal 20000]))
           (numeric (Num <$> [of_decimal 5000; of_decimal 25000]))
           ["0-4"; "5-9"] (Str "B") (num 2021) true = Returned c
    ∧ summary c = "Total: 60.0k" +:+ nl +:+ "Male: 30.0k" +:+ nl
                  +:+ "Female: 30.0million".
Proof.
  destruct (proj2 (summary_annotation_units Reference.py_str Reference.format_f)
              numeric_dtype numeric_dtype
              [of_decimal 10000; of_decimal 20000]
              [of_decimal 5000; of_decimal 25000]
              ["0-4"; "5-9"] (Str "B") (num 2021) true)
    as (c & Hc & Hs); [done|reflexivity|reflexivity|].
  exists c. split; [exact Hc|]. rewrite Hs. reflexivity.
Defined.

(** [axis_limits_symmetric] at the counts 10, 20 and 5, 25. *)
Lemma axis_limits_symmetric_witness :
  ["0-4"; "5-9"] ≠ []
  ∧ ∃ c lo hi,
      render (numeric (Num <$> [of_decimal 10; of_decimal 20]))
             (numeric (Num <$> [of_decimal 5; of_decimal 25]))
             ["0-4"; "5-9"] (Str "B") (num 2021) false = Returned c
      ∧ is_minimum lo (male_extents c)
      ∧ is_maximum hi (female_extents c)
      ∧ xlim c = symmetric_limits (of_decimal 1.15 * Qc_max (Qc_abs lo) hi)%Qc.
Proof.
  split; [done|].
  apply (proj1 (proj2 (axis_limits_symmetric Reference.py_str Reference.format_f))
           numeric_dtype numeric_dtype
           [of_decimal 10; of_decimal 20] [of_decimal 5; of_decimal 25]
           ["0-4"; "5-9"] (Str "B") (num 2021) false); [done|reflexivity|reflexivity].
Defined.


(** [missing_selection_is_skipped] at the batch of [batch_example]. *)
Lemma missing_selection_is_skipped_witness :
  let sel := mkSelection (Str "B") (num 1999) in
  let before := [mkSelection (Str "B") (num 2021)] in
  let after := [mkSelection (Str "B") (num 2021)] in
  let one := generate_one Reference.py_str Reference.format_f Reference.parse_number true in
  (matching_rows male_example (Str "B") (num 1999)
   = Returned (mkDataFrame (columns male_example) []))
  ∧ (matching_rows female_example (Str "B") (num 1999)
     = Returned (mkDataFrame (columns female_example) []))
  ∧ one sel batch_example
    = (Returned (),
       mkApp (session batch_example)
             (shown batch_example ++ [not_found_warning Reference.py_str sel]))
  ∧ generate_pyramids Reference.py_str Reference.format_f Reference.parse_number
      true batch_example
    = (modify_session (set_generated_pyramids []) ;;
       for_each before one ;;
       show (not_found_warning Reference.py_str sel) ;;
       for_each after one ;;
       closing_message) batch_example.
Proof.
  cbn zeta. split; [reflexivity|]. split; [reflexivity|].
  apply (missing_selection_is_skipped Reference.py_str Reference.format_f
           Reference.parse_number true (mkSelection (Str "B") (num 1999))
           male_example female_example
           (mkDataFrame (columns male_example) [])
           (mkDataFrame (columns female_example) [])
           [mkSelection (Str "B") (num 2021)] [mkSelection (Str "B") (num 2021)]
           batch_example);
    [reflexivity|reflexivity|reflexivity|reflexivity|reflexivity|by left].
Defined.

(** [common_keys_symmetric_sorted] at the two example tables. *)
Lemma common_keys_symmetric_sorted_witness :
  ∃ cs ys,
    let ab := session (process_upload (Some (Sheet male_example))
                         (Some (Sheet female_example)) fresh).2 in
    let ba := session (process_upload (Some (Sheet female_example))
                         (Some (Sheet male_example)) fresh).2 in
    countries ab = Str <$> cs ∧ countries ba = Str <$> cs
    ∧ years ab = Num <$> ys ∧ years ba = Num <$> ys
    ∧ (∀ c, c ∈ cs ↔ c ∈ ["A"; "B"; "B"] ∧ c ∈ ["B"; "C"])
    ∧ (∀ y, y ∈ ys ↔ y ∈ [of_decimal 2020; of_decimal 2021; of_decimal 2020]
                      ∧ y ∈ [of_decimal 2021; of_decimal 2021])
    ∧ Sorted String.le cs
    ∧ Sorted Qcle ys.
Proof.
  apply (common_keys_symmetric_sorted male_example female_example
           ["A"; "B"; "B"] ["B"; "C"]
           [of_decimal 2020; of_decimal 2021; of_decimal 2020]
           [of_decimal 2021; of_decimal 2021]); reflexivity.
Defined.

(** [age_bands_come_from_male_sheet] at the two example tables, whose age
    bands differ: the load succeeds and keeps the male bands. *)
Lemma age_bands_come_from_male_sheet_witness :
  detected_age_cols male_example = ["0-4"; "5-9"]
  ∧ detected_age_cols female_example = ["5-9"; "0-4"; "10-14"]
  ∧ process_upload (Some (Sheet male_example)) (Some (Sheet female_example)) fresh
    = (Returned (),
       mkApp (mkSession (Some (normalised male_example))
                (Some (normalised female_example))
                (Some (detected_age_cols male_example)) [Str "B"] [num 2021] [] [])
             [loaded_message [Str "B"] [num 2021]]).
Proof.
  split; [reflexivity|]. split; [reflexivity|].
  apply (proj1 (age_bands_come_from_male_sheet Reference.py_str Reference.format_f
                  Reference.parse_number male_example female_example [] true)
           [Str "A"; Str "B"; Str "B"] [Str "B"; Str "C"]
           [num 2020; num 2021; num 2020] [num 2021; num 2021]
           [Str "B"] [num 2021]);
    vm_compute; reflexivity.
Defined.

(** The annotation box for counts of some thousands: the female total is the
    same kind of figure as the male one, with another suffix. *)
Example summary_of_thousands :
  summary <$> render (numeric [num 10000; num 20000]) (numeric [num 5000; num 25000])
                     ["0-4"; "5-9"] (Str "B") (num 2021) false
  = Returned ("Total: 60.0k" +:+ nl +:+ "Male: 30.0k" +:+ nl
              +:+ "Female: 30.0million").
Proof. reflexivity. Qed.

(** The batch of [batch_example] run to its end: two pyramids, one warning
    between them, and the closing message. *)
Example batch_example_runs :
  let r := generate_pyramids Reference.py_str Reference.format_f
             Reference.parse_number true batch_example in
  r.1 = Returned ()
  ∧ shown r.2 = [ Warning "⚠️ No data found for B, 1999";
                  Success "✅ Generated 2 pyramids!" ]
  ∧ length (generated_pyramids (session r.2)) = 2.
Proof. vm_compute. by split_and!. Qed.

End Evaluations.

(** * Further properties of the code *)

(** ** The layout of the page (lines 181-183, 276-311) *)

Section PageLayout.

Lemma concat_slices {A} (l : list A) (k : nat) :
  concat ((fun i => take 3 (drop (i * 3) l)) <$> seq 0 k) = take (k * 3) l.
Proof.
  induction k as [|k IH]; [done|].
  rewrite seq_S, fmap_app, concat_app, IH. simpl.
  rewrite app_nil_r, take_take_drop. f_equal. lia.
Qed.

Lemma display_rows_unfold {A} (l : list A) :
  display_rows l = (fun i => take 3 (drop (i * 3) l)) <$> seq 0 ((length l + 2) / 3).
Proof.
  unfold display_rows, py_range, py_slice. rewrite <-list_fmap_compose.
  rewrite Nat.sub_0_r. apply list_fmap_ext. intros _ i _. simpl.
  f_equal. lia.
Qed.

(** X1. The display grid shows every generated pyramid exactly once and in the
    order of generation: the rows of the grid put end to end are the list of
    pyramids; there are [ceil(n / 3)] rows; and row [i] has
    [min 3 (n - 3 i)] pyramids, so between one and three (no row is empty,
    and [st.columns] is never asked for zero columns). *)
Theorem display_rows_partition {A} (l : list A) :
  concat (display_rows l) = l
  ∧ length (display_rows l) = (length l + 2) / 3
  ∧ ∀ i row, display_rows l !! i = Some row →
      length row = min 3 (length l - i * 3) ∧ 1 ≤ length row ≤ 3.
Proof.
  rewrite display_rows_unfold. split_and!.
  - rewrite concat_slices. apply take_ge.
    pose proof (Nat.div_mod (length l + 2) 3). 
    pose proof (Nat.mod_upper_bound (length l + 2) 3). lia.
  - by rewrite length_fmap, length_seq.
  - intros i row Hrow. rewrite list_lookup_fmap in Hrow.
    destruct (seq _ _ !! i) as [j|] eqn:Hj; [|done].
    apply lookup_seq in Hj as [-> Hi]. injection Hrow as <-.
    rewrite length_take, length_drop.
    pose proof (Nat.div_mod (length l + 2) 3).
    pose proof (Nat.mod_upper_bound (length l + 2) 3). lia.
Qed.

(** X2. The column subscripts of the configuration and of the download section
    never fall outside the columns made: with [n] pyramids and
    [min(3, n)] columns, [cols[idx % 3]] is a column for every [idx < n],
    namely column [idx mod 3]. *)
Theorem column_for_in_range (n idx : nat) :
  idx < n → column_for n idx = Returned (idx mod 3) ∧ idx mod 3 < min 3 n.
Proof.
  intros Hidx. unfold column_for, st_columns.
  assert (idx mod 3 < min 3 n) as Hlt.
  { pose proof (Nat.mod_upper_bound idx 3).
    destruct (decide (idx < 3)); [rewrite Nat.mod_small by done|]; lia. }
  by rewrite lookup_seq_lt.
Qed.

End PageLayout.

(** ** Keys and file names (lines 190, 197, 313, 321) *)

Section Texts.

Lemma pretty_N_char_digit (x : N) : PyStr.is_digit (pretty_N_char x) = true.
Proof. unfold pretty_N_char. by repeat case_match. Qed.

Lemma pretty_N_go_digits (x : N) (s : string) :
  PyStr.all_digits s = true → PyStr.all_digits (pretty_N_go x s) = true.
Proof.
  revert s. induction (N.lt_wf_0 x) as [x _ IH]; intros s Hs.
  assert (x = 0 ∨ 0 < x)%N as [->|?] by lia.
  - by rewrite pretty_N_go_0.
  - rewrite pretty_N_go_step by done. apply IH.
    { by apply N.div_lt. }
    simpl. by rewrite pretty_N_char_digit.
Qed.

Lemma pretty_nat_digits (n : nat) : PyStr.all_digits (pretty n) = true.
Proof.
  unfold pretty, pretty_nat, pretty, pretty_N.
  case_decide; [done|]. by apply pretty_N_go_digits.
Qed.

(** A run of digits followed by an underscore is read off a text in one way
    only. *)
Lemma digits_then_underscore (s1 s2 r1 r2 : string) :
  PyStr.all_digits s1 = true → PyStr.all_digits s2 = true →
  s1 +:+ "_" +:+ r1 = s2 +:+ "_" +:+ r2 → s1 = s2.
Proof.
  revert s2. induction s1 as [|a s1 IH]; intros [|b s2] H1 H2 Heq;
    string_norm; try done.
  apply andb_true_iff in H1 as [_ H1], H2 as [_ H2].
  f_equal. by apply IH.
Qed.

Lemma contains_char_app (c : ascii) (s t : string) :
  contains_char c (s +:+ t) = contains_char c s || contains_char c t.
Proof.
  induction s as [|a s IH]; [done|].
  rewrite string_app_cons. simpl. by rewrite IH, orb_assoc.
Qed.

Lemma replace_char_gone (old new : ascii) (s : string) :
  new ≠ old → contains_char old (replace_char old new s) = false.
Proof.
  intros Hne. induction s as [|a s IH]; [done|]. cbn [replace_char].
  case_bool_decide as Ha; cbn [contains_char]; rewrite IH;
    by rewrite bool_decide_false.
Qed.

Lemma replace_char_length (old new : ascii) (s : string) :
  String.length (replace_char old new s) = String.length s.
Proof. induction s as [|a s IH]; simpl; by f_equal. Qed.

Lemma replace_char_absent (old new : ascii) (s : string) :
  contains_char old s = false → replace_char old new s = s.
Proof.
  induction s as [|a s IH]; [done|]. simpl.
  intros [Ha Hs]%orb_false_elim. by rewrite Ha, IH.
Qed.

End Texts.

Section PageTexts.
Variable py_str : cell → string.
Variable format_f : nat → float64 → string.

(** X3. The keys the page gives to its widgets are unique, as the comment of
    line 321 asks: two download buttons at different positions have
    different keys whatever their pyramids are (also for two pyramids of the
    same country and year), and so have two country selectors and two year
    selectors. *)
Theorem widget_keys_distinct (i j : nat) (p q : pyramid) :
  i ≠ j →
  download_key py_str i p ≠ download_key py_str j q
  ∧ country_key i ≠ country_key j
  ∧ year_key i ≠ year_key j.
Proof.
  intros Hij. unfold download_key, country_key, year_key. split_and!.
  - intros Heq. apply (inj (String.app "download_")) in Heq.
    apply digits_then_underscore in Heq; [|apply pretty_nat_digits..].
    by apply (inj pretty) in Heq.
  - intros Heq. apply (inj (String.app "country_")) in Heq.
    by apply (inj pretty) in Heq.
  - intros Heq. apply (inj (String.app "year_")) in Heq.
    by apply (inj pretty) in Heq.
Qed.

(** X4. The name of a downloaded file has no space when the text of the year
    has none: the spaces of the country are replaced by underscores; the
    country is then a text, and when it has no space the name is
    [pyramid_<country>_<year>.png] with the country unchanged. *)
Theorem download_filename_has_no_space (p : pyramid) (name : string) :
  contains_char " " (py_str (year p)) = false →
  download_filename py_str p = Some name →
  contains_char " " name = false
  ∧ ∃ s, country p = Str s
      ∧ (contains_char " " s = false →
         name = "pyramid_" +:+ s +:+ "_" +:+ py_str (year p) +:+ ".png").
Proof.
  intros Hy. unfold download_filename.
  destruct (country p) as [x| |s]; [done..|]. intros [= <-]. split.
  - rewrite !contains_char_app, replace_char_gone, Hy by done. done.
  - exists s. split; [done|]. intros Hs. by rewrite replace_char_absent.
Qed.

Lemma Qc_opp_nonneg (x : Qc) : (0 ≤ - x)%Qc ↔ (x ≤ 0)%Qc.
Proof.
  split; intros H.
  - rewrite <-(Qcopp_involutive x). by apply (Qcopp_le_compat 0 (- x))%Qc.
  - by apply (Qcopp_le_compat x 0)%Qc.
Qed.

(** X5. The labels of the x axis show magnitudes: a tick and its opposite get the
    same label, so the male side of the axis, drawn at negative positions,
    is labelled like the female side. *)
Theorem tick_label_of_magnitude (x : float64) (xticks : list float64) :
  tick_label format_f (Float.neg x) = tick_label format_f x
  ∧ xticklabels format_f (Float.neg <$> xticks) = xticklabels format_f xticks.
Proof.
  assert (∀ y, Float.abs (Float.neg y) = Float.abs y) as Habs.
  { intros [y|]; [|done]. simpl. by rewrite Qc_abs_opp. }
  assert (∀ y, tick_label format_f (Float.neg y) = tick_label format_f y) as Ht.
  { intros y. unfold tick_label. by rewrite Habs. }
  split; [done|]. unfold xticklabels. rewrite <-list_fmap_compose.
  apply list_fmap_ext. intros _ y _. apply Ht.
Qed.

End PageTexts.

(** ** The bars of the chart (lines 43-55, 72-80) *)

Section Bars.
Variable py_str : cell → string.
Variable format_f : nat → float64 → string.

Lemma bars_of_fields (l : list bar) (ws : list float64) :
  bar_y <$> l = seq 0 (length ws) → bar_width <$> l = ws →
  l = imap mkBar ws.
Proof.
  intros Hy Hw. apply list_eq. intros i.
  rewrite list_lookup_imap.
  assert ((bar_y <$> l) !! i = seq 0 (length ws) !! i) as Hyi by by rewrite Hy.
  assert ((bar_width <$> l) !! i = ws !! i) as Hwi by by rewrite Hw.
  rewrite list_lookup_fmap in Hyi. rewrite list_lookup_fmap in Hwi.
  destruct (l !! i) as [[y w]|] eqn:Hl; simpl in *.
  - rewrite <-Hwi. simpl. symmetry in Hyi. apply lookup_seq in Hyi as [-> _]. done.
  - by rewrite <-Hwi.
Qed.

(** X6. For numeric counts, one per age band, the chart has one male and one
    female bar per age band, bar [i] at height [i]: the male bar extends to
    the left by the count over 1000, the female bar to the right by the count
    over 1000; the ticks of the y axis are the heights [0 .. n-1] and carry
    the age bands in the given order. This holds whatever the dtype of the
    two rows is. *)
Theorem bars_follow_age_bands (dm df : dtype) (ms fs : list Qc)
    (labels : list string) (country year : cell) (interactive : bool) :
  labels ≠ [] → length ms = length labels → length fs = length labels →
  ∃ c,
    create_population_pyramid py_str format_f
      (mkSeries dm (Num <$> ms)) (mkSeries df (Num <$> fs))
      labels country year interactive = Returned c
    ∧ bars_male c = imap (fun i m => mkBar i (fin (- m / thousand)%Qc)) ms
    ∧ bars_female c = imap (fun i f => mkBar i (fin (f / thousand)%Qc)) fs
    ∧ yticks c = seq 0 (length labels)
    ∧ yticklabels c = labels.
Proof.
  intros Hne Hm Hf.
  destruct (render_numeric py_str format_f dm df ms fs labels country year
              interactive Hne Hm Hf)
    as (c & lo & hi & Hc & Hwm & Hwf & Hym & Hyf & Hl & _).
  exists c. split; [done|].
  pose proof (render_returned_inv _ _ _ _ _ _ _ _ _ Hc)
    as (_ & _ & Hyt & _).
  unfold male_extents, female_extents in *. split_and!; [| |done..].
  - rewrite (bars_of_fields (bars_male c) ((fun x => fin (- x / thousand)%Qc) <$> ms)).
    + by rewrite imap_fmap.
    + by rewrite length_fmap, Hm.
    + done.
  - rewrite (bars_of_fields (bars_female c) ((fun x => fin (x / thousand)%Qc) <$> fs)).
    + by rewrite imap_fmap.
    + by rewrite length_fmap, Hf.
    + done.
Qed.

Lemma thousand_inv_pos : (0 < / thousand)%Qc.
Proof. by apply Qcinv_pos. Qed.

Lemma scaled_nonneg (x : Qc) : (0 ≤ x)%Qc → (0 ≤ x / thousand)%Qc.
Proof.
  intros Hx. unfold Qcdiv.
  rewrite <-(Qcmult_0_l (/ thousand)).
  apply Qcmult_le_compat_r; [done|]. apply Qclt_le_weak, thousand_inv_pos.
Qed.

Lemma Qc_max_ge_l (x y : Qc) : (x ≤ Qc_max x y)%Qc.
Proof. unfold Qc_max. by case_decide. Qed.

Lemma Qc_max_ge_r (x y : Qc) : (y ≤ Qc_max x y)%Qc.
Proof.
  unfold Qc_max. case_decide as H; [done|].
  destruct (total Qcle x y); done.
Qed.

Lemma Qc_abs_ge_opp (x : Qc) : (- x ≤ Qc_abs x)%Qc.
Proof.
  unfold Qc_abs. case_decide as H; [|done].
  trans 0%Qc; [|done]. by apply (Qcopp_le_compat 0 x)%Qc.
Qed.

Lemma stretch_ge (v : Qc) : (0 ≤ v)%Qc → (v ≤ v * of_decimal 1.15)%Qc.
Proof.
  intros Hv. rewrite <-(Qcmult_1_r v) at 1.
  rewrite !(Qcmult_comm v). by apply Qcmult_le_compat_r.
Qed.

(** The axis covers the limits it was asked for. *)
Lemma symmetric_limits_cover (L : Qc) :
  ((symmetric_limits L).1 ≤ - L)%Qc ∧ (L ≤ (symmetric_limits L).2)%Qc.
Proof.
  unfold symmetric_limits. case_decide as Htiny; cbn [fst snd]; [|done].
  assert (tiny_limit ≤ of_decimal 0.05)%Qc as Hsmall by by vm_compute.
  assert (L ≤ of_decimal 0.05)%Qc as HL.
  { apply Qclt_le_weak. by eapply Qclt_le_trans. }
  split; [by apply Qcopp_le_compat|done].
Qed.

(** X7. For non-negative numeric counts every bar lies inside the x axis: the
    male bars between the left limit and zero, the female bars between zero
    and the right limit. This holds whatever the dtype of the two rows
    is. *)
Theorem bars_within_axis_limits (dm df : dtype) (ms fs : list Qc)
    (labels : list string) (country year : cell) (interactive : bool) :
  labels ≠ [] → length ms = length labels → length fs = length labels →
  Forall (fun m => (0 ≤ m)%Qc) ms → Forall (fun f => (0 ≤ f)%Qc) fs →
  ∃ c,
    create_population_pyramid py_str format_f
      (mkSeries dm (Num <$> ms)) (mkSeries df (Num <$> fs))
      labels country year interactive = Returned c
    ∧ (∀ w, fin w ∈ male_extents c → ((xlim c).1 ≤ w ∧ w ≤ 0)%Qc)
    ∧ (∀ w, fin w ∈ female_extents c → (0 ≤ w ∧ w ≤ (xlim c).2)%Qc).
Proof.
  intros Hne Hm Hf Hmpos Hfpos.
  destruct (render_numeric py_str format_f dm df ms fs labels country year
              interactive Hne Hm Hf)
    as (c & lo & hi & Hc & Hwm & Hwf & _ & _ & _ & [Hlo_in Hlo] & [Hhi_in Hhi] & Hlim).
  exists c. split; [done|]. rewrite Hlim.
  set (M := Qc_max (Qc_abs lo) hi).
  assert (0 ≤ M)%Qc as HM.
  { trans (Qc_abs lo); [apply Qc_abs_nonneg|apply Qc_max_ge_l]. }
  assert (M ≤ of_decimal 1.15 * M)%Qc as HML.
  { rewrite Qcmult_comm. by apply stretch_ge. }
  destruct (symmetric_limits_cover (of_decimal 1.15 * M)) as [Hl1 Hl2].
  split.
  - intros w Hw. split.
    + trans (- (of_decimal 1.15 * M))%Qc; [done|].
      trans (- M)%Qc; [by apply Qcopp_le_compat|].
      trans lo; [|by apply Hlo].
      rewrite <-(Qcopp_involutive lo). apply Qcopp_le_compat.
      trans (Qc_abs lo); [apply Qc_abs_ge_opp|apply Qc_max_ge_l].
    + rewrite Hwm in Hw. apply list_elem_of_fmap in Hw as (m & [= ->] & Hmin).
      eapply Forall_forall in Hmpos; [|done].
      apply Qc_opp_nonneg.
      replace (- (- m / thousand))%Qc with (m / thousand)%Qc by (unfold Qcdiv; ring).
      by apply scaled_nonneg.
  - intros w Hw. split.
    + rewrite Hwf in Hw. apply list_elem_of_fmap in Hw as (f & [= ->] & Hfin).
      eapply Forall_forall in Hfpos; [|done]. by apply scaled_nonneg.
    + trans (of_decimal 1.15 * M)%Qc; [|done].
      trans M; [|done]. trans hi; [by apply Hhi|apply Qc_max_ge_r].
Qed.
End Bars.

(** ** Counts that are not numbers (lines 49-50, 79-80) *)

Section Raising.
Context {A B : Type}.

Lemma mapM_Raised (f : A → outcome B) (l : list A) (e : exn) :
  (∀ a, a ∈ l → f a = Raised e ∨ ∃ b, f a = Returned b) →
  (∃ a, a ∈ l ∧ f a = Raised e) →
  mapM f l = Raised e.
Proof.
  induction l as [|a l IH]; intros Hall (a' & Hin & Ha').
  - by apply elem_of_nil in Hin.
  - simpl. destruct (Hall a) as [->|[b Hb]]; [left|done|].
    rewrite Hb. simpl. rewrite IH; [done| |].
    + intros a'' Ha''. apply Hall. by right.
    + apply elem_of_cons in Hin as [->|Hin]; [congruence|]. eauto.
Qed.
End Raising.

Section Cells.
Variable py_str : cell → string.
Variable format_f : nat → float64 → string.

Lemma values_neg_text_free (s : list cell) :
  text_free s →
  values_neg s = Returned ((fun c => Float.neg (cell_to_float c)) <$> s).
Proof.
  intros Hs. unfold values_neg. apply mapM_Returned.
  intros c Hc. eapply Forall_forall in Hs; [|done]. by destruct c.
Qed.

Lemma values_div_text_free (s : list cell) (k : Qc) :
  text_free s →
  values_div s k = Returned ((fun c => Float.div (cell_to_float c) (fin k)) <$> s).
Proof.
  intros Hs. unfold values_div. apply mapM_Returned.
  intros c Hc. eapply Forall_forall in Hs; [|done]. by destruct c.
Qed.

Lemma values_neg_text (s : list cell) (t : string) :
  Str t ∈ s →
  values_neg s = Raised (TypeError "bad operand type for unary -: 'str'").
Proof.
  intros Ht. unfold values_neg. apply mapM_Raised.
  - intros [x| |u] _; eauto.
  - by exists (Str t).
Qed.

Lemma values_div_text (s : list cell) (k : Qc) (t : string) :
  Str t ∈ s →
  values_div s k
  = Raised (TypeError "unsupported operand type(s) for /: 'str' and 'int'").
Proof.
  intros Ht. unfold values_div. apply mapM_Raised.
  - intros [x| |u] _; eauto.
  - by exists (Str t).
Qed.

Lemma text_free_dec (s : list cell) : text_free s ∨ ∃ t, Str t ∈ s.
Proof.
  induction s as [|c s [IH|[t IH]]].
  - left. constructor.
  - destruct c as [x| |t]; [left; by constructor..|].
    right. exists t. left.
  - right. exists t. by right.
Qed.

(** X8. A text among the counts of either sex makes the renderer raise a
    [TypeError]: no chart is made, whatever the other cells are. *)
Theorem text_cell_raises_type_error (male_data female_data : Series)
    (labels : list string) (country year : cell) (interactive : bool) (t : string) :
  Str t ∈ cells male_data ∨ Str t ∈ cells female_data →
  ∃ msg,
    create_population_pyramid py_str format_f male_data female_data labels
      country year interactive = Raised (TypeError msg).
Proof.
  intros Ht. unfold create_population_pyramid.
  destruct (text_free_dec (cells male_data)) as [Hfree|[u Hu]].
  - destruct Ht as [Ht|Ht].
    { eapply Forall_forall in Hfree; [|done]. done. }
    rewrite values_neg_text_free by done. cbn [mbind outcome_bind].
    rewrite (values_div_text _ _ t) by done. by eexists.
  - rewrite (values_neg_text _ u) by done. by eexists.
Qed.

Lemma annotations_return (mv fv : list float64) (k : nat) (interactive : bool) :
  k ≤ length mv → k ≤ length fv →
  ∃ ls, (if interactive
         then mapM (annotate_bar format_f mv fv) (seq 0 k)
              ≫= (fun per_bar => Returned (List.concat per_bar))
         else Returned []) = Returned ls.
Proof.
  intros Hm Hf. destruct interactive; [|by eexists].
  destruct (mapM_Returned_ex (annotate_bar format_f mv fv) (seq 0 k))
    as [per ->]; [|by eexists].
  intros i [_ Hi]%elem_of_seq. apply annotate_bar_in_range; lia.
Qed.

Lemma foldl_min_nan (x : float64) (xs : list float64) :
  nan ∈ x :: xs → foldl Float.min x xs = nan.
Proof.
  revert x. induction xs as [|y xs IH]; intros x Hin.
  - by apply list_elem_of_singleton in Hin as <-.
  - simpl. apply IH, elem_of_cons.
    apply elem_of_cons in Hin as [<-|Hin]; [by left|].
    apply elem_of_cons in Hin as [<-|Hin]; [left; by destruct x|by right].
Qed.

Lemma foldl_max_nan (x : float64) (xs : list float64) :
  nan ∈ x :: xs → foldl Float.max x xs = nan.
Proof.
  revert x. induction xs as [|y xs IH]; intros x Hin.
  - by apply list_elem_of_singleton in Hin as <-.
  - simpl. apply IH, elem_of_cons.
    apply elem_of_cons in Hin as [<-|Hin]; [by left|].
    apply elem_of_cons in Hin as [<-|Hin]; [left; by destruct x|by right].
Qed.

Lemma foldl_add_nan (x : float64) (xs : list float64) :
  nan ∈ x :: xs → foldl Float.add x xs = nan.
Proof.
  revert x. induction xs as [|y xs IH]; intros x Hin.
  - by apply list_elem_of_singleton in Hin as <-.
  - simpl. apply IH, elem_of_cons.
    apply elem_of_cons in Hin as [<-|Hin]; [by left|].
    apply elem_of_cons in Hin as [<-|Hin]; [left; by destruct x|by right].
Qed.

(** A reduction whose operation gives NaN for a NaN second operand ends in
    NaN when the array does. *)
Lemma foldl_last_nan (f : float64 → float64 → float64) (x : float64)
    (xs : list float64) :
  (∀ a, f a nan = nan) → last (x :: xs) = Some nan → foldl f x xs = nan.
Proof.
  intros Hf. induction xs as [|y ys _] using rev_ind.
  - by intros [= ->].
  - rewrite app_comm_cons, last_snoc, foldl_app. intros [= ->]. apply Hf.
Qed.

Lemma np_min_last_nan (d : dtype) (arr : list float64) :
  last arr = Some nan → Np.min d arr = Returned nan.
Proof.
  destruct arr as [|x xs]; [done|]. intros Hlast. simpl. f_equal.
  apply foldl_last_nan; [|done]. by intros [a|]; destruct d.
Qed.

(** X9. A missing male count (NaN), among counts that are numbers or
    missing, makes the renderer raise matplotlib's [ValueError] at the axis
    limits when numpy's minimum of the male extents is NaN: in a row of
    numeric dtype wherever the missing count stands, and in a row of object
    dtype when it is the last count. [max] keeps a NaN first argument, and
    the limits are not finite. *)
Theorem missing_male_count_raises (male_data female_data : Series)
    (labels : list string) (country year : cell) (interactive : bool) :
  length (cells male_data) = length labels →
  length (cells female_data) = length labels →
  text_free (cells male_data) → text_free (cells female_data) →
  (dtype_of male_data = numeric_dtype ∧ NaN ∈ cells male_data)
  ∨ last (cells male_data) = Some NaN →
  create_population_pyramid py_str format_f male_data female_data labels
    country year interactive
  = Raised (ValueError "Axis limits cannot be NaN or Inf").
Proof.
  intros Hm Hf Hmfree Hffree Hnan. unfold create_population_pyramid.
  rewrite values_neg_text_free, values_div_text_free by done.
  cbn [mbind outcome_bind].
  set (mv := array_div _ _). set (fv := _ <$> cells female_data).
  assert (length mv = length labels) as Hmv.
  { unfold mv, array_div. by rewrite !length_fmap. }
  assert (length fv = length labels) as Hfv.
  { unfold fv. by rewrite length_fmap. }
  destruct (barh_same_length (length labels) mv Hmv) as (bm & -> & Hbm & _).
  destruct (barh_same_length (length labels) fv Hfv) as (bf & -> & Hbf & _).
  cbn [mbind outcome_bind].
  destruct (annotations_return mv fv (length (zip bm bf)) interactive) as [ls ->].
  { rewrite length_zip, <-(length_fmap bar_width bm), Hbm. lia. }
  { rewrite length_zip, <-(length_fmap bar_width bf), Hbf. lia. }
  cbn [mbind outcome_bind].
  assert (Np.min (dtype_of male_data) mv = Returned nan) as ->.
  { destruct Hnan as [[-> Hnan]|Hlast].
    - assert (nan ∈ mv) as Hin.
      { unfold mv, array_div. rewrite <-list_fmap_compose.
        apply list_elem_of_fmap. by exists NaN. }
      destruct mv as [|x xs]; [by apply elem_of_nil in Hin|].
      simpl. by rewrite foldl_min_nan.
    - apply np_min_last_nan. unfold mv, array_div.
      by rewrite <-list_fmap_compose, fmap_last, Hlast. }
  cbn [mbind outcome_bind].
  assert (fv ≠ []) as Hne.
  { intros Hnil. rewrite Hnil in Hfv.
    destruct (cells male_data); [|simpl in *; lia].
    destruct Hnan as [[_ Hnan]|Hlast]; [by apply elem_of_nil in Hnan|done]. }
  destruct fv as [|y ys]; [done|]. cbn [Np.max mbind outcome_bind].
  by destruct (foldl _ y ys).
Qed.

End Cells.

(** ** Value labels, and a missing female count (lines 58-69, 79-99) *)

Section Labels.
Variable py_str : cell → string.
Variable format_f : nat → float64 → string.

Local Abbreviation bar_labels := (bar_labels format_f).

Lemma Qc_abs_pos (x : Qc) : (0 < Qc_abs x)%Qc ↔ x ≠ 0%Qc.
Proof.
  split.
  - intros H ->. by apply Qclt_not_eq in H.
  - intros Hx. apply Qclt_nge. intros Hle.
    assert (Qc_abs x = 0%Qc) as H0.
    { apply (anti_symm Qcle); [done|apply Qc_abs_nonneg]. }
    unfold Qc_abs in H0. case_decide; [done|].
    apply Hx. rewrite <-(Qcopp_involutive x), H0. done.
Qed.

Lemma annotate_bar_numeric (wm wf : list Qc) (i : nat) (m f : Qc) :
  wm !! i = Some m → wf !! i = Some f →
  annotate_bar format_f (fin <$> wm) (fin <$> wf) i = Returned (bar_labels i m f).
Proof.
  intros Hm Hf. unfold annotate_bar, item, bar_labels.
  rewrite !list_lookup_fmap, Hm, Hf. cbn [fmap option_fmap option_map mbind outcome_bind].
  unfold Float.gt, Float.abs, fin. cbn [fmap option_fmap option_map]. repeat f_equal.
  - case_bool_decide as H; case_decide as H'; try done.
    + by apply Qc_abs_pos in H.
    + by apply Qc_abs_pos in H'.
  - by case_bool_decide; case_decide.
Qed.

Lemma annotate_all_numeric (wm wf : list Qc) :
  length wm = length wf →
  mapM (annotate_bar format_f (fin <$> wm) (fin <$> wf)) (seq 0 (length wm))
  = Returned (imap (fun i p => bar_labels i p.1 p.2) (zip wm wf)).
Proof.
  intros Hlen.
  rewrite (mapM_Returned _
             (fun i => bar_labels i (default 0%Qc (wm !! i)) (default 0%Qc (wf !! i)))).
  - f_equal. apply list_eq. intros i.
    rewrite list_lookup_fmap, list_lookup_imap.
    destruct (decide (i < length wm)) as [Hi|Hi].
    + rewrite lookup_seq_lt by done.
      destruct (lookup_lt_is_Some_2 wm i Hi) as [m Hm].
      destruct (lookup_lt_is_Some_2 wf i) as [f Hf]; [lia|].
      assert (zip wm wf !! i = Some (m, f)) as -> by by apply lookup_zip_Some.
      simpl. by rewrite Hm, Hf.
    + rewrite lookup_seq_ge by lia.
      rewrite (lookup_ge_None_2 (zip _ _)); [done|]. rewrite length_zip. lia.
  - intros i [_ Hi]%elem_of_seq.
    destruct (lookup_lt_is_Some_2 wm i) as [m Hm]; [lia|].
    destruct (lookup_lt_is_Some_2 wf i) as [f Hf]; [lia|].
    rewrite Hm, Hf. by apply annotate_bar_numeric.
Qed.

(** X10. The value labels of a chart of numeric counts: without the interactive
    option there is none; with it, bar by bar, every male bar of non-zero
    extent has a label at the middle of the bar with the magnitude of the
    extent to one decimal and the suffix "k", and every female bar of
    positive extent likewise; a zero bar has no label. This holds whatever
    the dtype of the two rows is. *)
Theorem value_labels_of_numeric_counts (dm df : dtype) (ms fs : list Qc)
    (labels : list string) (country year : cell) (interactive : bool) :
  labels ≠ [] → length ms = length labels → length fs = length labels →
  ∃ c,
    create_population_pyramid py_str format_f
      (mkSeries dm (Num <$> ms)) (mkSeries df (Num <$> fs))
      labels country year interactive = Returned c
    ∧ value_labels c
      = if interactive
        then concat (imap (fun i p => bar_labels i p.1 p.2)
                       (zip ((fun m => (- m / thousand)%Qc) <$> ms)
                            ((fun f => (f / thousand)%Qc) <$> fs)))
        else [].
Proof.
  intros Hne Hm Hf. unfold create_population_pyramid. cbn [cells dtype_of].
  rewrite values_neg_numeric, values_div_numeric. cbn [mbind outcome_bind].
  rewrite (array_div_fin (Qcopp <$> ms)), <-(list_fmap_compose Qcopp).
  change (of_decimal 1000) with thousand.
  change ((fun x => fin (x / thousand)%Qc) ∘ Qcopp)
    with (fin ∘ (fun x => (- x / thousand)%Qc)).
  change (fun x => fin (x / thousand)%Qc) with (fin ∘ (fun x => (x / thousand)%Qc)).
  rewrite !list_fmap_compose.
  set (wm := (fun x => (- x / thousand)%Qc) <$> ms).
  set (wf := (fun x => (x / thousand)%Qc) <$> fs).
  assert (length wm = length labels) as Hwm by (unfold wm; by rewrite length_fmap).
  assert (length wf = length labels) as Hwf by (unfold wf; by rewrite length_fmap).
  destruct (barh_same_length (length labels) (fin <$> wm)) as (bm & -> & Hbm & _).
  { by rewrite length_fmap. }
  destruct (barh_same_length (length labels) (fin <$> wf)) as (bf & -> & Hbf & _).
  { by rewrite length_fmap. }
  cbn [mbind outcome_bind].
  assert (length (zip bm bf) = length wm) as ->.
  { rewrite length_zip, <-(length_fmap bar_width bm), <-(length_fmap bar_width bf),
      Hbm, Hbf, !length_fmap. lia. }
  rewrite annotate_all_numeric by congruence.
  destruct (np_min_numeric dm wm) as (lo & -> & _).
  { destruct ms; [by destruct labels|done]. }
  destruct (np_max_numeric df wf) as (hi & -> & _).
  { destruct fs; [by destruct labels|done]. }
  destruct interactive; cbn [mbind outcome_bind];
    change (Float.abs (fin lo)) with (fin (Qc_abs lo));
    rewrite py_max_fin, (set_xlim_of_fin _ (Qc_max_abs_nonneg lo hi));
    by eexists.
Qed.

Lemma np_max_last_nan (d : dtype) (arr : list float64) :
  last arr = Some nan → Np.max d arr = Returned nan.
Proof.
  destruct arr as [|x xs]; [done|]. intros Hlast. simpl. f_equal.
  apply foldl_last_nan; [|done]. by intros [a|]; destruct d.
Qed.

(** X11. A missing female count (NaN) does not stop the renderer, unlike a
    missing male one, when numpy's maximum of the female extents is NaN: in
    a row of numeric dtype wherever the missing count stands, and in a row
    of object dtype when it is the last count. With numeric male counts the
    chart is made, the axis has the limits matplotlib makes of [1.15] times
    the greatest male magnitude on both sides (the female side is ignored,
    since [max] drops a NaN second argument), and the annotation shows the
    female total and the grand total as NaN. *)
Theorem missing_female_count_is_ignored (dm : dtype) (ms : list Qc)
    (female_data : Series) (labels : list string) (country year : cell)
    (interactive : bool) :
  length ms = length labels → length (cells female_data) = length labels →
  text_free (cells female_data) →
  (dtype_of female_data = numeric_dtype ∧ NaN ∈ cells female_data)
  ∨ last (cells female_data) = Some NaN →
  ∃ c lo,
    create_population_pyramid py_str format_f (mkSeries dm (Num <$> ms)) female_data
      labels country year interactive = Returned c
    ∧ is_minimum lo (male_extents c)
    ∧ xlim c = symmetric_limits (of_decimal 1.15 * Qc_abs lo)%Qc
    ∧ summary c
      = "Total: " +:+ format_f 1 nan +:+ "k" +:+ nl
        +:+ "Male: " +:+ format_f 1 (Float.abs (Np.sum (male_extents c))) +:+ "k" +:+ nl
        +:+ "Female: " +:+ format_f 1 nan +:+ "million".
Proof.
  intros Hm Hf Hfree Hcase.
  assert (NaN ∈ cells female_data) as Hnan.
  { destruct Hcase as [[_ ?]|Hlast]; [done|].
    apply last_Some in Hlast as [l' ->]. apply elem_of_app. right. by left. }
  unfold create_population_pyramid. cbn [cells dtype_of].
  rewrite values_neg_numeric, values_div_text_free by done.
  cbn [mbind outcome_bind].
  rewrite (array_div_fin (Qcopp <$> ms)), <-(list_fmap_compose Qcopp).
  change (of_decimal 1000) with thousand.
  change ((fun x => fin (x / thousand)%Qc) ∘ Qcopp)
    with (fin ∘ (fun x => (- x / thousand)%Qc)).
  rewrite list_fmap_compose.
  set (wm := (fun x => (- x / thousand)%Qc) <$> ms).
  set (fv := _ <$> cells female_data).
  assert (length wm = length labels) as Hwm by (unfold wm; by rewrite length_fmap).
  assert (length fv = length labels) as Hfv by (unfold fv; by rewrite length_fmap).
  destruct (barh_same_length (length labels) (fin <$> wm)) as (bm & -> & Hbm & _).
  { by rewrite length_fmap. }
  destruct (barh_same_length (length labels) fv Hfv) as (bf & -> & Hbf & _).
  cbn [mbind outcome_bind].
  destruct (annotations_return format_f (fin <$> wm) fv (length (zip bm bf)) interactive)
    as [ls ->].
  { rewrite length_zip, <-(length_fmap bar_width bm), Hbm. lia. }
  { rewrite length_zip, <-(length_fmap bar_width bf), Hbf. lia. }
  cbn [mbind outcome_bind].
  assert (ms ≠ []) as Hms.
  { intros ->. destruct (cells female_data); [by apply elem_of_nil in Hnan|].
    simpl in *. lia. }
  destruct (np_min_numeric dm wm) as (lo & -> & Hlo).
  { unfold wm. by destruct ms. }
  assert (nan ∈ fv) as Hin.
  { unfold fv. apply list_elem_of_fmap. by exists NaN. }
  assert (Np.max (dtype_of female_data) fv = Returned nan) as ->.
  { destruct Hcase as [[-> _]|Hlast].
    - destruct fv as [|x xs]; [by apply elem_of_nil in Hin|].
      simpl. by rewrite foldl_max_nan.
    - apply np_max_last_nan. unfold fv. by rewrite fmap_last, Hlast. }
  assert (Np.sum fv = nan) as Hsum.
  { unfold Np.sum. apply foldl_add_nan. by right. }
  cbn [mbind outcome_bind]. rewrite Hsum.
  change (Float.abs (fin lo)) with (fin (Qc_abs lo)).
  change (Float.py_max (fin (Qc_abs lo)) nan) with (fin (Qc_abs lo)).
  rewrite set_xlim_of_fin by apply Qc_abs_nonneg.
  cbn [mbind outcome_bind].
  eexists _, lo. split; [reflexivity|].
  unfold male_extents. cbn [bars_male xlim summary]. rewrite Hbm.
  split_and!; [done..|].
  by destruct (Float.abs (Np.sum (fin <$> wm))).
Qed.

End Labels.

(** ** Lookups in the tables (lines 228-239) *)

Section Lookups.

Lemma cell_eqb_true (a b : cell) : cell_eqb a b = true ↔ a = b ∧ b ≠ NaN.
Proof.
  destruct a as [x| |s], b as [y| |t]; simpl;
    try (rewrite bool_decide_eq_true); split; try done;
    try (intros ->; done); try (by intros [[= ->] _]); by intros [? ?].
Qed.

Lemma column_index_Some (df : DataFrame) (name : string) (i : nat) :
  column_index df name = Some i → columns df !! i = Some name.
Proof.
  unfold column_index. destruct (list_find _ _) as [[j x]|] eqn:Hfind; [|done].
  intros [= <-]. apply list_find_Some in Hfind as (Hj & -> & _). done.
Qed.

Lemma column_index_None (df : DataFrame) (name : string) :
  column_index df name = None ↔ name ∉ columns df.
Proof.
  unfold column_index. rewrite fmap_None, list_find_None, Forall_forall.
  split; [by intros H Hin; apply (H name)|by intros H x Hx ->].
Qed.

Lemma column_index_is_Some (df : DataFrame) (name : string) :
  name ∈ columns df → ∃ i, column_index df name = Some i.
Proof.
  intros Hin. destruct (column_index df name) as [i|] eqn:Hi; [by eexists|].
  by apply column_index_None in Hi.
Qed.

Lemma select_by_masks {A} (g1 g2 : A → bool) (l : list A) :
  omap (fun p : A * bool => if p.2 then Some p.1 else None)
       (zip l (mask_and (g1 <$> l) (g2 <$> l)))
  = filter (fun r => g1 r && g2 r = true) l.
Proof.
  unfold mask_and. induction l as [|a l IH]; [done|].
  rewrite filter_cons, <-IH. simpl.
  by destruct (g1 a && g2 a); simpl.
Qed.

Lemma matching_rows_filter (df : DataFrame) (c y : cell) (i j : nat) :
  column_index df region_column = Some i →
  column_index df year_column = Some j →
  matching_rows df c y
  = Returned (mkDataFrame (columns df)
      (filter (fun r => cell_eqb (default NaN (r !! i)) c
                        && cell_eqb (default NaN (r !! j)) y = true) (rows df))).
Proof.
  intros Hi Hj. unfold matching_rows, getitem. rewrite Hi, Hj.
  cbn [mbind outcome_bind]. unfold select_rows, series_eq.
  rewrite <-!list_fmap_compose.
  do 2 f_equal.
  exact (select_by_masks (fun r => cell_eqb (default NaN (r !! i)) c)
           (fun r => cell_eqb (default NaN (r !! j)) y) (rows df)).
Qed.

(** X12. The lookup of a selection in a table returns exactly when the table has
    both key columns (without the region column it raises the [KeyError] of
    that label). What it returns has the columns of the table and, in table
    order, exactly the rows whose region cell is the country and whose year
    cell is the year; no row is found for a country or a year that is NaN. *)
Theorem matching_rows_selects (df : DataFrame) (c y : cell) :
  ((∃ mr, matching_rows df c y = Returned mr)
   ↔ region_column ∈ columns df ∧ year_column ∈ columns df)
  ∧ (region_column ∉ columns df →
     matching_rows df c y = Raised (KeyError region_column))
  ∧ ∀ mr, matching_rows df c y = Returned mr →
      columns mr = columns df
      ∧ sublist (rows mr) (rows df)
      ∧ (∀ r, r ∈ rows mr ↔
              r ∈ rows df
              ∧ cell_at df r region_column = c ∧ c ≠ NaN
              ∧ cell_at df r year_column = y ∧ y ≠ NaN).
Proof.
  split_and!.
  - split.
    + intros [mr Hmr]. unfold matching_rows, getitem in Hmr.
      destruct (column_index df region_column) as [i|] eqn:Hi; [|done].
      destruct (column_index df year_column) as [j|] eqn:Hj; [|done].
      split; eapply list_elem_of_lookup_2, column_index_Some; done.
    + intros [[i Hi]%column_index_is_Some [j Hj]%column_index_is_Some].
      rewrite (matching_rows_filter _ _ _ i j) by done. by eexists.
  - intros Hno%column_index_None. unfold matching_rows, getitem. by rewrite Hno.
  - intros mr Hmr.
    assert (∃ i j, column_index df region_column = Some i
                   ∧ column_index df year_column = Some j) as (i & j & Hi & Hj).
    { unfold matching_rows, getitem in Hmr.
      destruct (column_index df region_column) as [i|]; [|done].
      destruct (column_index df year_column) as [j|]; [|done]. by eexists _, _. }
    rewrite (matching_rows_filter _ _ _ i j) in Hmr by done.
    injection Hmr as <-. cbn [columns rows]. split_and!; [done|apply sublist_filter|].
    intros r. rewrite list_elem_of_filter, andb_true_iff, !cell_eqb_true.
    unfold cell_at. rewrite Hi, Hj. simpl. tauto.
Qed.

Lemma getitems_rows (df : DataFrame) (labels : list string) :
  labels ⊆ columns df →
  getitems df labels
  = Returned (mkDataFrame labels
      ((fun r => (fun l => cell_at df r l) <$> labels) <$> rows df)).
Proof.
  intros Hsub. unfold getitems.
  assert (mapM (column_index df) labels
          = Some ((fun l => default 0 (column_index df l)) <$> labels)) as ->.
  { apply mapM_Some, Forall2_fmap_r, Forall_Forall2_diag, Forall_forall.
    intros l Hl. destruct (column_index_is_Some df l) as [i Hi]; [by apply Hsub|].
    simpl. by rewrite Hi. }
  do 2 f_equal.
  apply list_fmap_ext. intros _ r _. rewrite <-list_fmap_compose.
  apply list_fmap_ext. intros k l Hl%list_elem_of_lookup_2.
  destruct (column_index_is_Some df l) as [i Hi]; [by apply Hsub|].
  unfold cell_at. simpl. by rewrite Hi.
Qed.

Lemma elem_of_unique (l : list string) (x : string) : x ∈ unique l ↔ x ∈ l.
Proof.
  induction l as [|y l IH]; [done|]. cbn [unique].
  rewrite !elem_of_cons, list_elem_of_filter, IH.
  destruct (decide (x = y)); tauto.
Qed.

Lemma NoDup_unique (l : list string) : NoDup (unique l).
Proof.
  induction l as [|y l IH]; [constructor|]. cbn [unique].
  apply NoDup_cons. split; [|by apply NoDup_filter].
  by intros [? _]%list_elem_of_filter.
Qed.

Lemma sublist_unique_filter (l : list string) :
  sublist (unique l) l.
Proof.
  induction l as [|y l IH]; [constructor|]. cbn [unique].
  apply sublist_skip. etrans; [apply sublist_filter|done].
Qed.

Lemma sublist_unique (df : DataFrame) (labels : list string) :
  sublist (missing_labels df labels) labels.
Proof.
  unfold missing_labels. etrans; [apply sublist_unique_filter|apply sublist_filter].
Qed.

Lemma elem_of_missing_labels (df : DataFrame) (labels : list string) (l : string) :
  l ∈ missing_labels df labels ↔ l ∈ labels ∧ l ∉ columns df.
Proof.
  unfold missing_labels.
  rewrite elem_of_unique, list_elem_of_filter, column_index_None. tauto.
Qed.

(** Labels of which one is not a column: pandas raises the [KeyError] that
    lists the missing ones. *)
Lemma getitems_missing (df : DataFrame) (labels : list string) (l : string) :
  l ∈ labels → l ∉ columns df →
  getitems df labels = Raised (KeyErrorLabels labels (missing_labels df labels)).
Proof.
  intros Hl Hno. unfold getitems.
  assert (mapM (column_index df) labels = None) as ->; [|done].
  apply mapM_None, Exists_exists. exists l. split; [done|].
  by apply column_index_None.
Qed.

(** X13. The counts read for a selection are the cells of the first row found,
    under the age bands in their order, when every age band is a column;
    whenever counts are returned there is one per age band; and when some
    age band is not a column of the table, pandas raises the [KeyError]
    that carries the age bands asked for and lists, once each and in the
    order asked, exactly those that are not columns. *)
Theorem age_counts_of_first_row (row : DataFrame) (labels : list string) :
  (∀ r rest, rows row = r :: rest → labels ⊆ columns row →
     age_counts row (Some labels) = Returned ((fun l => cell_at row r l) <$> labels))
  ∧ (∀ data, age_counts row (Some labels) = Returned data →
       length data = length labels ∧ labels ⊆ columns row ∧ rows row ≠ [])
  ∧ (∀ l, l ∈ labels → l ∉ columns row →
       age_counts row (Some labels)
       = Raised (KeyErrorLabels labels (missing_labels row labels))
       ∧ sublist (missing_labels row labels) labels
       ∧ NoDup (missing_labels row labels)
       ∧ ∀ k, k ∈ missing_labels row labels ↔ k ∈ labels ∧ k ∉ columns row).
Proof.
  split_and!.
  - intros r rest Hr Hsub. unfold age_counts. rewrite getitems_rows by done.
    cbn [mbind outcome_bind]. unfold iloc0. cbn [rows]. by rewrite Hr.
  - intros data Hdata.
    destruct (decide (labels ⊆ columns row)) as [Hsub|Hnsub].
    + unfold age_counts in Hdata. rewrite getitems_rows in Hdata by done.
      cbn [mbind outcome_bind] in Hdata. unfold iloc0 in Hdata. cbn [rows] in Hdata.
      destruct (rows row) as [|r rest]; [done|]. injection Hdata as <-.
      by rewrite length_fmap.
    + exfalso. apply Hnsub. intros l Hl.
      destruct (decide (l ∈ columns row)) as [|Hno]; [done|].
      unfold age_counts in Hdata.
      by rewrite (getitems_missing row labels l) in Hdata.
  - intros l Hl Hno. split_and!.
    + unfold age_counts. by rewrite (getitems_missing row labels l).
    + apply sublist_unique.
    + apply NoDup_unique.
    + intros k. apply elem_of_missing_labels.
Qed.

End Lookups.

(** ** The formatter on its own *)

Section FormatterAlone.
Variable parse_number : string → float64x.

(** X14. The formatter returns a table exactly when it is given one male and one
    female cell per age band; otherwise it raises. *)
Theorem table_needs_one_count_per_band (male female : Series)
    (labels : list string) (country year : cell) :
  (∃ t, create_data_table parse_number male female labels country year = Returned t)
  ↔ length (cells male) = length labels ∧ length (cells female) = length labels.
Proof.
  split.
  - intros [t Ht].
    destruct (decide (length (cells male) = length labels)) as [Hm|Hm];
      [destruct (decide (length (cells female) = length labels)) as [Hf|Hf];
       [done|]|].
    + destruct (create_data_table_length_mismatch parse_number male female labels
                  country year) as [e He]; [by right|congruence].
    + destruct (create_data_table_length_mismatch parse_number male female labels
                  country year) as [e He]; [by left|congruence].
  - intros [Hm Hf]. eexists. by apply create_data_table_rows.
Qed.

End FormatterAlone.

(** ** Age bands and key columns *)

Section AgeBandsAndKeys.
Context {U : Unicode}.

Lemma ascii_isdigit_first (s : string) :
  PyStr.ascii_isdigit s = true →
  ∃ d rest, s = String d rest ∧ PyStr.is_digit d = true.
Proof.
  destruct s as [|d rest]; [done|]. simpl. intros [Hd _]%andb_true_iff. eauto.
Qed.

(** X15. Every column of ASCII name that the loader takes for an age band
    has a name that starts with a decimal digit; and the two key columns
    are never among the age bands, whatever the sheet. *)
Theorem age_band_starts_with_digit (raw : DataFrame) :
  (∀ c, c ∈ detected_age_cols raw → PyStr.is_ascii c = true →
        ∃ d rest, c = String d rest ∧ PyStr.is_digit d = true)
  ∧ (region_column ∉ detected_age_cols raw)
  ∧ (year_column ∉ detected_age_cols raw).
Proof.
  assert (∀ c, c ∈ detected_age_cols raw → PyStr.is_ascii c = true →
        ∃ d rest, c = String d rest ∧ PyStr.is_digit d = true) as Hdigit.
  { intros c [Hc _]%list_elem_of_filter Hascii. unfold is_age_col in Hc.
    apply orb_true_iff in Hc as [Hc|Hc].
    - destruct (split_first_piece c) as (first & rest & Hs & _ & Hfirst).
      rewrite Hs in Hc.
      assert (PyStr.is_ascii first = true) as Hfa.
      { destruct Hfirst as [<-|[r' ->]]; [done|].
        rewrite is_ascii_app in Hascii. by apply andb_true_iff in Hascii as [? _]. }
      unfold PyStr.isdigit in Hc. rewrite Hfa in Hc.
      apply ascii_isdigit_first in Hc as (d & r & -> & Hd).
      destruct Hfirst as [->|[r' ->]]; eauto.
    - apply startswith_spec in Hc as [rest ->]. by exists "1"%char, ("00" +:+ rest). }
  split_and!; [done| |].
  - intros Hin. destruct (Hdigit _ Hin eq_refl) as (d & rest & Heq & Hd).
    by injection Heq as <- _.
  - intros Hin. destruct (Hdigit _ Hin eq_refl) as (d & rest & Heq & Hd).
    by injection Heq as <- _.
Qed.

End AgeBandsAndKeys.

(** ** The progress bar (line 226) *)

Section Progress.

(** X16. The value given to the progress bar at position [idx] of a batch of [n]
    selections lies in (0, 1], the interval the progress bar accepts, and
    is 1 exactly at the last selection. *)
Theorem progress_within_unit (idx n : nat) :
  idx < n →
  (0 < progress_value idx n)%Qc ∧ (progress_value idx n ≤ 1)%Qc
  ∧ (progress_value idx n = 1%Qc ↔ idx + 1 = n).
Proof.
  intros Hidx. unfold progress_value.
  set (a := Qc_of_Z (Z.of_nat (idx + 1))). set (b := Qc_of_Z (Z.of_nat n)).
  assert (0 < a)%Qc as Ha.
  { rewrite <-Z2Qc_inj_0. apply (proj1 (Z2Qc_inj_lt 0 (Z.of_nat (idx + 1)))). lia. }
  assert (0 < b)%Qc as Hb.
  { rewrite <-Z2Qc_inj_0. apply (proj1 (Z2Qc_inj_lt 0 (Z.of_nat n))). lia. }
  assert (a ≤ b)%Qc as Hab.
  { apply (proj1 (Z2Qc_inj_le (Z.of_nat (idx + 1)) (Z.of_nat n))). lia. }
  assert (b ≠ 0%Qc) as Hb0 by (intros Hz; rewrite Hz in Hb; by apply Qclt_not_eq in Hb).
  assert (0 < / b)%Qc as Hinv by by apply Qcinv_pos.
  split_and!.
  - unfold Qcdiv. replace 0%Qc with (0 * / b)%Qc by ring.
    by apply Qcmult_lt_mono_pos_r.
  - unfold Qcdiv. rewrite <-(Qcmult_inv_r b) by done.
    apply Qcmult_le_mono_nonneg_r; [by apply Qclt_le_weak|done].
  - split.
    + intros H1. assert (a = b) as Heq.
      { rewrite <-(Qcmult_div_r a b), H1 by done. ring. }
      apply Z2Qc_inj in Heq. lia.
    + intros Heq. assert (a = b) as -> by (unfold a, b; by rewrite Heq).
      unfold Qcdiv. by apply Qcmult_inv_r.
Qed.

End Progress.

(** ** The upload block as a whole (lines 140-168) *)

Section UploadOutcomes.
Context {U : Unicode}.

Lemma tables_present (a : app) :
  male_df (session a) ≠ None → female_df (session a) ≠ None →
  bool_decide (male_df (session a) = None) || bool_decide (female_df (session a) = None)
  = false.
Proof. intros Hm Hf. by rewrite !bool_decide_false. Qed.

Lemma upload_idle (mf ff : option xlsx) (a : app) :
  mf = None ∨ ff = None
  ∨ (male_df (session a) ≠ None ∧ female_df (session a) ≠ None) →
  process_upload mf ff a = (Returned (), a).
Proof.
  intros [->|[->|[Hm Hf]]]; [done|by destruct mf|].
  destruct mf as [mf|], ff as [ff|]; try done.
  unfold process_upload, mbind at 1, script_bind at 1. cbn [get_session].
  by rewrite tables_present.
Qed.

(** The two ways the processing of two readable sheets ends. *)
Lemma upload_cases (mraw fraw : DataFrame) (a : app) :
  male_df (session a) = None ∨ female_df (session a) = None →
  (∃ ra rb cs ya yb ys,
      getitem (normalised mraw) region_column = Returned ra
      ∧ getitem (normalised fraw) region_column = Returned rb
      ∧ py_sorted (py_and (py_set ra) (py_set rb)) = Returned cs
      ∧ getitem (normalised mraw) year_column = Returned ya
      ∧ getitem (normalised fraw) year_column = Returned yb
      ∧ py_sorted (py_and (py_set ya) (py_set yb)) = Returned ys
      ∧ process_upload (Some (Sheet mraw)) (Some (Sheet fraw)) a
        = (Returned (),
           mkApp (mkSession (Some (normalised mraw)) (Some (normalised fraw))
                    (Some (detected_age_cols mraw)) cs ys
                    (generated_pyramids (session a)) (pyramid_selections (session a)))
                 (shown a ++ [loaded_message cs ys])))
  ∨ (∃ e,
      process_upload (Some (Sheet mraw)) (Some (Sheet fraw)) a
      = (Returned (),
         mkApp (mkSession (Some (normalised mraw)) (Some (normalised fraw))
                  (Some (detected_age_cols mraw))
                  (countries (session a)) (years (session a))
                  (generated_pyramids (session a)) (pyramid_selections (session a)))
               (shown a ++ [Error ("❌ Error loading files: " +:+ str_exn e)]))).
Proof.
  intros Hnone.
  destruct (getitem (normalised mraw) region_column) as [ra|e] eqn:Hra;
    [destruct (getitem (normalised fraw) region_column) as [rb|e] eqn:Hrb;
     [destruct (py_sorted (py_and (py_set ra) (py_set rb))) as [cs|e] eqn:Hcs;
      [destruct (getitem (normalised mraw) year_column) as [ya|e] eqn:Hya;
       [destruct (getitem (normalised fraw) year_column) as [yb|e] eqn:Hyb;
        [destruct (py_sorted (py_and (py_set ya) (py_set yb))) as [ys|e] eqn:Hys|]|]|]|]|].
  1: { left. exists ra, rb, cs, ya, yb, ys. split_and!; try done.
       by apply (upload_success mraw fraw ra rb ya yb cs ys a). }
  all: right; exists e;
    unfold process_upload, mbind at 1, script_bind at 1;
    cbn [get_session]; rewrite (tables_missing a Hnone);
    unfold try_except, load_both; rewrite !load_sheet;
    unfold mbind, script_bind, lift, modify_session, show, fmap, outcome_fmap;
    cbn [mbind outcome_bind session];
    rewrite ?Hra, ?Hrb; cbn [fst snd session]; rewrite ?Hcs; cbn [fst snd session];
    rewrite ?Hya, ?Hyb; cbn [fst snd session]; rewrite ?Hys; done.
Qed.

(** X17. The upload block never raises, whatever the two files are, and never
    touches the generated pyramids or the selections. It ends in one of
    three ways: nothing changes; or the success message for the countries
    and years now in the session is shown and both tables are stored; or one
    error message with the text of the exception is shown and the countries
    and years are the ones from before. *)
Theorem process_upload_never_raises (mf ff : option xlsx) (a : app) :
  let r := process_upload mf ff a in
  r.1 = Returned ()
  ∧ generated_pyramids (session r.2) = generated_pyramids (session a)
  ∧ pyramid_selections (session r.2) = pyramid_selections (session a)
  ∧ (r.2 = a
     ∨ (shown r.2 = shown a ++ [loaded_message (countries (session r.2))
                                               (years (session r.2))]
        ∧ male_df (session r.2) ≠ None ∧ female_df (session r.2) ≠ None)
     ∨ (∃ e, shown r.2 = shown a ++ [Error ("❌ Error loading files: " +:+ str_exn e)]
             ∧ countries (session r.2) = countries (session a)
             ∧ years (session r.2) = years (session a))).
Proof.
  cbn zeta.
  destruct (decide (mf = None ∨ ff = None
                    ∨ (male_df (session a) ≠ None ∧ female_df (session a) ≠ None)))
    as [Hidle|Hbusy].
  { rewrite upload_idle by done. split_and!; try done. by left. }
  destruct mf as [mf|]; [|exfalso; apply Hbusy; by left].
  destruct ff as [ff|]; [|exfalso; apply Hbusy; right; by left].
  assert (male_df (session a) = None ∨ female_df (session a) = None) as Hnone.
  { destruct (male_df (session a)) eqn:Hm; [|by left].
    destruct (female_df (session a)) eqn:Hf; [|by right].
    exfalso. apply Hbusy. right. right. done. }
  destruct mf as [msg|mraw].
  { rewrite upload_unreadable_male by done. split_and!; try done.
    right. right. by exists (ReadError msg). }
  destruct ff as [msg|fraw].
  { rewrite upload_unreadable_female by done. split_and!; try done.
    right. right. by exists (ReadError msg). }
  destruct (upload_cases mraw fraw a Hnone)
    as [(ra & rb & cs & ya & yb & ys & _ & _ & _ & _ & _ & _ & ->)|[e ->]];
    cbn [fst snd session shown generated_pyramids pyramid_selections
         countries years male_df female_df].
  - split_and!; try done. right. left. by split_and!.
  - split_and!; try done. right. right. by exists e.
Qed.

(** X18. After two readable sheets were processed both tables are in the session,
    whether the load ended well or not, and every later upload, of any
    files, is ignored: the session and the messages stay as they are. *)
Theorem later_uploads_are_ignored (mraw fraw : DataFrame) (mf ff : option xlsx)
    (a : app) :
  let a1 := (process_upload (Some (Sheet mraw)) (Some (Sheet fraw)) a).2 in
  male_df (session a1) ≠ None ∧ female_df (session a1) ≠ None
  ∧ process_upload mf ff a1 = (Returned (), a1).
Proof.
  cbn zeta.
  assert (male_df (session (process_upload (Some (Sheet mraw)) (Some (Sheet fraw)) a).2)
          ≠ None
          ∧ female_df
              (session (process_upload (Some (Sheet mraw)) (Some (Sheet fraw)) a).2)
            ≠ None) as [Hm Hf].
  { destruct (male_df (session a)) as [m|] eqn:Hma;
      [destruct (female_df (session a)) as [f|] eqn:Hfa|].
    - rewrite upload_idle; [cbn [snd]; by rewrite Hma, Hfa|].
      right. right. by rewrite Hma, Hfa.
    - destruct (upload_stores_tables mraw fraw a) as (_ & -> & -> & _); [by right|done].
    - destruct (upload_stores_tables mraw fraw a) as (_ & -> & -> & _); [by left|done]. }
  split_and!; [done..|]. apply upload_idle. by right; right.
Qed.

(** X19. A file that cannot be read (the male one, or the female one after a
    readable male one) leaves the session exactly as it was and shows the
    error of the reader; the configuration section that follows does
    nothing. *)
Theorem unreadable_file_changes_nothing
    (py_str : cell → string) (format_f : nat → float64 → string)
    (parse_number : string → float64x)
    (mf ff : xlsx) (msg : string) (choices : list selection)
    (show_values clicked : bool) (a : app) :
  male_df (session a) = None ∨ female_df (session a) = None →
  mf = Unreadable msg ∨ ((∃ raw, mf = Sheet raw) ∧ ff = Unreadable msg) →
  let a' := mkApp (session a) (shown a ++ [Error ("❌ Error loading files: " +:+ msg)]) in
  process_upload (Some mf) (Some ff) a = (Returned (), a')
  ∧ configuration_section py_str format_f parse_number choices show_values clicked a'
    = (Returned (), a').
Proof.
  intros Hnone Hfile. cbn zeta. split.
  - destruct Hfile as [->|[[raw ->] ->]].
    + by apply upload_unreadable_male.
    + by apply upload_unreadable_female.
  - unfold configuration_section, mbind at 1, script_bind at 1.
    cbn [get_session session fst snd].
    destruct Hnone as [->| ->]; [done|]. by rewrite andb_false_r.
Qed.

Lemma py_sorted_Returned (S : gset cell) (l : list cell) :
  py_sorted S = Returned l → l ≡ₚ elements S.
Proof.
  unfold py_sorted. case_match; [|done]. intros [= <-].
  apply merge_sort_Permutation.
Qed.

Lemma py_sorted_NoDup (S : gset cell) (l : list cell) :
  py_sorted S = Returned l → NoDup l.
Proof.
  intros ->%py_sorted_Returned. apply NoDup_elements.
Qed.

Lemma py_sorted_elem_of (ra rb l : list cell) (c : cell) :
  py_sorted (py_and (py_set ra) (py_set rb)) = Returned l →
  c ≠ NaN → c ∈ l ↔ c ∈ ra ∧ c ∈ rb.
Proof.
  intros ->%py_sorted_Returned Hc.
  by rewrite elem_of_elements, elem_of_py_and_lists.
Qed.

(** X20. The lists of countries and years offered for selection never hold a
    value twice: if they are free of duplicates before the upload block
    runs, they are after it. *)
Theorem offered_keys_have_no_duplicates (mf ff : option xlsx) (a : app) :
  NoDup (countries (session a)) → NoDup (years (session a)) →
  let a' := (process_upload mf ff a).2 in
  NoDup (countries (session a')) ∧ NoDup (years (session a')).
Proof.
  intros Hc Hy. cbn zeta.
  destruct (decide (mf = None ∨ ff = None
                    ∨ (male_df (session a) ≠ None ∧ female_df (session a) ≠ None)))
    as [Hidle|Hbusy].
  { by rewrite upload_idle. }
  destruct mf as [mf|]; [|exfalso; apply Hbusy; by left].
  destruct ff as [ff|]; [|exfalso; apply Hbusy; right; by left].
  assert (male_df (session a) = None ∨ female_df (session a) = None) as Hnone.
  { destruct (male_df (session a)) eqn:Hm; [|by left].
    destruct (female_df (session a)) eqn:Hf; [|by right].
    exfalso. apply Hbusy. right. right. done. }
  destruct mf as [msg|mraw]; [by rewrite upload_unreadable_male|].
  destruct ff as [msg|fraw]; [by rewrite upload_unreadable_female|].
  destruct (upload_cases mraw fraw a Hnone)
    as [(ra & rb & cs & ya & yb & ys & _ & _ & Hcs & _ & _ & Hys & ->)|[e ->]];
    cbn [fst snd session countries years]; [|done].
  split; by eapply py_sorted_NoDup.
Qed.

Lemma matching_rows_found (df mr : DataFrame) (c y : cell) :
  matching_rows df c y = Returned mr → rows mr ≠ [] →
  ∃ ra ya, getitem df region_column = Returned ra
           ∧ getitem df year_column = Returned ya
           ∧ c ∈ ra ∧ y ∈ ya ∧ c ≠ NaN ∧ y ≠ NaN.
Proof.
  intros Hmr Hne.
  assert (∃ i j, column_index df region_column = Some i
                 ∧ column_index df year_column = Some j) as (i & j & Hi & Hj).
  { unfold matching_rows, getitem in Hmr.
    destruct (column_index df region_column) as [i|]; [|done].
    destruct (column_index df year_column) as [j|]; [|done]. by eexists _, _. }
  rewrite (matching_rows_filter _ _ _ i j) in Hmr by done.
  injection Hmr as <-. cbn [rows] in Hne.
  destruct (filter _ _) as [|r rest] eqn:Hfilter; [done|].
  assert (r ∈ filter (fun r => cell_eqb (default NaN (r !! i)) c
                               && cell_eqb (default NaN (r !! j)) y = true) (rows df))
    as [[[Hrc ?]%cell_eqb_true [Hry ?]%cell_eqb_true]%andb_true_iff Hin]%list_elem_of_filter.
  { rewrite Hfilter. by left. }
  unfold getitem. rewrite Hi, Hj. eexists _, _. split_and!; [done..| | |done|done].
  - apply list_elem_of_fmap. by exists r.
  - apply list_elem_of_fmap. by exists r.
Qed.

(** X21. After a successful load, every combination that can give a pyramid is
    offered: if a country and a year find a row in the male table and a row
    in the female table, the country is among the countries and the year
    among the years of the session. *)
Theorem resolvable_selection_is_offered (mraw fraw mr fr : DataFrame)
    (c y : cell) (a : app) :
  male_df (session a) = None ∨ female_df (session a) = None →
  let a' := (process_upload (Some (Sheet mraw)) (Some (Sheet fraw)) a).2 in
  shown a' = shown a ++ [loaded_message (countries (session a')) (years (session a'))] →
  matching_rows (normalised mraw) c y = Returned mr → rows mr ≠ [] →
  matching_rows (normalised fraw) c y = Returned fr → rows fr ≠ [] →
  c ∈ countries (session a') ∧ y ∈ years (session a').
Proof.
  intros Hnone. cbn zeta.
  destruct (upload_cases mraw fraw a Hnone)
    as [(ra & rb & cs & ya & yb & ys & Hra & Hrb & Hcs & Hya & Hyb & Hys & ->)|[e ->]];
    cbn [fst snd session shown countries years].
  - intros _ Hmr Hmne Hfr Hfne.
    destruct (matching_rows_found _ _ _ _ Hmr Hmne)
      as (ra' & ya' & Hra' & Hya' & ? & ? & Hc & Hy).
    destruct (matching_rows_found _ _ _ _ Hfr Hfne)
      as (rb' & yb' & Hrb' & Hyb' & ? & ? & _ & _).
    assert (ra' = ra) as -> by congruence. assert (rb' = rb) as -> by congruence.
    assert (ya' = ya) as -> by congruence. assert (yb' = yb) as -> by congruence.
    split.
    + apply (py_sorted_elem_of _ _ _ c Hcs Hc). by split.
    + apply (py_sorted_elem_of _ _ _ y Hys Hy). by split.
  - intros Hshown. apply app_inv_head in Hshown. done.
Qed.

End UploadOutcomes.

(** ** A batch as a whole (lines 215-273) *)

Section Batch.
Variable py_str : cell → string.
Variable format_f : nat → float64 → string.
Variable parse_number : string → float64x.

Local Abbreviation generate_one := (generate_one py_str format_f parse_number).
Local Abbreviation generate_pyramids := (generate_pyramids py_str format_f parse_number).
Local Abbreviation not_found_warning := (not_found_warning py_str).

(** The loop body either adds one pyramid for its selection, or shows the
    warning, or raises and leaves everything as it was. *)
Lemma generate_one_cases (sv : bool) (sel : selection) (a : app) :
  (∃ p, generate_one sv sel a
        = (Returned (),
           mkApp (set_generated_pyramids (generated_pyramids (session a) ++ [p])
                    (session a)) (shown a))
        ∧ selection_of p = sel)
  ∨ generate_one sv sel a
    = (Returned (), mkApp (session a) (shown a ++ [not_found_warning sel]))
  ∨ ∃ e, generate_one sv sel a = (Raised e, a).
Proof.
  unfold generate_one.
  unfold mbind, script_bind, lift, get_session, modify_session, show.
  cbn [mbind outcome_bind fst snd session shown].
  destruct sel as [c y]. cbn [sel_country sel_year].
  repeat case_match; simplify_eq/=; eauto.
Qed.

Lemma generate_one_keys (sv : bool) (sel : selection) (a : app) :
  let a' := (generate_one sv sel a).2 in
  male_df (session a') = male_df (session a)
  ∧ female_df (session a') = female_df (session a)
  ∧ age_cols (session a') = age_cols (session a)
  ∧ countries (session a') = countries (session a)
  ∧ years (session a') = years (session a)
  ∧ pyramid_selections (session a') = pyramid_selections (session a).
Proof.
  cbn zeta.
  destruct (generate_one_cases sv sel a) as [(p & -> & _)|[->|[e ->]]]; done.
Qed.

Lemma for_each_generate_keys (sv : bool) (sels : list selection) (a : app) :
  let a' := (for_each sels (generate_one sv) a).2 in
  male_df (session a') = male_df (session a)
  ∧ female_df (session a') = female_df (session a)
  ∧ age_cols (session a') = age_cols (session a)
  ∧ countries (session a') = countries (session a)
  ∧ years (session a') = years (session a)
  ∧ pyramid_selections (session a') = pyramid_selections (session a).
Proof.
  revert a. induction sels as [|sel sels IH]; intros a; [done|].
  cbn [for_each]. unfold mbind, script_bind.
  pose proof (generate_one_keys sv sel a) as Hone.
  destruct (generate_one sv sel a) as [[[]|e] a1]; [|exact Hone].
  cbn zeta in Hone. cbn [snd] in Hone.
  destruct (IH a1) as (-> & -> & -> & -> & -> & ->). exact Hone.
Qed.

(** X22. A batch, whether it returns or raises, leaves the two tables, the age
    bands, the offered countries and years and the selections of the session
    as they were. *)
Theorem generation_keeps_loaded_data (sv : bool) (a : app) :
  let a' := (generate_pyramids sv a).2 in
  male_df (session a') = male_df (session a)
  ∧ female_df (session a') = female_df (session a)
  ∧ age_cols (session a') = age_cols (session a)
  ∧ countries (session a') = countries (session a)
  ∧ years (session a') = years (session a)
  ∧ pyramid_selections (session a') = pyramid_selections (session a).
Proof.
  cbn zeta.
  set (start := mkApp (set_generated_pyramids [] (session a)) (shown a)).
  assert (∃ a1, (generate_pyramids sv a).2 = a1
            ∧ male_df (session a1) = male_df (session start)
            ∧ female_df (session a1) = female_df (session start)
            ∧ age_cols (session a1) = age_cols (session start)
            ∧ countries (session a1) = countries (session start)
            ∧ years (session a1) = years (session start)
            ∧ pyramid_selections (session a1) = pyramid_selections (session start))
    as (a1 & -> & Ha1); [|exact Ha1].
  unfold generate_pyramids, mbind, script_bind, modify_session, get_session, show.
  cbn [fst snd session]. fold start.
  pose proof (for_each_generate_keys sv (pyramid_selections (session start)) start)
    as Hloop.
  cbn zeta in Hloop.
  destruct (for_each _ _ start) as [[[]|e] a1]; eexists; (split; [reflexivity|]);
    exact Hloop.
Qed.

Lemma for_each_accounting (sv : bool) (sels : list selection) (a a' : app) :
  for_each sels (generate_one sv) a = (Returned (), a') →
  ∃ ps warned,
    session a' = set_generated_pyramids (generated_pyramids (session a) ++ ps)
                   (session a)
    ∧ shown a' = shown a ++ (not_found_warning <$> warned)
    ∧ sublist (selection_of <$> ps) sels
    ∧ sublist warned sels
    ∧ (selection_of <$> ps) ++ warned ≡ₚ sels.
Proof.
  revert a. induction sels as [|sel sels IH]; intros a.
  - intros [= <-]. exists [], []. rewrite !app_nil_r. by destruct a as [[]].
  - cbn [for_each]. unfold mbind, script_bind.
    destruct (generate_one_cases sv sel a) as [(p & -> & Hp)|[->|[e ->]]]; [| |done].
    + intros (ps & warned & Hs & Hsh & Hsub1 & Hsub2 & Hperm)%IH.
      exists (p :: ps), warned. cbn [session shown] in *.
      rewrite Hs, Hsh. split_and!.
      * cbn [generated_pyramids set_generated_pyramids]. unfold set_generated_pyramids.
        cbn. by rewrite <-app_assoc.
      * done.
      * rewrite fmap_cons, Hp. by apply sublist_skip.
      * by apply sublist_cons.
      * rewrite fmap_cons, Hp. simpl. by f_equiv.
    + intros (ps & warned & Hs & Hsh & Hsub1 & Hsub2 & Hperm)%IH.
      exists ps, (sel :: warned). cbn [session shown] in *.
      rewrite Hs, Hsh. split_and!.
      * done.
      * by rewrite fmap_cons, <-app_assoc.
      * by apply sublist_cons.
      * by apply sublist_skip.
      * rewrite <-Permutation_middle. by f_equiv.
Qed.

(** X23. A batch that returns accounts for every selection once: the pyramids in
    the session afterwards answer, in selection order, some of the
    selections; the others, in selection order, got the warning; the
    messages shown are these warnings followed by the closing message, which
    counts the pyramids. Pyramids of an earlier batch are gone. *)
Theorem batch_accounting (sv : bool) (a a' : app) :
  generate_pyramids sv a = (Returned (), a') →
  let sels := pyramid_selections (session a) in
  let made := selection_of <$> generated_pyramids (session a') in
  ∃ warned,
    sublist made sels ∧ sublist warned sels
    ∧ made ++ warned ≡ₚ sels
    ∧ shown a' = shown a ++ (not_found_warning <$> warned)
                 ++ [Success ("✅ Generated " +:+ pretty (length made) +:+ " pyramids!")].
Proof.
  cbn zeta. unfold generate_pyramids.
  unfold mbind at 1, script_bind at 1. cbn [modify_session].
  unfold mbind at 1, script_bind at 1. cbn [get_session session].
  unfold mbind at 1, script_bind at 1.
  set (start := mkApp (set_generated_pyramids [] (session a)) (shown a)).
  change (pyramid_selections (set_generated_pyramids [] (session a)))
    with (pyramid_selections (session a)).
  destruct (for_each _ _ start) as [[[]|e] a1] eqn:Hloop; [|done].
  apply for_each_accounting in Hloop as (ps & warned & Hs & Hsh & Hsub1 & Hsub2 & Hperm).
  unfold mbind, script_bind, get_session, show. cbn [fst snd].
  intros [= <-]. cbn [session shown]. rewrite Hs, Hsh.
  cbn [generated_pyramids set_generated_pyramids session start app_nil_l].
  exists warned. unfold set_generated_pyramids. cbn.
  split_and!; [done..|]. by rewrite length_fmap, <-app_assoc.
Qed.

(** X24. An exception raised for one selection ends the whole batch: it is raised
    to the caller, the state is the one reached after the selections before
    it (their pyramids and warnings are kept), the later selections are not
    looked at and no closing message is shown. *)
Theorem raise_aborts_batch (sv : bool) (before after : list selection)
    (sel : selection) (e : exn) (a : app) :
  pyramid_selections (session a) = before ++ sel :: after →
  let start := mkApp (set_generated_pyramids [] (session a)) (shown a) in
  let r := for_each before (generate_one sv) start in
  r.1 = Returned () →
  (generate_one sv sel r.2).1 = Raised e →
  generate_pyramids sv a = (Raised e, r.2).
Proof.
  intros Hsels. cbn zeta. intros Hbefore Hsel.
  unfold generate_pyramids.
  unfold mbind at 1, script_bind at 1. cbn [modify_session].
  unfold mbind at 1, script_bind at 1. cbn [get_session session].
  unfold mbind at 1, script_bind at 1.
  change (pyramid_selections (set_generated_pyramids [] (session a)))
    with (pyramid_selections (session a)).
  rewrite Hsels, for_each_app.
  destruct (for_each before _ _) as [[[]|e'] a1]; [|done].
  cbn [for_each snd] in *. unfold mbind, script_bind.
  destruct (generate_one_cases sv sel a1) as [(p & Hp & _)|[Hp|[e' Hp]]];
    rewrite Hp in Hsel |- *; [done..|].
  by injection Hsel as ->.
Qed.

Lemma age_counts_length (row : DataFrame) (labels : list string) (data : list cell) :
  age_counts row (Some labels) = Returned data → length data = length labels.
Proof.
  unfold age_counts, getitems.
  destruct (mapM _ labels) as [idx|] eqn:Hidx; [|done].
  apply length_mapM in Hidx. cbn [mbind outcome_bind].
  unfold iloc0. cbn [rows]. destruct (rows row) as [|r rest]; [done|].
  intros [= <-]. by rewrite length_fmap.
Qed.

Lemma matching_rows_columns (df mr : DataFrame) (c y : cell) :
  matching_rows df c y = Returned mr → columns mr ≠ [].
Proof.
  unfold matching_rows, getitem.
  destruct (column_index df region_column) as [i|] eqn:Hi; [|done].
  destruct (column_index df year_column) as [j|]; [|done].
  intros [= <-]. cbn [select_rows columns].
  apply column_index_Some in Hi. intros Hnil. by rewrite Hnil in Hi.
Qed.

(** The loop body for a selection that is found, once its chart and its
    table are made. *)
Lemma generate_one_found (sv : bool) (sel : selection)
    (m f mr fr : DataFrame) (labels : list string) (male_data female_data : list cell)
    (ch : chart) (t : Table) (a : app) :
  male_df (session a) = Some m → female_df (session a) = Some f →
  age_cols (session a) = Some labels →
  matching_rows m (sel_country sel) (sel_year sel) = Returned mr → rows mr ≠ [] →
  matching_rows f (sel_country sel) (sel_year sel) = Returned fr → rows fr ≠ [] →
  age_counts mr (Some labels) = Returned male_data →
  age_counts fr (Some labels) = Returned female_data →
  create_population_pyramid py_str format_f
    (mkSeries (row_dtype m labels) male_data)
    (mkSeries (row_dtype f labels) female_data) labels
    (sel_country sel) (sel_year sel) sv = Returned ch →
  create_data_table parse_number
    (mkSeries (row_dtype m labels) male_data)
    (mkSeries (row_dtype f labels) female_data) labels
    (sel_country sel) (sel_year sel) = Returned t →
  generate_one sv sel a
  = (Returned (),
     mkApp (set_generated_pyramids
              (generated_pyramids (session a)
               ++ [mkPyramid ch (sel_country sel) (sel_year sel) t])
              (session a))
           (shown a)).
Proof.
  intros Hm Hf Hl Hmr Hmne Hfr Hfne Hmd Hfd Hch Ht.
  unfold generate_one.
  unfold mbind at 1, script_bind at 1. cbn [get_session].
  unfold mbind at 1, script_bind at 1, lift at 1.
  rewrite Hm. cbn [loaded mbind outcome_bind]. rewrite Hmr.
  unfold mbind at 1, script_bind at 1, lift at 1.
  rewrite Hf. cbn [loaded mbind outcome_bind]. rewrite Hfr.
  assert (negb (empty mr) && negb (empty fr) = true) as ->.
  { unfold empty. pose proof (matching_rows_columns _ _ _ _ Hmr).
    pose proof (matching_rows_columns _ _ _ _ Hfr).
    by rewrite !bool_decide_false. }
  rewrite Hl. change (default [] (Some labels)) with labels.
  unfold age_series, mbind, script_bind, lift, modify_session.
  rewrite Hmd, Hfd. cbn [outcome_bind]. cbn zeta. cbn [fst snd session].
  by rewrite Hch, Ht.
Qed.

(** X25. A selection that finds a row in both tables, whose counts are read and
    whose chart is made, adds exactly one pyramid with that chart to the
    session and shows nothing: once the chart is made the table cannot fail,
    and it has one row per age band. The two rows given to the renderer and
    to the formatter hold the counts read, with the dtype of the age-band
    columns of their table. *)
Theorem found_selection_appends_pyramid (sv : bool) (sel : selection)
    (m f mr fr : DataFrame) (labels : list string) (male_data female_data : list cell)
    (ch : chart) (a : app) :
  male_df (session a) = Some m → female_df (session a) = Some f →
  age_cols (session a) = Some labels →
  matching_rows m (sel_country sel) (sel_year sel) = Returned mr → rows mr ≠ [] →
  matching_rows f (sel_country sel) (sel_year sel) = Returned fr → rows fr ≠ [] →
  age_counts mr (Some labels) = Returned male_data →
  age_counts fr (Some labels) = Returned female_data →
  create_population_pyramid py_str format_f
    (mkSeries (row_dtype m labels) male_data)
    (mkSeries (row_dtype f labels) female_data) labels
    (sel_country sel) (sel_year sel) sv = Returned ch →
  ∃ t,
    create_data_table parse_number
      (mkSeries (row_dtype m labels) male_data)
      (mkSeries (row_dtype f labels) female_data) labels
      (sel_country sel) (sel_year sel) = Returned t
    ∧ length (rows t) = length labels
    ∧ generate_one sv sel a
      = (Returned (),
         mkApp (set_generated_pyramids
                  (generated_pyramids (session a)
                   ++ [mkPyramid ch (sel_country sel) (sel_year sel) t])
                  (session a))
               (shown a)).
Proof.
  intros Hm Hf Hl Hmr Hmne Hfr Hfne Hmd Hfd Hch.
  pose proof (age_counts_length _ _ _ Hmd) as Hlm.
  pose proof (age_counts_length _ _ _ Hfd) as Hlf.
  eexists. split; [by apply create_data_table_rows|].
  split; [cbn [rows cells]; rewrite length_fmap, !length_zip; lia|].
  eapply generate_one_found; try done. by apply create_data_table_rows.
Qed.

Lemma for_each_found (sv : bool) (m f : DataFrame) (labels : list string)
    (sels : list selection) (a : app) :
  male_df (session a) = Some m → female_df (session a) = Some f →
  age_cols (session a) = Some labels → labels ≠ [] →
  Forall (resolves_numerically m f labels) sels →
  ∃ ps,
    for_each sels (generate_one sv) a
    = (Returned (),
       mkApp (set_generated_pyramids (generated_pyramids (session a) ++ ps)
                (session a))
             (shown a))
    ∧ selection_of <$> ps = sels.
Proof.
  intros Hm Hf Hl Hne Hall. revert a Hm Hf Hl.
  induction Hall as [|sel sels Hsel Hall IH]; intros a Hm Hf Hl.
  - exists []. rewrite app_nil_r. split; [|done]. by destruct a as [[]].
  - destruct Hsel as (mr & fr & ms & fs & Hmr & Hmne & Hfr & Hfne & Hmd & Hfd).
    pose proof (age_counts_length _ _ _ Hmd) as Hlm.
    pose proof (age_counts_length _ _ _ Hfd) as Hlf.
    rewrite length_fmap in Hlm, Hlf.
    destruct (render_numeric py_str format_f (row_dtype m labels)
                (row_dtype f labels) ms fs labels (sel_country sel)
                (sel_year sel) sv Hne Hlm Hlf) as (ch & _ & _ & Hch & _).
    cbn [for_each]. unfold mbind at 1, script_bind at 1.
    erewrite generate_one_found; try done;
      [|apply create_data_table_rows; cbn [cells]; by rewrite length_fmap].
    edestruct IH as (ps & -> & Hps); [done..|].
    eexists (_ :: ps). split.
    + cbn [session shown generated_pyramids set_generated_pyramids].
      unfold set_generated_pyramids. cbn. by rewrite <-app_assoc.
    + rewrite fmap_cons, Hps. by destruct sel.
Qed.

(** X26. A batch of selections that are all found with numeric counts, for at
    least one age band, returns: the session then holds one pyramid per
    selection, in selection order, and the only message shown is the closing
    one with the number of selections. *)
Theorem numeric_batch_completes (sv : bool) (m f : DataFrame)
    (labels : list string) (a : app) :
  male_df (session a) = Some m → female_df (session a) = Some f →
  age_cols (session a) = Some labels → labels ≠ [] →
  Forall (resolves_numerically m f labels) (pyramid_selections (session a)) →
  ∃ a',
    generate_pyramids sv a = (Returned (), a')
    ∧ selection_of <$> generated_pyramids (session a') = pyramid_selections (session a)
    ∧ shown a'
      = shown a ++ [Success ("✅ Generated "
                             +:+ pretty (length (pyramid_selections (session a)))
                             +:+ " pyramids!")].
Proof.
  intros Hm Hf Hl Hne Hall.
  set (start := mkApp (set_generated_pyramids [] (session a)) (shown a)).
  destruct (for_each_found sv m f labels (pyramid_selections (session a)) start)
    as (ps & Hloop & Hps); [done..|].
  unfold generate_pyramids.
  unfold mbind at 1, script_bind at 1. cbn [modify_session].
  unfold mbind at 1, script_bind at 1. cbn [get_session session].
  unfold mbind at 1, script_bind at 1.
  change (pyramid_selections (set_generated_pyramids [] (session a)))
    with (pyramid_selections (session a)).
  fold start. rewrite Hloop.
  unfold mbind, script_bind, get_session, show. cbn [fst snd session shown].
  eexists. split; [reflexivity|]. cbn [session shown].
  unfold set_generated_pyramids. cbn.
  split; [done|]. by rewrite <-Hps, length_fmap.
Qed.

End Batch.

(** ** The properties above at concrete inputs *)

Section Witnesses.
Local Existing Instance Reference.unicode.

(** [column_for_in_range] at the fifth of seven pyramids. *)
Lemma column_for_in_range_witness :
  column_for 7 4 = Returned (4 mod 3) ∧ 4 mod 3 < min 3 7.
Proof. apply (column_for_in_range 7 4). lia. Defined.

(** [widget_keys_distinct] at two download buttons for the same pyramid. *)
Lemma widget_keys_distinct_witness :
  download_key Reference.py_str 0 pyramid_example
  ≠ download_key Reference.py_str 1 pyramid_example
  ∧ country_key 0 ≠ country_key 1
  ∧ year_key 0 ≠ year_key 1.
Proof.
  apply (widget_keys_distinct Reference.py_str 0 1 pyramid_example pyramid_example).
  lia.
Defined.

(** [download_filename_has_no_space] at New Zealand, 2021. *)
Lemma download_filename_has_no_space_witness :
  contains_char " " "pyramid_New_Zealand_2021.png" = false
  ∧ ∃ s, country pyramid_example = Str s
      ∧ (contains_char " " s = false →
         "pyramid_New_Zealand_2021.png"
         = "pyramid_" +:+ s +:+ "_" +:+ Reference.py_str (year pyramid_example)
           +:+ ".png").
Proof.
  apply (download_filename_has_no_space Reference.py_str pyramid_example
           "pyramid_New_Zealand_2021.png"); reflexivity.
Defined.

(** [bars_follow_age_bands] at the counts 10, 20 and 5, 25. *)
Lemma bars_follow_age_bands_witness :
  ∃ c,
    render (numeric (Num <$> [of_decimal 10; of_decimal 20]))
           (numeric (Num <$> [of_decimal 5; of_decimal 25]))
           ["0-4"; "5-9"] (Str "B") (num 2021) true = Returned c
    ∧ bars_male c = imap (fun i m => mkBar i (fin (- m / thousand)%Qc))
                      [of_decimal 10; of_decimal 20]
    ∧ bars_female c = imap (fun i f => mkBar i (fin (f / thousand)%Qc))
                        [of_decimal 5; of_decimal 25]
    ∧ yticks c = seq 0 (length ["0-4"; "5-9"])
    ∧ yticklabels c = ["0-4"; "5-9"].
Proof.
  apply (bars_follow_age_bands Reference.py_str Reference.format_f
           numeric_dtype numeric_dtype [of_decimal 10; of_decimal 20] [of_decimal 5; of_decimal 25]
           ["0-4"; "5-9"] (Str "B") (num 2021) true); [done|reflexivity|reflexivity].
Defined.

(** [bars_within_axis_limits] at the counts 10, 20 and 5, 25. *)
Lemma bars_within_axis_limits_witness :
  ∃ c,
    render (numeric (Num <$> [of_decimal 10; of_decimal 20]))
           (numeric (Num <$> [of_decimal 5; of_decimal 25]))
           ["0-4"; "5-9"] (Str "B") (num 2021) true = Returned c
    ∧ (∀ w, fin w ∈ male_extents c → ((xlim c).1 ≤ w ∧ w ≤ 0)%Qc)
    ∧ (∀ w, fin w ∈ female_extents c → (0 ≤ w ∧ w ≤ (xlim c).2)%Qc).
Proof.
  apply (bars_within_axis_limits Reference.py_str Reference.format_f
           numeric_dtype numeric_dtype [of_decimal 10; of_decimal 20] [of_decimal 5; of_decimal 25]
           ["0-4"; "5-9"] (Str "B") (num 2021) true);
    [done|reflexivity|reflexivity|..]; repeat constructor; by vm_compute.
Defined.

(** [text_cell_raises_type_error] at a placeholder text among the female
    counts. *)
Lemma text_cell_raises_type_error_witness :
  ∃ msg,
    render (numeric [num 1; num 2]) (mkSeries object_dtype [Str "..."; num 2])
           ["0-4"; "5-9"] (Str "A") (num 2020) true
    = Raised (TypeError msg).
Proof.
  apply (text_cell_raises_type_error Reference.py_str Reference.format_f
           (numeric [num 1; num 2]) (mkSeries object_dtype [Str "..."; num 2])
           ["0-4"; "5-9"] (Str "A") (num 2020) true "...").
  right. by left.
Defined.

(** [missing_male_count_raises] at a missing male count for the first age
    band, in a row of numeric dtype. *)
Lemma missing_male_count_raises_witness :
  render (numeric [NaN; num 10]) (numeric [num 5; num 25]) ["0-4"; "5-9"]
         (Str "B") (num 2021) false
  = Raised (ValueError "Axis limits cannot be NaN or Inf").
Proof.
  apply (missing_male_count_raises Reference.py_str Reference.format_f
           (numeric [NaN; num 10]) (numeric [num 5; num 25])
           ["0-4"; "5-9"] (Str "B") (num 2021) false);
    [reflexivity|reflexivity|by repeat constructor|by repeat constructor|].
  left. split; [reflexivity|by left].
Defined.

(** The same counts in a row of object dtype: the missing count is not the
    last one, numpy's minimum passes over it, and the chart is made. *)
Example missing_male_count_in_object_row :
  ∃ c,
    render (mkSeries object_dtype [NaN; num 10]) (numeric [num 5; num 25])
           ["0-4"; "5-9"] (Str "B") (num 2021) false = Returned c
    ∧ male_extents c = [nan; fin (- of_decimal 10 / thousand)%Qc]
    ∧ summary c = "Total: nank" +:+ nl +:+ "Male: nank" +:+ nl
                  +:+ "Female: 0.0million".
Proof.
  eexists. split; [vm_compute; reflexivity|].
  cbn [male_extents bars_male summary fmap list_fmap bar_width]. split; [|done].
  do 2 f_equal.
Qed.

(** [value_labels_of_numeric_counts] at the counts 10, 0 and 5, 25: the male
    bar of the second age band has no label. *)
Lemma value_labels_of_numeric_counts_witness :
  ∃ c,
    render (numeric (Num <$> [of_decimal 10; of_decimal 0]))
           (numeric (Num <$> [of_decimal 5; of_decimal 25]))
           ["0-4"; "5-9"] (Str "B") (num 2021) true = Returned c
    ∧ value_labels c
      = concat (imap (fun i p => bar_labels Reference.format_f i p.1 p.2)
                  (zip ((fun m => (- m / thousand)%Qc) <$> [of_decimal 10; of_decimal 0])
                       ((fun f => (f / thousand)%Qc) <$> [of_decimal 5; of_decimal 25]))).
Proof.
  apply (value_labels_of_numeric_counts Reference.py_str Reference.format_f
           numeric_dtype numeric_dtype [of_decimal 10; of_decimal 0] [of_decimal 5; of_decimal 25]
           ["0-4"; "5-9"] (Str "B") (num 2021) true); [done|reflexivity|reflexivity].
Defined.

(** [missing_female_count_is_ignored] at a missing female count for the
    first age band, in a row of numeric dtype. *)
Lemma missing_female_count_is_ignored_witness :
  ∃ c lo,
    render (numeric (Num <$> [of_decimal 10; of_decimal 20])) (numeric [NaN; num 5])
           ["0-4"; "5-9"] (Str "B") (num 2021) false = Returned c
    ∧ is_minimum lo (male_extents c)
    ∧ xlim c = symmetric_limits (of_decimal 1.15 * Qc_abs lo)%Qc
    ∧ summary c
      = "Total: " +:+ Reference.format_f 1 nan +:+ "k" +:+ nl
        +:+ "Male: " +:+ Reference.format_f 1 (Float.abs (Np.sum (male_extents c)))
        +:+ "k" +:+ nl
        +:+ "Female: " +:+ Reference.format_f 1 nan +:+ "million".
Proof.
  apply (missing_female_count_is_ignored Reference.py_str Reference.format_f
           numeric_dtype [of_decimal 10; of_decimal 20] (numeric [NaN; num 5])
           ["0-4"; "5-9"] (Str "B") (num 2021) false);
    [reflexivity|reflexivity|by repeat constructor|].
  left. split; [reflexivity|by left].
Defined.

(** [progress_within_unit] at the second of three selections. *)
Lemma progress_within_unit_witness :
  (0 < progress_value 1 3)%Qc ∧ (progress_value 1 3 ≤ 1)%Qc
  ∧ (progress_value 1 3 = 1%Qc ↔ 1 + 1 = 3).
Proof. apply (progress_within_unit 1 3). lia. Defined.

(** [unreadable_file_changes_nothing] at an unreadable female file, before
    anything was loaded. *)
Lemma unreadable_file_changes_nothing_witness :
  let a' := mkApp (session fresh)
              (shown fresh ++ [Error ("❌ Error loading files: " +:+ "not a workbook")]) in
  process_upload (Some (Sheet male_example)) (Some (Unreadable "not a workbook")) fresh
  = (Returned (), a')
  ∧ configuration_section Reference.py_str Reference.format_f Reference.parse_number
      [mkSelection (Str "B") (num 2021)] true true a'
    = (Returned (), a').
Proof.
  apply (unreadable_file_changes_nothing Reference.py_str Reference.format_f
           Reference.parse_number (Sheet male_example) (Unreadable "not a workbook")
           "not a workbook" [mkSelection (Str "B") (num 2021)] true true fresh).
  - by left.
  - right. split; [by exists male_example|reflexivity].
Defined.

(** [offered_keys_have_no_duplicates] at the two example sheets: country B
    is in two rows of the male sheet and is offered once. *)
Lemma offered_keys_have_no_duplicates_witness :
  let a' := (process_upload (Some (Sheet male_example)) (Some (Sheet female_example))
               fresh).2 in
  NoDup (countries (session a')) ∧ NoDup (years (session a')).
Proof.
  apply (offered_keys_have_no_duplicates (Some (Sheet male_example))
           (Some (Sheet female_example)) fresh); apply NoDup_nil_2.
Defined.

(** [resolvable_selection_is_offered] at country B and year 2021 of the two
    example sheets. *)
Lemma resolvable_selection_is_offered_witness :
  let a' := (process_upload (Some (Sheet male_example)) (Some (Sheet female_example))
               fresh).2 in
  Str "B" ∈ countries (session a') ∧ num 2021 ∈ years (session a').
Proof.
  apply (resolvable_selection_is_offered male_example female_example
           (mkDataFrame (columns male_example) [[Str "B"; num 2021; num 10; num 20]])
           (mkDataFrame (columns female_example)
              [[Str "B"; num 2021; num 25; num 5; num 7]])
           (Str "B") (num 2021) fresh);
    [by left|reflexivity|reflexivity|done|reflexivity|done].
Defined.

(** [batch_accounting] at the batch of [batch_example]. *)
Lemma batch_accounting_witness :
  let run := generate_pyramids Reference.py_str Reference.format_f
               Reference.parse_number true batch_example in
  let sels := pyramid_selections (session batch_example) in
  let made := selection_of <$> generated_pyramids (session run.2) in
  ∃ warned,
    sublist made sels ∧ sublist warned sels
    ∧ made ++ warned ≡ₚ sels
    ∧ shown run.2
      = shown batch_example ++ (not_found_warning Reference.py_str <$> warned)
        ++ [Success ("✅ Generated " +:+ pretty (length made) +:+ " pyramids!")].
Proof.
  apply (batch_accounting Reference.py_str Reference.format_f Reference.parse_number
           true batch_example).
  vm_compute. reflexivity.
Defined.

(** [raise_aborts_batch] at the batch of [text_batch_example]: the second
    selection meets a text among the female counts. *)
Lemma raise_aborts_batch_witness :
  let one := generate_one Reference.py_str Reference.format_f Reference.parse_number
               true in
  let start := mkApp (set_generated_pyramids [] (session text_batch_example))
                 (shown text_batch_example) in
  generate_pyramids Reference.py_str Reference.format_f Reference.parse_number
    true text_batch_example
  = (Raised (TypeError "unsupported operand type(s) for /: 'str' and 'int'"),
     (for_each [mkSelection (Str "B") (num 2021)] one start).2).
Proof.
  apply (raise_aborts_batch Reference.py_str Reference.format_f Reference.parse_number
           true [mkSelection (Str "B") (num 2021)] [mkSelection (Str "B") (num 2021)]
           (mkSelection (Str "A") (num 2020))
           (TypeError "unsupported operand type(s) for /: 'str' and 'int'")
           text_batch_example); vm_compute; reflexivity.
Defined.

(** [found_selection_appends_pyramid] at the first selection of
    [batch_example]. *)
Lemma found_selection_appends_pyramid_witness :
  ∃ ch t,
    tabulate (numeric [num 10; num 20]) (numeric [num 5; num 25])
             ["0-4"; "5-9"] (Str "B") (num 2021)
    = Returned t
    ∧ length (rows t) = length ["0-4"; "5-9"]
    ∧ generate_one Reference.py_str Reference.format_f Reference.parse_number true
        (mkSelection (Str "B") (num 2021)) batch_example
      = (Returned (),
         mkApp (set_generated_pyramids
                  (generated_pyramids (session batch_example)
                   ++ [mkPyramid ch (Str "B") (num 2021) t])
                  (session batch_example))
               (shown batch_example)).
Proof.
  eexists.
  apply (found_selection_appends_pyramid Reference.py_str Reference.format_f
           Reference.parse_number true (mkSelection (Str "B") (num 2021))
           male_example female_example
           (mkDataFrame (columns male_example) [[Str "B"; num 2021; num 10; num 20]])
           (mkDataFrame (columns female_example)
              [[Str "B"; num 2021; num 25; num 5; num 7]])
           ["0-4"; "5-9"] [num 10; num 20] [num 5; num 25] _ batch_example);
    [reflexivity|reflexivity|reflexivity|reflexivity|done|reflexivity|done
    |reflexivity|reflexivity|vm_compute; reflexivity].
Defined.

(** [display_rows_partition] at four pyramids: the second row holds the
    fourth one alone. *)
Lemma display_rows_partition_witness :
  display_rows [10; 20; 30; 40] !! 1 = Some [40]
  ∧ length [40] = min 3 (length [10; 20; 30; 40] - 1 * 3) ∧ 1 ≤ length [40] ≤ 3.
Proof.
  split; [reflexivity|].
  apply (proj2 (proj2 (display_rows_partition [10; 20; 30; 40])) 1 [40]).
  reflexivity.
Defined.

(** [matching_rows_selects] at country B and year 2021 of the male example
    table. *)
Lemma matching_rows_selects_witness :
  ∃ mr,
    matching_rows male_example (Str "B") (num 2021) = Returned mr
    ∧ columns mr = columns male_example
    ∧ sublist (rows mr) (rows male_example)
    ∧ (∀ r, r ∈ rows mr ↔
            r ∈ rows male_example
            ∧ cell_at male_example r region_column = Str "B" ∧ Str "B" ≠ NaN
            ∧ cell_at male_example r year_column = num 2021 ∧ num 2021 ≠ NaN).
Proof.
  eexists. split; [reflexivity|].
  apply (proj2 (proj2 (matching_rows_selects male_example (Str "B") (num 2021)))).
  reflexivity.
Defined.

(** [age_counts_of_first_row] at the rows of the female example table, read
    under the age bands of the male sheet, and the male example table read
    under the age bands of the female sheet, of which it lacks "10-14". *)
Lemma age_counts_of_first_row_witness :
  age_counts female_example (Some ["0-4"; "5-9"])
  = Returned ((fun l => cell_at female_example [Str "B"; num 2021; num 25; num 5; num 7] l)
                <$> ["0-4"; "5-9"])
  ∧ age_counts male_example (Some ["5-9"; "0-4"; "10-14"])
    = Raised (KeyErrorLabels ["5-9"; "0-4"; "10-14"]
                (missing_labels male_example ["5-9"; "0-4"; "10-14"])).
Proof.
  split.
  - apply (proj1 (age_counts_of_first_row female_example ["0-4"; "5-9"])
             [Str "B"; num 2021; num 25; num 5; num 7]
             [[Str "C"; num 2021; num 1; num 2; num 3]]); [reflexivity|].
    intros l Hl. repeat (apply elem_of_cons in Hl as [->|Hl]).
    + do 3 right. left.
    + do 2 right. left.
    + by apply elem_of_nil in Hl.
  - apply (proj2 (proj2 (age_counts_of_first_row male_example
                           ["5-9"; "0-4"; "10-14"])) "10-14").
    + do 2 right. left.
    + intros Hin. repeat (apply elem_of_cons in Hin as [Hin|Hin]; [done|]).
      by apply elem_of_nil in Hin.
Defined.

(** The text of that [KeyError], as pandas words it. *)
Example missing_age_band_message :
  missing_labels male_example ["5-9"; "0-4"; "10-14"] = ["10-14"]
  ∧ str_exn (KeyErrorLabels ["5-9"; "0-4"; "10-14"] ["10-14"])
    = double_quote +:+ "['10-14'] not in index" +:+ double_quote
  ∧ str_exn (KeyErrorLabels ["5-9"] ["5-9"])
    = double_quote +:+ "None of [Index(['5-9'], dtype='object')] are in the [columns]"
      +:+ double_quote.
Proof. by vm_compute. Qed.

(** [age_band_starts_with_digit] at the column "0-4" of the male example
    table. *)
Lemma age_band_starts_with_digit_witness :
  ∃ d rest, "0-4" = String d rest ∧ PyStr.is_digit d = true.
Proof.
  apply (proj1 (age_band_starts_with_digit male_example) "0-4"); [|reflexivity].
  vm_compute. left.
Defined.

(** [numeric_batch_completes] at the example tables and a batch that asks
    twice for country B in 2021. *)
Lemma numeric_batch_completes_witness :
  let a := mkApp (set_pyramid_selections
                    [mkSelection (Str "B") (num 2021); mkSelection (Str "B") (num 2021)]
                    (session batch_example)) [] in
  ∃ a',
    generate_pyramids Reference.py_str Reference.format_f Reference.parse_number true a
    = (Returned (), a')
    ∧ selection_of <$> generated_pyramids (session a') = pyramid_selections (session a)
    ∧ shown a'
      = shown a ++ [Success ("✅ Generated "
                             +:+ pretty (length (pyramid_selections (session a)))
                             +:+ " pyramids!")].
Proof.
  assert (resolves_numerically male_example female_example ["0-4"; "5-9"]
            (mkSelection (Str "B") (num 2021))) as Hsel.
  { exists (mkDataFrame (columns male_example) [[Str "B"; num 2021; num 10; num 20]]),
      (mkDataFrame (columns female_example) [[Str "B"; num 2021; num 25; num 5; num 7]]),
      [of_decimal 10; of_decimal 20], [of_decimal 5; of_decimal 25].
    split_and!; (reflexivity || done). }
  apply (numeric_batch_completes Reference.py_str Reference.format_f
           Reference.parse_number true male_example female_example ["0-4"; "5-9"]);
    [reflexivity|reflexivity|reflexivity|done|].
  apply Forall_cons_2; [exact Hsel|]. apply Forall_cons_2; [exact Hsel|].
  apply Forall_nil_2.
Defined.

End Witnesses.
